(** * Factiva Analytics: the authentication layer

    A shallow embedding of [factiva.analytics.auth.userkey] and
    [factiva.analytics.auth.accountinfo]: the [UserKey] credential, its
    remote validation and cloud-token exchange, and the [AccountInfo]
    account view with its statistics, extraction list and stream list.

    Python objects are records, attribute assignment is explicit state
    passing, exceptions are an error result, and every call of
    [req.api_send_request] is recorded in a trace of requests. *)

From Stdlib Require Import String Ascii List ZArith Bool Lia.
Import ListNotations.
Open Scope string_scope.
Open Scope list_scope.

(** ** Python values

    The values that reach this code come out of JSON documents: [None],
    booleans, integers, strings, lists and dicts.  [PyNaN] is the float
    [nan] with which pandas fills a missing cell.  A dict is an
    association list in insertion order; its keys are distinct and lookup
    takes the first binding. *)

#[local] Set Warnings "-register-all".

Inductive value : Type :=
| PyNone
| PyNaN
| PyBool (b : bool)
| PyInt (z : Z)
| PyStr (s : string)
| PyList (l : list value)
| PyDict (d : list (string * value)).

Definition dict := list (string * value).

(** The exceptions the code raises itself carry their message; the ones
    raised by the interpreter or a library are identified by their class.
    [JSONDecodeError] is a subclass of [ValueError], the others are the
    builtin classes; all of them are subclasses of [Exception]. *)

Inductive exn : Type :=
| ValueError (msg : string)
| RuntimeError (msg : string)
| RuntimeError_format (template : string) (req_head : list (string * option string))
| AttributeError (msg : string)
| TypeError
| KeyError (k : string)
| IndexError
| JSONDecodeError
| TransportError.

Inductive outcome (A : Type) : Type :=
| Return (a : A)
| Raise (e : exn).
Arguments Return {A} a.
Arguments Raise {A} e.

Definition is_TypeError (e : exn) : bool :=
  match e with TypeError => true | _ => false end.

(** ** Builtin operations on values *)

Fixpoint lookup (k : string) (d : dict) : option value :=
  match d with
  | [] => None
  | (k', v) :: d' => if String.eqb k k' then Some v else lookup k d'
  end.

(** [v[k]] for a string [k]: only a dict can be subscripted by a string. *)
Definition getitem (v : value) (k : string) : outcome value :=
  match v with
  | PyDict d => match lookup k d with
                | Some x => Return x
                | None => Raise (KeyError k)
                end
  | _ => Raise TypeError
  end.

(** [v[k1][k2]...]. *)
Fixpoint path (v : value) (ks : list string) : outcome value :=
  match ks with
  | [] => Return v
  | k :: ks' => match getitem v k with
                | Return x => path x ks'
                | Raise e => Raise e
                end
  end.

(** Truth value of an object, as [if v:] tests it. *)
Definition truthy (v : value) : bool :=
  match v with
  | PyNone => false
  | PyNaN => true
  | PyBool b => b
  | PyInt z => negb (z =? 0)%Z
  | PyStr s => negb (String.eqb s "")
  | PyList l => match l with [] => false | _ => true end
  | PyDict d => match d with [] => false | _ => true end
  end.

(** [a - b]: defined on numbers ([bool] is a subclass of [int]); [nan]
    absorbs. *)
Definition py_sub (a b : value) : outcome value :=
  let num v := match v with
               | PyInt z => Some (Some z)
               | PyBool b => Some (Some (if b then 1 else 0)%Z)
               | PyNaN => Some None
               | _ => None
               end in
  match num a, num b with
  | Some (Some x), Some (Some y) => Return (PyInt (x - y))
  | Some _, Some _ => Return PyNaN
  | _, _ => Raise TypeError
  end.

(** Iteration ([for i in v]): the elements of a list, the characters of a
    string, the keys of a dict. *)
Fixpoint chars (s : string) : list value :=
  match s with
  | EmptyString => []
  | String c s' => PyStr (String c EmptyString) :: chars s'
  end.

Definition py_iter (v : value) : outcome (list value) :=
  match v with
  | PyList l => Return l
  | PyStr s => Return (chars s)
  | PyDict d => Return (map (fun kv => PyStr (fst kv)) d)
  | _ => Raise TypeError
  end.

(** [s.split(sep)] for a one-character separator. *)
Fixpoint split (sep : ascii) (s : string) : list string :=
  match s with
  | EmptyString => [EmptyString]
  | String c s' =>
      if Ascii.eqb c sep then EmptyString :: split sep s'
      else match split sep s' with
           | [] => [String c EmptyString]
           | w :: ws => String c w :: ws
           end
  end.

Definition hyphen : ascii := "-"%char.

(** [l[-k]] for [k >= 1]. *)
Definition neg_index {A} (l : list A) (k : nat) : outcome A :=
  if Nat.ltb (length l) k then Raise IndexError
  else match nth_error l (length l - k) with
       | Some x => Return x
       | None => Raise IndexError
       end.

(** ** The HTTP transport and the other collaborators

    [req.api_send_request], [config.load_environment_value], [json.loads],
    [tools.flatten_dict] and the constants of [const] live outside these
    two modules; they are parameters of the development. *)

Record request := {
  method : string;
  endpoint_url : string;
  headers : list (string * option string)
}.

Record response := {
  status_code : Z;
  text : string;
  json : option value   (* what [response.json()] decodes; [None]: not JSON *)
}.

Definition trace := list request.

Record externals := {
  API_HOST : string;
  API_ACCOUNT_BASEPATH : string;
  ALPHA_BASEPATH : string;
  API_ACCOUNT_STREAM_CREDENTIALS_BASEPATH : string;
  API_SNAPSHOTS_TAXONOMY_BASEPATH : string;
  API_EXTRACTIONS_BASEPATH : string;
  API_STREAMS_BASEPATH : string;
  API_JOB_RUNNING_STATE : string;
  (* the remote service: its answer may depend on the requests seen so far *)
  server : trace -> request -> outcome response;
  load_environment_value : string -> outcome string;
  json_decode : string -> option value;
  flatten_dict : value -> outcome dict
}.

Definition response_json (r : response) : outcome value :=
  match json r with
  | Some v => Return v
  | None => Raise JSONDecodeError
  end.

(** [json.loads(v)]: a [TypeError] unless [v] is a string. *)
Definition json_loads (ext : externals) (v : value) : outcome value :=
  match v with
  | PyStr s => match json_decode ext s with
               | Some x => Return x
               | None => Raise JSONDecodeError
               end
  | _ => Raise TypeError
  end.

(** ** Methods as state transformers

    A method runs on the object [self] and on the trace of the requests
    sent so far; it returns a value or raises, and in both cases leaves an
    updated object and trace behind.  The logger and the
    [@log.factiva_logger()] decorator only observe and are left out. *)

Definition M (S A : Type) : Type := S -> trace -> outcome A * S * trace.

Definition ret {S A} (a : A) : M S A := fun s t => (Return a, s, t).

Definition raise {S A} (e : exn) : M S A := fun s t => (Raise e, s, t).

Definition bind {S A B} (m : M S A) (k : A -> M S B) : M S B :=
  fun s t =>
    match m s t with
    | (Return a, s', t') => k a s' t'
    | (Raise e, s', t') => (Raise e, s', t')
    end.

Declare Scope py_scope.
Delimit Scope py_scope with py.
Notation "x <- m ;; k" := (bind m (fun x => k))
  (at level 100, m at next level, right associativity) : py_scope.
Notation "m ;;; k" := (bind m (fun _ => k))
  (at level 100, right associativity) : py_scope.
Open Scope py_scope.

Definition get_self {S} : M S S := fun s t => (Return s, s, t).

Definition modify {S} (f : S -> S) : M S unit := fun s t => (Return tt, f s, t).

Definition lift {S A} (o : outcome A) : M S A := fun s t => (o, s, t).

(** [try: body  except <classes>: handler]; an exception outside the
    classes propagates. *)
Definition try_except {S A} (body : M S A) (catches : exn -> bool)
    (handler : exn -> M S A) : M S A :=
  fun s t =>
    match body s t with
    | (Raise e, s', t') => if catches e then handler e s' t' else (Raise e, s', t')
    | r => r
    end.

Definition any_Exception (_ : exn) : bool := true.

(** [req.api_send_request(method, endpoint_url, headers)]. *)
Definition api_send_request {S} (ext : externals) (r : request) : M S response :=
  fun s t => (server ext t r, s, t ++ [r]).

(** Calling a class: [__init__] runs on a fresh instance, which is the
    result unless [__init__] raises. *)
Definition construct {S O} (fresh : O) (init : M O unit) : M S O :=
  fun s t =>
    match init fresh t with
    | (Return _, o, t') => (Return o, s, t')
    | (Raise e, _, t') => (Raise e, s, t')
    end.

(** ** [UserKey] *)

Module UserKey.

Record obj := {
  key : option string;
  cloud_token : value
}.

(** The class attributes [key: str = None] and [cloud_token: dict = None]. *)
Definition fresh : obj := {| key := None; cloud_token := PyNone |}.

Definition set_key (k : option string) (self : obj) : obj :=
  {| key := k; cloud_token := cloud_token self |}.

Definition set_cloud_token (v : value) (self : obj) : obj :=
  {| key := key self; cloud_token := v |}.

(** What a caller may pass as [key]: nothing, a string, or (through
    [AccountInfo]) a [UserKey] instance. *)
Inductive arg :=
| ArgNone
| ArgStr (s : string)
| ArgUserKey (u : obj).

(** [len(key)]: [UserKey] defines no [__len__]. *)
Definition len (a : arg) : outcome nat :=
  match a with
  | ArgStr s => Return (String.length s)
  | _ => Raise TypeError
  end.

Definition API_CLOUD_TOKEN_URL (ext : externals) : string :=
  API_HOST ext ++ ALPHA_BASEPATH ext ++ API_ACCOUNT_STREAM_CREDENTIALS_BASEPATH ext.

Definition taxonomy_request (ext : externals) (k : option string) : request :=
  {| method := "GET";
     endpoint_url := API_HOST ext ++ API_SNAPSHOTS_TAXONOMY_BASEPATH ext;
     headers := [("user-key", k)] |}.

Definition cloud_token_request (ext : externals) (k : option string) : request :=
  {| method := "GET";
     endpoint_url := API_CLOUD_TOKEN_URL ext;
     headers := [("user-key", k)] |}.

Definition is_active (ext : externals) : M obj bool :=
  self <- get_self ;;
  response <- api_send_request ext (taxonomy_request ext (key self)) ;;
  if (status_code response =? 200)%Z then ret true else ret false.

Definition auth_failed_template : string :=
  "
                Extraction API authentication failed for given
                credentials header:{}
                ".

Definition limited_access_message : string :=
  "Unable to get a cloud token for the given key. This account might have limited access.".

Definition get_cloud_token (ext : externals) : M obj bool :=
  self <- get_self ;;
  let req_head := [("user-key", key self)] in
  response <- api_send_request ext (cloud_token_request ext (key self)) ;;
  (if (status_code response =? 401)%Z
   then raise (RuntimeError_format auth_failed_template req_head)
   else ret tt) ;;;
  streaming_credentials_string <-
    try_except
      (body <- lift (response_json response) ;;
       lift (path body ["data"; "attributes"; "streaming_credentials"]))
      is_TypeError
      (fun _ => raise (ValueError limited_access_message)) ;;
  (match streaming_credentials_string with
   | PyNone => ret tt
   | s => token <- lift (json_loads ext s) ;; modify (set_cloud_token token)
   end) ;;;
  ret true.

Definition wrong_length_message : string := "Factiva User-Key has the wrong length".
Definition inactive_message : string := "Factiva User-Key does not exist or inactive.".
Definition not_provided_message : string :=
  "key parameter not provided and environment variable FACTIVA_USERKEY not set.".

Definition __init__ (ext : externals) (key : arg) : M obj unit :=
  key <- match key with
         | ArgNone =>
             try_except
               (k <- lift (load_environment_value ext "FACTIVA_USERKEY") ;; ret (ArgStr k))
               any_Exception
               (fun _ => raise (ValueError not_provided_message))
         | _ => ret key
         end ;;
  n <- lift (len key) ;;
  if negb (Nat.eqb n 32) then raise (ValueError wrong_length_message)
  else
    modify (set_key (match key with ArgStr s => Some s | _ => None end)) ;;;
    active <- is_active ext ;;
    if active then (get_cloud_token ext ;;; ret tt)
    else raise (ValueError inactive_message).

(** [UserKey(key)]. *)
Definition new {S} (ext : externals) (key : arg) : M S obj :=
  construct fresh (__init__ ext key).

End UserKey.

(** ** The part of pandas the account view uses

    A frame is its column labels and its rows; a row binds labels to
    cells.  Labels may repeat after a [rename]; selecting a repeated label
    gives a frame instead of a series, which has no [.str] accessor. *)

Module pd.

Definition row := list (string * value).

Record DataFrame := {
  columns : list string;
  rows : list row
}.

(** [pd.DataFrame()] and [pd.DataFrame([])]. *)
Definition empty : DataFrame := {| columns := []; rows := [] |}.

Definition mem (c : string) (cs : list string) : bool := existsb (String.eqb c) cs.

Definition cell (c : string) (r : row) : value :=
  match lookup c r with
  | Some v => v
  | None => PyNaN
  end.

Definition isnull (v : value) : bool :=
  match v with
  | PyNone | PyNaN => true
  | _ => false
  end.

(** [pd.DataFrame(records)]: the columns are the keys in order of first
    appearance, a key a record lacks gives [nan]. *)
Fixpoint add_keys (seen ks : list string) : list string :=
  match ks with
  | [] => seen
  | k :: ks' => add_keys (if mem k seen then seen else seen ++ [k]) ks'
  end.

Definition union_keys (records : list dict) : list string :=
  fold_left (fun seen d => add_keys seen (map fst d)) records [].

Definition of_records (records : list dict) : DataFrame :=
  let cols := union_keys records in
  {| columns := cols;
     rows := map (fun d => map (fun c => (c, cell c d)) cols) records |}.

(** [df.rename(columns={old: new}, inplace=True)]. *)
Definition relabel (old new c : string) : string :=
  if String.eqb c old then new else c.

Definition rename (old new : string) (df : DataFrame) : DataFrame :=
  {| columns := map (relabel old new) (columns df);
     rows := map (map (fun cv => (relabel old new (fst cv), snd cv))) (rows df) |}.

Definition occurrences (c : string) (df : DataFrame) : nat :=
  length (filter (String.eqb c) (columns df)).

(** [df[c]] (and [df.c]) for a label that selects a series. *)
Definition series (df : DataFrame) (c : string) : outcome (list value) :=
  match occurrences c df with
  | 0 => Raise (KeyError c)
  | 1 => Return (map (cell c) (rows df))
  | _ => Raise (AttributeError "'DataFrame' object has no attribute 'str'")
  end.

(** [df.c], attribute access to a column. *)
Definition attr (df : DataFrame) (c : string) : outcome (list value) :=
  match occurrences c df with
  | 0 => Raise (AttributeError "'DataFrame' object has no attribute")
  | _ => series df c
  end.

(** The [.str] accessor checks the inferred type of the values that are
    not null: a column of integers only, or of booleans only, is
    refused. *)
Definition is_int (v : value) : bool := match v with PyInt _ => true | _ => false end.
Definition is_bool (v : value) : bool := match v with PyBool _ => true | _ => false end.

Definition str_accessor (vals : list value) : outcome (list value) :=
  match filter (fun v => negb (isnull v)) vals with
  | [] => Return vals
  | present =>
      if forallb is_int present || forallb is_bool present
      then Raise (AttributeError "Can only use .str accessor with string values!")
      else Return vals
  end.

(** [.str.split('-', expand=True)]: one row of segments per string, a
    null row for anything else; the frame is as wide as the longest
    row, shorter rows are padded with [None] and null rows are null
    throughout. *)
Definition split_cell (v : value) : option (list string) :=
  match v with
  | PyStr s => Some (split hyphen s)
  | _ => None
  end.

Definition width_of (c : option (list string)) : nat :=
  match c with
  | Some l => length l
  | None => 1
  end.

Definition shape1 (cells : list (option (list string))) : nat :=
  fold_right (fun c w => Nat.max (width_of c) w) 0 cells.

Definition expand_cell (j : nat) (c : option (list string)) : value :=
  match c with
  | Some l => match nth_error l j with
              | Some s => PyStr s
              | None => PyNone
              end
  | None => PyNaN
  end.

Definition nat_label (j : nat) : string :=
  String (ascii_of_nat (48 + j)) EmptyString.

(** [ids_df[j]]. *)
Definition expanded (cells : list (option (list string))) (j : nat) : outcome (list value) :=
  if Nat.ltb j (shape1 cells) then Return (map (expand_cell j) cells)
  else Raise (KeyError (nat_label j)).

(** [df[c] = vals]: replaces the column, or appends it. *)
Definition row_set (c : string) (v : value) (r : row) : row :=
  if mem c (map fst r)
  then map (fun cv => if String.eqb (fst cv) c then (c, v) else cv) r
  else r ++ [(c, v)].

Definition setitem (c : string) (vals : list value) (df : DataFrame) : DataFrame :=
  {| columns := if mem c (columns df) then columns df else columns df ++ [c];
     rows := map (fun rv => row_set c (snd rv) (fst rv)) (combine (rows df) vals) |}.

(** [df.drop(labels, axis=1, inplace=True)]. *)
Definition drop (labels : list string) (df : DataFrame) : outcome DataFrame :=
  match find (fun c => negb (mem c (columns df))) labels with
  | Some c => Raise (KeyError c)
  | None =>
      Return {| columns := filter (fun c => negb (mem c labels)) (columns df);
                rows := map (filter (fun cv => negb (mem (fst cv) labels))) (rows df) |}
  end.

(** [df.loc[mask]]. *)
Definition loc (mask : list bool) (df : DataFrame) : DataFrame :=
  {| columns := columns df;
     rows := map fst (filter snd (combine (rows df) mask)) |}.

(** [series.apply(f)]. *)
Fixpoint apply (f : value -> outcome value) (vals : list value) : outcome (list value) :=
  match vals with
  | [] => Return []
  | v :: vals' =>
      match f v with
      | Return y => match apply f vals' with
                    | Return ys => Return (y :: ys)
                    | Raise e => Raise e
                    end
      | Raise e => Raise e
      end
  end.

(** [.str.len()]. *)
Definition str_len (v : value) : value :=
  match v with
  | PyList l => PyInt (Z.of_nat (length l))
  | PyStr s => PyInt (Z.of_nat (String.length s))
  | PyDict d => PyInt (Z.of_nat (length d))
  | _ => PyNaN
  end.

End pd.

(** ** The list classes *)

(** Modelled from the spec: [SnapshotExtractionList] is defined in
    [factiva.analytics.snapshots], outside these modules.  The spec
    describes the extraction history as a collection with one entry per
    flattened record, replaced wholesale on every fetch; the model keeps
    the frame the collection is built from. *)
Record SnapshotExtractionList := { extraction_items : pd.DataFrame }.

(** Modelled from the spec: [StreamingInstanceList] is defined in
    [factiva.analytics.streams.streaming_instance], outside these modules;
    as for the extraction history, the model keeps the frame the
    collection is built from. *)
Record StreamingInstanceList := { stream_items : pd.DataFrame }.

(** ** [AccountInfo] *)

Module AccountInfo.

Record obj := {
  user_key : option UserKey.obj;
  account_name : value;
  account_type : value;
  active_product : value;
  max_allowed_concurrent_extractions : value;
  max_allowed_extracted_documents : value;
  max_allowed_extractions : value;
  currently_running_extractions : value;
  total_downloaded_bytes : value;
  total_extracted_documents : value;
  total_extractions : value;
  total_stream_instances : value;
  total_stream_subscriptions : value;
  enabled_company_identifiers : value;
  streams : option StreamingInstanceList;
  extractions : option SnapshotExtractionList
}.

(** Every class attribute defaults to [None]. *)
Definition fresh : obj :=
  Build_obj None PyNone PyNone PyNone PyNone PyNone PyNone PyNone PyNone
            PyNone PyNone PyNone PyNone PyNone None None.

Definition set_user_key x (s : obj) : obj :=
  let 'Build_obj _ a1 a2 a3 a4 a5 a6 a7 a8 a9 a10 a11 a12 a13 a14 a15 := s in
  Build_obj x a1 a2 a3 a4 a5 a6 a7 a8 a9 a10 a11 a12 a13 a14 a15.
Definition set_account_name x (s : obj) : obj :=
  let 'Build_obj a0 _ a2 a3 a4 a5 a6 a7 a8 a9 a10 a11 a12 a13 a14 a15 := s in
  Build_obj a0 x a2 a3 a4 a5 a6 a7 a8 a9 a10 a11 a12 a13 a14 a15.
Definition set_account_type x (s : obj) : obj :=
  let 'Build_obj a0 a1 _ a3 a4 a5 a6 a7 a8 a9 a10 a11 a12 a13 a14 a15 := s in
  Build_obj a0 a1 x a3 a4 a5 a6 a7 a8 a9 a10 a11 a12 a13 a14 a15.
Definition set_active_product x (s : obj) : obj :=
  let 'Build_obj a0 a1 a2 _ a4 a5 a6 a7 a8 a9 a10 a11 a12 a13 a14 a15 := s in
  Build_obj a0 a1 a2 x a4 a5 a6 a7 a8 a9 a10 a11 a12 a13 a14 a15.
Definition set_max_allowed_concurrent_extractions x (s : obj) : obj :=
  let 'Build_obj a0 a1 a2 a3 _ a5 a6 a7 a8 a9 a10 a11 a12 a13 a14 a15 := s in
  Build_obj a0 a1 a2 a3 x a5 a6 a7 a8 a9 a10 a11 a12 a13 a14 a15.
Definition set_max_allowed_extracted_documents x (s : obj) : obj :=
  let 'Build_obj a0 a1 a2 a3 a4 _ a6 a7 a8 a9 a10 a11 a12 a13 a14 a15 := s in
  Build_obj a0 a1 a2 a3 a4 x a6 a7 a8 a9 a10 a11 a12 a13 a14 a15.
Definition set_max_allowed_extractions x (s : obj) : obj :=
  let 'Build_obj a0 a1 a2 a3 a4 a5 _ a7 a8 a9 a10 a11 a12 a13 a14 a15 := s in
  Build_obj a0 a1 a2 a3 a4 a5 x a7 a8 a9 a10 a11 a12 a13 a14 a15.
Definition set_currently_running_extractions x (s : obj) : obj :=
  let 'Build_obj a0 a1 a2 a3 a4 a5 a6 _ a8 a9 a10 a11 a12 a13 a14 a15 := s in
  Build_obj a0 a1 a2 a3 a4 a5 a6 x a8 a9 a10 a11 a12 a13 a14 a15.
Definition set_total_downloaded_bytes x (s : obj) : obj :=
  let 'Build_obj a0 a1 a2 a3 a4 a5 a6 a7 _ a9 a10 a11 a12 a13 a14 a15 := s in
  Build_obj a0 a1 a2 a3 a4 a5 a6 a7 x a9 a10 a11 a12 a13 a14 a15.
Definition set_total_extracted_documents x (s : obj) : obj :=
  let 'Build_obj a0 a1 a2 a3 a4 a5 a6 a7 a8 _ a10 a11 a12 a13 a14 a15 := s in
  Build_obj a0 a1 a2 a3 a4 a5 a6 a7 a8 x a10 a11 a12 a13 a14 a15.
Definition set_total_extractions x (s : obj) : obj :=
  let 'Build_obj a0 a1 a2 a3 a4 a5 a6 a7 a8 a9 _ a11 a12 a13 a14 a15 := s in
  Build_obj a0 a1 a2 a3 a4 a5 a6 a7 a8 a9 x a11 a12 a13 a14 a15.
Definition set_total_stream_instances x (s : obj) : obj :=
  let 'Build_obj a0 a1 a2 a3 a4 a5 a6 a7 a8 a9 a10 _ a12 a13 a14 a15 := s in
  Build_obj a0 a1 a2 a3 a4 a5 a6 a7 a8 a9 a10 x a12 a13 a14 a15.
Definition set_total_stream_subscriptions x (s : obj) : obj :=
  let 'Build_obj a0 a1 a2 a3 a4 a5 a6 a7 a8 a9 a10 a11 _ a13 a14 a15 := s in
  Build_obj a0 a1 a2 a3 a4 a5 a6 a7 a8 a9 a10 a11 x a13 a14 a15.
Definition set_enabled_company_identifiers x (s : obj) : obj :=
  let 'Build_obj a0 a1 a2 a3 a4 a5 a6 a7 a8 a9 a10 a11 a12 _ a14 a15 := s in
  Build_obj a0 a1 a2 a3 a4 a5 a6 a7 a8 a9 a10 a11 a12 x a14 a15.
Definition set_streams x (s : obj) : obj :=
  let 'Build_obj a0 a1 a2 a3 a4 a5 a6 a7 a8 a9 a10 a11 a12 a13 _ a15 := s in
  Build_obj a0 a1 a2 a3 a4 a5 a6 a7 a8 a9 a10 a11 a12 a13 x a15.
Definition set_extractions x (s : obj) : obj :=
  let 'Build_obj a0 a1 a2 a3 a4 a5 a6 a7 a8 a9 a10 a11 a12 a13 a14 _ := s in
  Build_obj a0 a1 a2 a3 a4 a5 a6 a7 a8 a9 a10 a11 a12 a13 a14 x.

(** [self.user_key.key]; [None] has no attribute [key]. *)
Definition user_key_key : M obj (option string) :=
  self <- get_self ;;
  match user_key self with
  | Some u => ret (UserKey.key u)
  | None => raise (AttributeError "'NoneType' object has no attribute 'key'")
  end.

(** How an f-string renders the key. *)
Definition format_key (k : option string) : string :=
  match k with
  | Some s => s
  | None => "None"
  end.

Definition remaining_extractions (self : obj) : outcome value :=
  if truthy (max_allowed_extractions self)
  then py_sub (max_allowed_extractions self) (total_extractions self)
  else Return PyNone.

Definition remaining_documents (self : obj) : outcome value :=
  if truthy (max_allowed_extracted_documents self)
  then py_sub (max_allowed_extracted_documents self) (total_extracted_documents self)
  else Return PyNone.

Definition API_ENDPOINT_BASEURL (ext : externals) : string :=
  API_HOST ext ++ API_ACCOUNT_BASEPATH ext ++ "/".

Definition stats_request (ext : externals) (k : option string) : request :=
  {| method := "GET";
     endpoint_url := API_ENDPOINT_BASEURL ext ++ format_key k;
     headers := [("user-key", k)] |}.

Definition extractions_request (ext : externals) (k : option string) : request :=
  {| method := "GET";
     endpoint_url := API_HOST ext ++ API_EXTRACTIONS_BASEPATH ext;
     headers := [("user-key", k)] |}.

Definition streams_request (ext : externals) (k : option string) : request :=
  {| method := "GET";
     endpoint_url := API_HOST ext ++ API_STREAMS_BASEPATH ext;
     headers := [("user-key", k)] |}.

(** [self.<field> = resp_obj[k1][k2]...]. *)
Definition assign (set : value -> obj -> obj) (resp_obj : value) (ks : list string)
    : M obj unit :=
  v <- lift (path resp_obj ks) ;; modify (set v).

Definition get_stats (ext : externals) : M obj bool :=
  k <- user_key_key ;;
  resp <- api_send_request ext (stats_request ext k) ;;
  (if (status_code resp =? 200)%Z then
     try_except
       (resp_obj <- lift (json_loads ext (PyStr (text resp))) ;;
        assign set_account_name resp_obj ["data"; "attributes"; "name"] ;;;
        assign set_account_type resp_obj ["data"; "type"] ;;;
        assign set_active_product resp_obj ["data"; "attributes"; "products"] ;;;
        assign set_max_allowed_concurrent_extractions resp_obj
          ["data"; "attributes"; "max_allowed_concurrent_extracts"] ;;;
        assign set_max_allowed_extracted_documents resp_obj
          ["data"; "attributes"; "max_allowed_document_extracts"] ;;;
        assign set_max_allowed_extractions resp_obj
          ["data"; "attributes"; "max_allowed_extracts"] ;;;
        assign set_currently_running_extractions resp_obj
          ["data"; "attributes"; "cnt_curr_ext"] ;;;
        assign set_total_downloaded_bytes resp_obj
          ["data"; "attributes"; "current_downloaded_amount"] ;;;
        assign set_total_extracted_documents resp_obj
          ["data"; "attributes"; "tot_document_extracts"] ;;;
        assign set_total_extractions resp_obj ["data"; "attributes"; "tot_extracts"] ;;;
        assign set_total_stream_instances resp_obj ["data"; "attributes"; "tot_topics"] ;;;
        assign set_total_stream_subscriptions resp_obj
          ["data"; "attributes"; "tot_subscriptions"] ;;;
        assign set_enabled_company_identifiers resp_obj
          ["data"; "attributes"; "enabled_company_identifiers"])
       any_Exception
       (fun _ => raise (AttributeError "Unexpected Account Information API Response."))
   else if (status_code resp =? 403)%Z then
     raise (ValueError "Factiva User-Key does not exist or inactive.")
   else raise (RuntimeError "Unexpected Account Information API Error")) ;;;
  ret true.

(** [[tools.flatten_dict(x) for x in data]]. *)
Fixpoint flatten_all (ext : externals) (data : list value) : outcome (list dict) :=
  match data with
  | [] => Return []
  | x :: data' =>
      match flatten_dict ext x with
      | Return d => match flatten_all ext data' with
                    | Return ds => Return (d :: ds)
                    | Raise e => Raise e
                    end
      | Raise e => Raise e
      end
  end.

Definition is_empty_list (v : value) : bool :=
  match v with
  | PyList [] => true
  | _ => false
  end.

(** The [else] branch of [get_extractions]: the frame built from a
    non-empty [data]. *)
Definition extraction_frame (ext : externals) (updates : bool) (data : value)
    : outcome pd.DataFrame :=
  match py_iter data with
  | Raise e => Raise e
  | Return items =>
  match flatten_all ext items with
  | Raise e => Raise e
  | Return records =>
  let extraction_df := pd.rename "id" "object_id" (pd.of_records records) in
  match pd.series extraction_df "object_id" with
  | Raise e => Raise e
  | Return object_ids =>
  match pd.str_accessor object_ids with
  | Raise e => Raise e
  | Return object_ids =>
  let ids_df := map pd.split_cell object_ids in
  let short_id :=
    if Nat.leb 5 (pd.shape1 ids_df) then pd.expanded ids_df 4
    else Return (map (fun _ => PyNone) object_ids) in
  match short_id with
  | Raise e => Raise e
  | Return short_id =>
  let extraction_df := pd.setitem "short_id" short_id extraction_df in
  let update_id :=
    if Nat.leb 7 (pd.shape1 ids_df) then pd.expanded ids_df 6
    else Return (map (fun _ => PyNone) object_ids) in
  match update_id with
  | Raise e => Raise e
  | Return update_id =>
  let extraction_df := pd.setitem "update_id" update_id extraction_df in
  match pd.drop ["self"; "type"] extraction_df with
  | Raise e => Raise e
  | Return extraction_df =>
  if negb updates then
    match pd.attr extraction_df "update_id" with
    | Raise e => Raise e
    | Return update_ids => Return (pd.loc (map pd.isnull update_ids) extraction_df)
    end
  else Return extraction_df
  end end end end end end end.

Definition get_extractions (ext : externals) (updates : bool)
    : M obj SnapshotExtractionList :=
  k <- user_key_key ;;
  response <- api_send_request ext (extractions_request ext k) ;;
  (if negb (status_code response =? 200)%Z then
     if (status_code response =? 403)%Z
     then raise (ValueError "Factiva API-Key does not exist or inactive.")
     else raise (RuntimeError ("Unexpected API Error with message: " ++ text response))
   else ret tt) ;;;
  response_data <- lift (response_json response) ;;
  data <- lift (getitem response_data "data") ;;
  extraction_df <-
    (if is_empty_list data then ret pd.empty
     else lift (extraction_frame ext updates data)) ;;
  let extractions := {| extraction_items := extraction_df |} in
  modify (set_extractions (Some extractions)) ;;;
  ret extractions.

(** The local function [extract_subscriptions] of [get_streams]. *)
Definition subscription_id (i : value) : outcome value :=
  match getitem i "id" with
  | Raise e => Raise e
  | Return (PyStr id) =>
      let s_idp := split hyphen id in
      match neg_index s_idp 3, neg_index s_idp 2, neg_index s_idp 1 with
      | Return a, Return b, Return c => Return (PyStr (a ++ "-" ++ b ++ "-" ++ c))
      | _, _, _ => Raise IndexError
      end
  | Return _ => Raise (AttributeError "object has no attribute 'split'")
  end.

Definition extract_subscriptions (subscription : value) : outcome value :=
  match py_iter subscription with
  | Raise e => Raise e
  | Return items =>
      match pd.apply subscription_id items with
      | Return id_list => Return (PyList id_list)
      | Raise e => Raise e
      end
  end.

Definition is_str (s : string) (v : value) : bool :=
  match v with
  | PyStr s' => String.eqb s' s
  | _ => false
  end.

(** The [try] block of [get_streams]. *)
Definition stream_frame (ext : externals) (running : bool) (response : response)
    : outcome pd.DataFrame :=
  match response_json response with
  | Raise e => Raise e
  | Return response_data =>
  match getitem response_data "data" with
  | Raise e => Raise e
  | Return data =>
  match py_iter data with
  | Raise e => Raise e
  | Return items =>
  match flatten_all ext items with
  | Raise e => Raise e
  | Return records =>
  let stream_df := pd.rename "id" "stream_id" (pd.of_records records) in
  match pd.series stream_df "stream_id" with
  | Raise e => Raise e
  | Return stream_ids =>
  match pd.str_accessor stream_ids with
  | Raise e => Raise e
  | Return stream_ids =>
  let ids_df := map pd.split_cell stream_ids in
  match pd.expanded ids_df 4 with
  | Raise e => Raise e
  | Return short_id =>
  let stream_df := pd.setitem "short_id" short_id stream_df in
  match pd.expanded ids_df 2 with
  | Raise e => Raise e
  | Return stream_type =>
  let stream_df := pd.setitem "stream_type" stream_type stream_df in
  match pd.series stream_df "data" with
  | Raise e => Raise e
  | Return data_column =>
  match pd.apply extract_subscriptions data_column with
  | Raise e => Raise e
  | Return subscriptions =>
  let stream_df := pd.setitem "subscriptions" subscriptions stream_df in
  match pd.series stream_df "subscriptions" with
  | Raise e => Raise e
  | Return subscriptions =>
  match pd.str_accessor subscriptions with
  | Raise e => Raise e
  | Return subscriptions =>
  let stream_df := pd.setitem "n_subscriptions" (map pd.str_len subscriptions) stream_df in
  match pd.drop ["self"; "type"; "data"] stream_df with
  | Raise e => Raise e
  | Return stream_df =>
  if running then
    match pd.attr stream_df "job_status" with
    | Raise e => Raise e
    | Return job_status =>
        Return (pd.loc (map (is_str (API_JOB_RUNNING_STATE ext)) job_status) stream_df)
    end
  else Return stream_df
  end end end end end end end end end end end end end.

Definition get_streams (ext : externals) (running : bool) : M obj pd.DataFrame :=
  k <- user_key_key ;;
  response <- api_send_request ext (streams_request ext k) ;;
  stream_df <-
    (if (status_code response =? 200)%Z then
       try_except
         (lift (stream_frame ext running response))
         any_Exception
         (fun _ => raise (AttributeError "Unexpected Get Streams API Response."))
     else if (status_code response =? 404)%Z then ret pd.empty
     else if (status_code response =? 403)%Z then
       raise (ValueError "Factiva API-Key does not exist or inactive.")
     else raise (RuntimeError "Unexpected Get Streams API Error")) ;;
  modify (set_streams (Some {| stream_items := stream_df |})) ;;;
  ret stream_df.

Definition is_active (ext : externals) : M obj bool :=
  k <- user_key_key ;;
  response <- api_send_request ext (UserKey.taxonomy_request ext k) ;;
  if (status_code response =? 200)%Z then ret true else ret false.

Definition __init__ (ext : externals) (user_key : UserKey.arg) : M obj unit :=
  u <- UserKey.new ext user_key ;;
  modify (set_user_key (Some u)) ;;;
  get_stats ext ;;;
  get_extractions ext false ;;;
  get_streams ext false ;;;
  ret tt.

(** [AccountInfo(user_key)]. *)
Definition new {S} (ext : externals) (user_key : UserKey.arg) : M S obj :=
  construct fresh (__init__ ext user_key).

End AccountInfo.

(** ** Sample collaborators

    A remote service that answers by endpoint, and a [flatten_dict] that
    lifts the entries of nested dicts to the top level; they serve as
    concrete inputs below. *)

Module Sample.

Definition host : string := "https://api.dowjones.com".

Definition taxonomy_path : string := "/alpha/taxonomies".
Definition cloud_token_path : string := "/accounts/streaming-credentials".
Definition extractions_path : string := "/alpha/extractions/documents".
Definition streams_path : string := "/alpha/streams".

(** One canned response per endpoint. *)
Record service := {
  taxonomy : response;
  cloud_token : response;
  account : response;
  extraction_list : response;
  stream_list : response
}.

Definition serve (sv : service) (_ : trace) (r : request) : outcome response :=
  if String.eqb (endpoint_url r) (host ++ taxonomy_path) then Return (taxonomy sv)
  else if String.eqb (endpoint_url r) (host ++ "/alpha" ++ cloud_token_path)
  then Return (cloud_token sv)
  else if String.eqb (endpoint_url r) (host ++ extractions_path)
  then Return (extraction_list sv)
  else if String.eqb (endpoint_url r) (host ++ streams_path) then Return (stream_list sv)
  else Return (account sv).

Fixpoint flatten (v : value) : dict :=
  match v with
  | PyDict d =>
      (fix entries (l : list (string * value)) (acc : dict) : dict :=
         match l with
         | [] => acc
         | (k, x) :: l' =>
             entries l'
               match x with
               | PyDict _ =>
                   fold_left (fun a kv => pd.row_set (fst kv) (snd kv) a) (flatten x) acc
               | _ => pd.row_set k x acc
               end
         end) d []
  | _ => []
  end.

Definition flatten_record (v : value) : outcome dict :=
  match v with
  | PyDict _ => Return (flatten v)
  | _ => Raise TypeError
  end.

(** The one document [json.loads] decodes in the samples. *)
Definition token_text : string := "{'private_key': 'k'}".
Definition token : value := PyDict [("private_key", PyStr "k")].

Definition world (sv : service) : externals :=
  {| API_HOST := host;
     API_ACCOUNT_BASEPATH := "/alpha/accounts";
     ALPHA_BASEPATH := "/alpha";
     API_ACCOUNT_STREAM_CREDENTIALS_BASEPATH := cloud_token_path;
     API_SNAPSHOTS_TAXONOMY_BASEPATH := taxonomy_path;
     API_EXTRACTIONS_BASEPATH := extractions_path;
     API_STREAMS_BASEPATH := streams_path;
     API_JOB_RUNNING_STATE := "JOB_STATE_RUNNING";
     server := serve sv;
     load_environment_value := fun _ => Raise (KeyError "FACTIVA_USERKEY");
     json_decode := fun s => if String.eqb s token_text then Some token else None;
     flatten_dict := flatten_record |}.

Definition ok (body : value) : response :=
  {| status_code := 200; text := "OK"; json := Some body |}.

Definition status (code : Z) : response :=
  {| status_code := code; text := ""; json := None |}.

Definition envelope (streaming_credentials : value) : value :=
  PyDict [("data", PyDict [("attributes",
    PyDict [("streaming_credentials", streaming_credentials)])])].

Definition DUMMY_KEY : string := "abcd1234abcd1234abcd1234abcd1234".

(** Every endpoint answers 200; the token exchange answers [token_body]. *)
Definition active_with (token_body : value) : service :=
  {| taxonomy := ok (PyDict []);
     cloud_token := ok token_body;
     account := ok (PyDict []);
     extraction_list := ok (PyDict [("data", PyList [])]);
     stream_list := status 404 |}.

Definition inactive : service :=
  {| taxonomy := status 403;
     cloud_token := status 403;
     account := status 403;
     extraction_list := status 403;
     stream_list := status 403 |}.

(** An extraction record and a stream record as the service lists
    them. *)
Definition extraction (id : string) : value :=
  PyDict [("id", PyStr id);
          ("type", PyStr "snapshot");
          ("attributes", PyDict [("current_state", PyStr "JOB_STATE_DONE")]);
          ("links", PyDict [("self", PyStr "https://api.dowjones.com/alpha/extractions")])].

Definition subscription (id : string) : value :=
  PyDict [("id", PyStr id); ("type", PyStr "Subscription")].

Definition stream (id : string) (subscriptions : list value) : value :=
  PyDict [("id", PyStr id);
          ("type", PyStr "stream");
          ("attributes", PyDict [("job_status", PyStr "JOB_STATE_RUNNING")]);
          ("relationships",
           PyDict [("subscriptions", PyDict [("data", PyList subscriptions)])]);
          ("links", PyDict [("self", PyStr "https://api.dowjones.com/alpha/streams")])].

Definition update_id : string := "a-b-c-d-SHORT-f-UPD".
Definition original_id : string := "a-b-c-d-FIRST".

Definition listing : service :=
  {| taxonomy := ok (PyDict []);
     cloud_token := ok (envelope PyNone);
     account := ok (PyDict []);
     extraction_list :=
       ok (PyDict [("data", PyList [extraction update_id; extraction original_id])]);
     stream_list :=
       ok (PyDict [("data",
             PyList [stream "dj-synhub-stream-abcd1234-s1"
                       [subscription "x-y-p1-p2-p3"; subscription "x-y-q1-q2-q3"]])]) |}.

Definition account_view : AccountInfo.obj :=
  AccountInfo.set_user_key (Some (UserKey.set_key (Some DUMMY_KEY) UserKey.fresh))
    AccountInfo.fresh.

(** An account without streams, told with a 200 and an empty list. *)
Definition no_streams : service :=
  {| taxonomy := ok (PyDict []);
     cloud_token := ok (envelope PyNone);
     account := ok (PyDict []);
     extraction_list := ok (PyDict [("data", PyList [])]);
     stream_list := ok (PyDict [("data", PyList [])]) |}.

(** The entries the listing gives. *)
Definition update_entry : pd.row :=
  [("object_id", PyStr update_id); ("current_state", PyStr "JOB_STATE_DONE");
   ("short_id", PyStr "SHORT"); ("update_id", PyStr "UPD")].

Definition original_entry : pd.row :=
  [("object_id", PyStr original_id); ("current_state", PyStr "JOB_STATE_DONE");
   ("short_id", PyStr "FIRST"); ("update_id", PyNone)].

Definition listed_extractions (updates : bool) : SnapshotExtractionList :=
  {| extraction_items :=
       {| pd.columns := ["object_id"; "current_state"; "short_id"; "update_id"];
          pd.rows := if updates then [update_entry; original_entry]
                     else [original_entry] |} |}.

Definition stream_entry : pd.row :=
  [("stream_id", PyStr "dj-synhub-stream-abcd1234-s1");
   ("job_status", PyStr "JOB_STATE_RUNNING");
   ("short_id", PyStr "s1"); ("stream_type", PyStr "stream");
   ("subscriptions", PyList [PyStr "p1-p2-p3"; PyStr "q1-q2-q3"]);
   ("n_subscriptions", PyInt 2)].

Definition listed_streams : pd.DataFrame :=
  {| pd.columns := ["stream_id"; "job_status"; "short_id"; "stream_type";
                    "subscriptions"; "n_subscriptions"];
     pd.rows := [stream_entry] |}.

End Sample.

(** A service with a complete account: the account document is the one
    the tests of the repository quote. *)
Module Demo.

Definition account_text : string := "{'data': {'id': 'abcd1234abcd1234abcd1234abcd1234', ...}}".

Definition identifier (id : Z) (name : string) : value :=
  PyDict [("id", PyInt id); ("name", PyStr name)].

Definition account_document : value :=
  PyDict [("data", PyDict [
    ("id", PyStr Sample.DUMMY_KEY);
    ("attributes", PyDict [
       ("cnt_curr_ext", PyInt 1);
       ("current_downloaded_amount", PyInt 427567508);
       ("max_allowed_concurrent_extracts", PyInt 10);
       ("max_allowed_document_extracts", PyInt 2500000);
       ("max_allowed_extracts", PyInt 5);
       ("name", PyStr "Company Corp");
       ("products", PyStr "DNA");
       ("tot_document_extracts", PyInt 1595383);
       ("tot_extracts", PyInt 4);
       ("tot_subscriptions", PyInt 0);
       ("tot_topics", PyInt 0);
       ("licensed_company_ids", PyList [PyInt 4; PyInt 3; PyInt 1; PyInt 5]);
       ("enabled_company_identifiers",
        PyList [identifier 4 "isin"; identifier 3 "cusip"; identifier 1 "sedol";
                identifier 5 "ticker_exchange"])]);
    ("type", PyStr "account_with_contract_limits")])].

Definition account_response : response :=
  {| status_code := 200; text := account_text; json := Some account_document |}.

(** An account document cut short: a name, but no [type]. *)
Definition partial_text : string := "{'data': {'attributes': {'name': 'Company Corp'}}}".

Definition partial_document : value :=
  PyDict [("data", PyDict [("attributes", PyDict [("name", PyStr "Company Corp")])])].

Definition partial_response : response :=
  {| status_code := 200; text := partial_text; json := Some partial_document |}.

Definition service (account : response) : Sample.service :=
  {| Sample.taxonomy := Sample.ok (PyDict []);
     Sample.cloud_token := Sample.ok (Sample.envelope (PyStr Sample.token_text));
     Sample.account := account;
     Sample.extraction_list := Sample.extraction_list Sample.listing;
     Sample.stream_list := Sample.stream_list Sample.listing |}.

Definition world (account : response) : externals :=
  {| API_HOST := Sample.host;
     API_ACCOUNT_BASEPATH := "/alpha/accounts";
     ALPHA_BASEPATH := "/alpha";
     API_ACCOUNT_STREAM_CREDENTIALS_BASEPATH := Sample.cloud_token_path;
     API_SNAPSHOTS_TAXONOMY_BASEPATH := Sample.taxonomy_path;
     API_EXTRACTIONS_BASEPATH := Sample.extractions_path;
     API_STREAMS_BASEPATH := Sample.streams_path;
     API_JOB_RUNNING_STATE := "JOB_STATE_RUNNING";
     server := Sample.serve (service account);
     load_environment_value := fun _ => Return Sample.DUMMY_KEY;
     json_decode := fun s =>
       if String.eqb s account_text then Some account_document
       else if String.eqb s partial_text then Some partial_document
       else if String.eqb s Sample.token_text then Some Sample.token
       else None;
     flatten_dict := Sample.flatten_record |}.

(** The credential and the account view the construction gives. *)
Definition credential : UserKey.obj :=
  {| UserKey.key := Some Sample.DUMMY_KEY; UserKey.cloud_token := Sample.token |}.

Definition loaded : AccountInfo.obj :=
  {| AccountInfo.user_key := Some credential;
     AccountInfo.account_name := PyStr "Company Corp";
     AccountInfo.account_type := PyStr "account_with_contract_limits";
     AccountInfo.active_product := PyStr "DNA";
     AccountInfo.max_allowed_concurrent_extractions := PyInt 10;
     AccountInfo.max_allowed_extracted_documents := PyInt 2500000;
     AccountInfo.max_allowed_extractions := PyInt 5;
     AccountInfo.currently_running_extractions := PyInt 1;
     AccountInfo.total_downloaded_bytes := PyInt 427567508;
     AccountInfo.total_extracted_documents := PyInt 1595383;
     AccountInfo.total_extractions := PyInt 4;
     AccountInfo.total_stream_instances := PyInt 0;
     AccountInfo.total_stream_subscriptions := PyInt 0;
     AccountInfo.enabled_company_identifiers :=
       PyList [identifier 4 "isin"; identifier 3 "cusip"; identifier 1 "sedol";
               identifier 5 "ticker_exchange"];
     AccountInfo.streams := Some {| stream_items := Sample.listed_streams |};
     AccountInfo.extractions := Some (Sample.listed_extractions false) |}.

Definition keyed : AccountInfo.obj :=
  AccountInfo.set_user_key (Some credential) AccountInfo.fresh.

(** A listing of streams in which one subscription id has two segments. *)
Definition spoiled_stream : value :=
  Sample.stream "dj-synhub-stream-abcd1234-s1"
    [Sample.subscription "x-y-p1-p2-p3"; Sample.subscription "p1-p2"].

Definition spoiled : Sample.service :=
  {| Sample.taxonomy := Sample.ok (PyDict []);
     Sample.cloud_token := Sample.ok (Sample.envelope PyNone);
     Sample.account := Sample.ok (PyDict []);
     Sample.extraction_list := Sample.extraction_list Sample.listing;
     Sample.stream_list := Sample.ok (PyDict [("data", PyList [spoiled_stream])]) |}.

(** A service that cannot be reached. *)
Definition unreachable : externals :=
  {| API_HOST := Sample.host;
     API_ACCOUNT_BASEPATH := "/alpha/accounts";
     ALPHA_BASEPATH := "/alpha";
     API_ACCOUNT_STREAM_CREDENTIALS_BASEPATH := Sample.cloud_token_path;
     API_SNAPSHOTS_TAXONOMY_BASEPATH := Sample.taxonomy_path;
     API_EXTRACTIONS_BASEPATH := Sample.extractions_path;
     API_STREAMS_BASEPATH := Sample.streams_path;
     API_JOB_RUNNING_STATE := "JOB_STATE_RUNNING";
     server := fun _ _ => Raise TransportError;
     load_environment_value := fun _ => Return Sample.DUMMY_KEY;
     json_decode := fun _ => None;
     flatten_dict := Sample.flatten_record |}.

End Demo.

(** ** Vocabulary of the statements *)

(** The secret a constructor argument resolves to: the string itself, or
    the value of [FACTIVA_USERKEY] when no argument is given. *)
Definition resolves (ext : externals) (a : UserKey.arg) (s : string) : Prop :=
  a = UserKey.ArgStr s \/
  (a = UserKey.ArgNone /\ load_environment_value ext "FACTIVA_USERKEY" = Return s).

Definition not_a_dict (v : value) : Prop := forall d, v <> PyDict d.

Definition credentials_path : list string :=
  ["data"; "attributes"; "streaming_credentials"].

(** A token-exchange body in which a value on the way to
    [streaming_credentials] cannot be indexed by a key: the body itself,
    its [data] or the [attributes] of its [data] is [null], a number, a
    string or an array. *)
Definition unindexable_envelope (body : value) : Prop :=
  not_a_dict body \/
  exists data, getitem body "data" = Return data /\
    (not_a_dict data \/
     exists attributes, getitem data "attributes" = Return attributes /\
       not_a_dict attributes).

(** What a constructed [UserKey] [u] went through, starting from the
    trace [t0] and ending with [t']: the argument resolved to a
    32-character secret, [is_active] was answered 200, the token exchange
    was answered with a well-formed envelope, and the cloud token is what
    the envelope's [streaming_credentials] decodes to, or absent when
    that field is [null]. *)
Definition validated (ext : externals) (a : UserKey.arg) (t0 : trace)
    (u : UserKey.obj) (t' : trace) : Prop :=
  exists s r1 r2 body sc,
    let t1 := t0 ++ [UserKey.taxonomy_request ext (Some s)] in
    resolves ext a s /\ String.length s = 32 /\ UserKey.key u = Some s /\
    server ext t0 (UserKey.taxonomy_request ext (Some s)) = Return r1 /\
    status_code r1 = 200%Z /\
    server ext t1 (UserKey.cloud_token_request ext (Some s)) = Return r2 /\
    status_code r2 <> 401%Z /\
    json r2 = Some body /\
    path body credentials_path = Return sc /\
    (sc = PyNone -> UserKey.cloud_token u = PyNone) /\
    (sc <> PyNone -> json_loads ext sc = Return (UserKey.cloud_token u)) /\
    t' = t1 ++ [UserKey.cloud_token_request ext (Some s)].

(** A token-exchange body in which a key on the way to
    [streaming_credentials] is missing from its object. *)
Definition missing_attribute (body : value) : Prop :=
  exists k, path body credentials_path = Raise (KeyError k).

(** The law the spec states for a remaining quota: the difference when
    both counters are loaded, absent when either one is absent. *)
Definition remaining_law (limit used : value) (remaining : outcome value) : Prop :=
  match limit, used with
  | PyInt m, PyInt t => remaining = Return (PyInt (m - t))
  | PyNone, _ | _, PyNone => remaining = Return PyNone
  | _, _ => True
  end.

(** An account view that holds a key. *)
Definition holds_key (self : AccountInfo.obj) (k : option string) : Prop :=
  exists u, AccountInfo.user_key self = Some u /\ UserKey.key u = k.

(** The flattened records of a list response with body [body]. *)
Definition flattened_records (ext : externals) (body : value) (records : list dict)
    : Prop :=
  exists data items,
    getitem body "data" = Return data /\
    py_iter data = Return items /\
    AccountInfo.flatten_all ext items = Return records.

(** The segment of a composite id at a position, counted from 0. *)
Definition segment (id : string) (n : nat) : option string :=
  nth_error (split hyphen id) n.

(** The last three segments of a composite id, rejoined with hyphens. *)
Definition last_three (id : string) : string :=
  String.concat "-" (skipn (length (split hyphen id) - 3) (split hyphen id)).

(** [id] is the short id of the subscription record [item]. *)
Definition short_subscription (item id : value) : Prop :=
  exists sid,
    getitem item "id" = Return (PyStr sid) /\
    3 <= length (split hyphen sid) /\
    id = PyStr (last_three sid).

(** The row of a record in the renamed frame. *)
Definition renamed_row (old new : string) (cols : list string) (d : dict) : pd.row :=
  map (fun cv => (pd.relabel old new (fst cv), snd cv))
    (map (fun c => (c, pd.cell c d)) cols).

(** What [get_extractions] makes of one row of the renamed frame, in a
    frame whose split ids are [w] columns wide. *)
Definition extraction_row (w : nat) (r : pd.row) : pd.row :=
  let ids := pd.split_cell (pd.cell "object_id" r) in
  filter (fun cv => negb (pd.mem (fst cv) ["self"; "type"]))
    (pd.row_set "update_id" (if Nat.leb 7 w then pd.expand_cell 6 ids else PyNone)
       (pd.row_set "short_id" (if Nat.leb 5 w then pd.expand_cell 4 ids else PyNone) r)).

(** What [get_streams] makes of one row of the renamed frame. *)
Definition subscriptions_of (data : value) : value :=
  match AccountInfo.extract_subscriptions data with
  | Return ids => ids
  | Raise _ => PyNone
  end.

Definition stream_row (r : pd.row) : pd.row :=
  let ids := pd.split_cell (pd.cell "stream_id" r) in
  let r2 := pd.row_set "stream_type" (pd.expand_cell 2 ids)
              (pd.row_set "short_id" (pd.expand_cell 4 ids) r) in
  let r3 := pd.row_set "subscriptions" (subscriptions_of (pd.cell "data" r2)) r2 in
  filter (fun cv => negb (pd.mem (fst cv) ["self"; "type"; "data"]))
    (pd.row_set "n_subscriptions" (pd.str_len (pd.cell "subscriptions" r3)) r3).

(** What the list of streams says about one of its entries: the entry
    comes from a record of the response; its [subscriptions] are the short
    ids of the subscription records [items] attached to that record, in
    order, and its [n_subscriptions] is their number. *)
Definition subscriptions_derived (ext : externals) (self : AccountInfo.obj) (t0 : trace)
    (row : pd.row) : Prop :=
  exists k r body records d items ids,
    holds_key self k /\
    server ext t0 (AccountInfo.streams_request ext k) = Return r /\
    json r = Some body /\
    flattened_records ext body records /\
    In d records /\
    py_iter (pd.cell "data" d) = Return items /\
    pd.cell "subscriptions" row = PyList ids /\
    Forall2 short_subscription items ids /\
    pd.cell "n_subscriptions" row = PyInt (Z.of_nat (length items)).

(** The statistics of an account view are the ones of the decoded
    account document [resp_obj]: every attribute holds the value found at
    its place in the document. *)
Definition stats_of (resp_obj : value) (self : AccountInfo.obj) : Prop :=
  let attribute k := path resp_obj ["data"; "attributes"; k] in
  attribute "name" = Return (AccountInfo.account_name self) /\
  path resp_obj ["data"; "type"] = Return (AccountInfo.account_type self) /\
  attribute "products" = Return (AccountInfo.active_product self) /\
  attribute "max_allowed_concurrent_extracts"
  = Return (AccountInfo.max_allowed_concurrent_extractions self) /\
  attribute "max_allowed_document_extracts"
  = Return (AccountInfo.max_allowed_extracted_documents self) /\
  attribute "max_allowed_extracts" = Return (AccountInfo.max_allowed_extractions self) /\
  attribute "cnt_curr_ext" = Return (AccountInfo.currently_running_extractions self) /\
  attribute "current_downloaded_amount" = Return (AccountInfo.total_downloaded_bytes self) /\
  attribute "tot_document_extracts" = Return (AccountInfo.total_extracted_documents self) /\
  attribute "tot_extracts" = Return (AccountInfo.total_extractions self) /\
  attribute "tot_topics" = Return (AccountInfo.total_stream_instances self) /\
  attribute "tot_subscriptions" = Return (AccountInfo.total_stream_subscriptions self) /\
  attribute "enabled_company_identifiers"
  = Return (AccountInfo.enabled_company_identifiers self).

(** The messages of the errors the three fetches raise. *)
Definition stats_response_message : string :=
  "Unexpected Account Information API Response.".
Definition stats_inactive_message : string :=
  "Factiva User-Key does not exist or inactive.".
Definition stats_error_message : string := "Unexpected Account Information API Error".
Definition list_inactive_message : string :=
  "Factiva API-Key does not exist or inactive.".
Definition streams_response_message : string := "Unexpected Get Streams API Response.".
Definition streams_error_message : string := "Unexpected Get Streams API Error".

(** The cell a segment of a composite id gives: the segment, or [None]
    when the id has no segment at that position. *)
Definition segment_cell (id : string) (n : nat) : value :=
  match segment id n with
  | Some s => PyStr s
  | None => PyNone
  end.

(** What a fetch leaves behind: the list it returns is stored, a raise
    changes nothing. *)
Definition stored_or_untouched {A} (store : A -> AccountInfo.obj -> AccountInfo.obj)
    (o : outcome A) (self self' : AccountInfo.obj) : Prop :=
  match o with
  | Return a => self' = store a self
  | Raise _ => self' = self
  end.

(** The attributes a fetch of statistics does not write. *)
Definition same_holdings (self self' : AccountInfo.obj) : Prop :=
  AccountInfo.user_key self' = AccountInfo.user_key self /\
  AccountInfo.streams self' = AccountInfo.streams self /\
  AccountInfo.extractions self' = AccountInfo.extractions self.

(** ** The credential *)

Ltac run :=
  unfold UserKey.new, construct, UserKey.__init__, UserKey.is_active,
    UserKey.get_cloud_token, try_except, bind, ret, raise, lift, get_self, modify,
    api_send_request, response_json, credentials_path in *;
  cbn [fst snd UserKey.len UserKey.key UserKey.cloud_token UserKey.set_key
       UserKey.set_cloud_token any_Exception] in *.

Lemma eqb_status_neq (a b : Z) : a <> b -> (a =? b)%Z = false.
Proof. intro H. destruct (Z.eqb_spec a b); [contradiction | reflexivity]. Qed.

Lemma path_unindexable (body : value) :
  unindexable_envelope body -> path body credentials_path = Raise TypeError.
Proof.
  unfold credentials_path.
  intros [Hb | (data & Hd & [Hn | (attributes & Ha & Hn)])]; cbn [path].
  - destruct body; try reflexivity. now destruct (Hb d).
  - rewrite Hd. destruct data; try reflexivity. now destruct (Hn d).
  - rewrite Hd, Ha. destruct attributes; try reflexivity. now destruct (Hn d).
Qed.

Lemma init_wrong_length (ext : externals) (a : UserKey.arg) (s : string)
    (self : UserKey.obj) (t0 : trace) :
  resolves ext a s ->
  String.length s <> 32 ->
  UserKey.__init__ ext a self t0
  = (Raise (ValueError UserKey.wrong_length_message), self, t0).
Proof.
  intros Hres Hlen.
  destruct Hres as [-> | [-> Henv]]; run; try rewrite Henv;
    cbn [UserKey.len]; destruct (Nat.eqb_spec (String.length s) 32);
    try contradiction; reflexivity.
Qed.

(** C4. A secret whose length is not 32 makes the construction of a
    [UserKey] fail with the wrong-length [ValueError]; the trace of
    requests is the one before the call, so nothing was sent, and the
    instance was not touched. *)
Theorem wrong_length_rejected_before_any_request :
  forall (ext : externals) (a : UserKey.arg) (s : string) (t0 : trace),
    resolves ext a s ->
    String.length s <> 32 ->
    (forall self,
        UserKey.__init__ ext a self t0
        = (Raise (ValueError UserKey.wrong_length_message), self, t0)) /\
    (forall (S : Type) (st : S),
        UserKey.new ext a st t0
        = (Raise (ValueError UserKey.wrong_length_message), st, t0)).
Proof.
  intros ext a s t0 Hres Hlen.
  split; [intro self; now apply init_wrong_length with (s := s) |].
  intros S st. unfold UserKey.new, construct.
  now rewrite (init_wrong_length ext a s UserKey.fresh t0 Hres Hlen).
Qed.

Lemma wrong_length_rejected_before_any_request_witness :
  UserKey.new (Sample.world Sample.inactive) (UserKey.ArgStr "abc") tt []
  = (Raise (ValueError UserKey.wrong_length_message), tt, []).
Proof.
  apply (wrong_length_rejected_before_any_request
           (Sample.world Sample.inactive) (UserKey.ArgStr "abc") "abc" []).
  - left; reflexivity.
  - simpl; lia.
Defined.

(** C5. A 32-character secret for which the [is_active] request is
    answered with a status other than 200 makes the construction fail
    with the inactive-key [ValueError]; the only request sent is the
    taxonomy one, so the token exchange was not attempted; no instance is
    returned, and the abandoned instance never received a cloud token. *)
Theorem inactive_key_rejected_without_token_exchange :
  forall (ext : externals) (a : UserKey.arg) (s : string) (t0 : trace) (r : response),
    resolves ext a s ->
    String.length s = 32 ->
    server ext t0 (UserKey.taxonomy_request ext (Some s)) = Return r ->
    status_code r <> 200%Z ->
    (forall (S : Type) (st : S),
        UserKey.new ext a st t0
        = (Raise (ValueError UserKey.inactive_message), st,
           t0 ++ [UserKey.taxonomy_request ext (Some s)])) /\
    (exists self',
        UserKey.__init__ ext a UserKey.fresh t0
        = (Raise (ValueError UserKey.inactive_message), self',
           t0 ++ [UserKey.taxonomy_request ext (Some s)]) /\
        UserKey.cloud_token self' = PyNone).
Proof.
  intros ext a s t0 r Hres Hlen Hsrv Hst.
  assert (Hinit :
            UserKey.__init__ ext a UserKey.fresh t0
            = (Raise (ValueError UserKey.inactive_message),
               UserKey.set_key (Some s) UserKey.fresh,
               t0 ++ [UserKey.taxonomy_request ext (Some s)])).
  { destruct Hres as [-> | [-> Henv]]; run; try rewrite Henv;
      cbn [UserKey.len]; rewrite Hlen; cbn; rewrite Hsrv;
      rewrite (eqb_status_neq _ _ Hst); reflexivity. }
  split.
  - intros S st. unfold UserKey.new, construct. now rewrite Hinit.
  - eexists; split; [exact Hinit | reflexivity].
Qed.

Lemma inactive_key_rejected_without_token_exchange_witness :
  UserKey.new (Sample.world Sample.inactive) (UserKey.ArgStr Sample.DUMMY_KEY) tt []
  = (Raise (ValueError UserKey.inactive_message), tt,
     [UserKey.taxonomy_request (Sample.world Sample.inactive) (Some Sample.DUMMY_KEY)]).
Proof.
  apply (inactive_key_rejected_without_token_exchange
           (Sample.world Sample.inactive) (UserKey.ArgStr Sample.DUMMY_KEY)
           Sample.DUMMY_KEY [] (Sample.status 403)).
  - left; reflexivity.
  - reflexivity.
  - reflexivity.
  - simpl; lia.
Defined.

(** What [get_cloud_token] does once the transport has answered. *)
Lemma get_cloud_token_unauthorized (ext : externals) (self : UserKey.obj) (t0 : trace)
    (r : response) :
  server ext t0 (UserKey.cloud_token_request ext (UserKey.key self)) = Return r ->
  status_code r = 401%Z ->
  UserKey.get_cloud_token ext self t0
  = (Raise (RuntimeError_format UserKey.auth_failed_template
              [("user-key", UserKey.key self)]),
     self, t0 ++ [UserKey.cloud_token_request ext (UserKey.key self)]).
Proof.
  intros Hsrv Hst. run. rewrite Hsrv, Hst. reflexivity.
Qed.

Lemma get_cloud_token_answered (ext : externals) (self : UserKey.obj) (t0 : trace)
    (r : response) (body : value) :
  server ext t0 (UserKey.cloud_token_request ext (UserKey.key self)) = Return r ->
  status_code r <> 401%Z ->
  json r = Some body ->
  UserKey.get_cloud_token ext self t0
  = let t1 := t0 ++ [UserKey.cloud_token_request ext (UserKey.key self)] in
    match path body credentials_path with
    | Raise TypeError => (Raise (ValueError UserKey.limited_access_message), self, t1)
    | Raise e => (Raise e, self, t1)
    | Return PyNone => (Return true, self, t1)
    | Return sc =>
        match json_loads ext sc with
        | Return token => (Return true, UserKey.set_cloud_token token self, t1)
        | Raise e => (Raise e, self, t1)
        end
    end.
Proof.
  intros Hsrv Hst Hjson. run.
  rewrite Hsrv, (eqb_status_neq _ _ Hst), Hjson.
  cbv zeta.
  destruct (path body _) as [sc | e].
  - destruct sc; try reflexivity; destruct (json_loads ext _); reflexivity.
  - destruct e; reflexivity.
Qed.

(** C10. When the token exchange answers with a [streaming_credentials]
    that is [null], [get_cloud_token] returns [True] and leaves the
    instance as it was: a cloud token stored before the call is still
    there. *)
Theorem null_credentials_keep_stored_token :
  forall (ext : externals) (self : UserKey.obj) (t0 : trace) (r : response)
         (body : value),
    UserKey.cloud_token self <> PyNone ->
    server ext t0 (UserKey.cloud_token_request ext (UserKey.key self)) = Return r ->
    status_code r <> 401%Z ->
    json r = Some body ->
    path body credentials_path = Return PyNone ->
    exists self',
      UserKey.get_cloud_token ext self t0
      = (Return true, self', t0 ++ [UserKey.cloud_token_request ext (UserKey.key self)]) /\
      UserKey.cloud_token self' = UserKey.cloud_token self /\
      self' = self.
Proof.
  intros ext self t0 r body _ Hsrv Hst Hjson Hpath.
  exists self. split; [| split; reflexivity].
  rewrite (get_cloud_token_answered ext self t0 r body Hsrv Hst Hjson), Hpath.
  reflexivity.
Qed.

Lemma null_credentials_keep_stored_token_witness :
  exists self',
    UserKey.get_cloud_token (Sample.world (Sample.active_with (Sample.envelope PyNone)))
      {| UserKey.key := Some Sample.DUMMY_KEY; UserKey.cloud_token := Sample.token |} []
    = (Return true, self',
       [UserKey.cloud_token_request
          (Sample.world (Sample.active_with (Sample.envelope PyNone)))
          (Some Sample.DUMMY_KEY)]) /\
    UserKey.cloud_token self' = Sample.token /\
    self' = {| UserKey.key := Some Sample.DUMMY_KEY; UserKey.cloud_token := Sample.token |}.
Proof.
  apply (null_credentials_keep_stored_token
           (Sample.world (Sample.active_with (Sample.envelope PyNone)))
           {| UserKey.key := Some Sample.DUMMY_KEY; UserKey.cloud_token := Sample.token |}
           [] (Sample.ok (Sample.envelope PyNone)) (Sample.envelope PyNone)).
  - discriminate.
  - reflexivity.
  - simpl; lia.
  - reflexivity.
  - reflexivity.
Defined.

(** C7, as the spec states it, fails: a body in which a key is missing
    ([{}], which lacks [data]) makes [get_cloud_token] raise the
    [KeyError] of the subscript, not the limited-access [ValueError]. *)
Lemma missing_attribute_raises_KeyError :
  let ext := Sample.world (Sample.active_with (PyDict [])) in
  let self := UserKey.set_key (Some Sample.DUMMY_KEY) UserKey.fresh in
  missing_attribute (PyDict []) /\
  UserKey.get_cloud_token ext self []
  = (Raise (KeyError "data"), self, [UserKey.cloud_token_request ext (Some Sample.DUMMY_KEY)]) /\
  fst (fst (UserKey.get_cloud_token ext self []))
  <> Raise (ValueError UserKey.limited_access_message).
Proof.
  cbv zeta. split; [| split].
  - exists "data". reflexivity.
  - reflexivity.
  - discriminate.
Qed.

(** C7, amended. A 401 answer makes [get_cloud_token] raise the
    [RuntimeError] built from the request header.  Any other answer whose
    body holds, on the way to [streaming_credentials], a value that
    cannot be indexed by a key makes it raise the limited-access
    [ValueError], a different exception; the instance is left as it
    was. *)
Theorem unindexable_envelope_is_limited_access :
  forall (ext : externals) (self : UserKey.obj) (t0 : trace) (r : response),
    server ext t0 (UserKey.cloud_token_request ext (UserKey.key self)) = Return r ->
    let t1 := t0 ++ [UserKey.cloud_token_request ext (UserKey.key self)] in
    let unauthorized :=
      RuntimeError_format UserKey.auth_failed_template [("user-key", UserKey.key self)] in
    (status_code r = 401%Z ->
     UserKey.get_cloud_token ext self t0 = (Raise unauthorized, self, t1)) /\
    (status_code r <> 401%Z ->
     forall body, json r = Some body -> unindexable_envelope body ->
       UserKey.get_cloud_token ext self t0
       = (Raise (ValueError UserKey.limited_access_message), self, t1)) /\
    unauthorized <> ValueError UserKey.limited_access_message.
Proof.
  intros ext self t0 r Hsrv t1 unauthorized. split; [| split].
  - intro Hst. now apply get_cloud_token_unauthorized with (r := r).
  - intros Hst body Hjson Hbad.
    rewrite (get_cloud_token_answered ext self t0 r body Hsrv Hst Hjson).
    rewrite (path_unindexable body Hbad). reflexivity.
  - discriminate.
Qed.

Lemma unindexable_envelope_is_limited_access_witness :
  let ext := Sample.world (Sample.active_with (PyDict [("data", PyNone)])) in
  let self := UserKey.set_key (Some Sample.DUMMY_KEY) UserKey.fresh in
  UserKey.get_cloud_token ext self []
  = (Raise (ValueError UserKey.limited_access_message), self,
     [UserKey.cloud_token_request ext (Some Sample.DUMMY_KEY)]).
Proof.
  cbv zeta.
  refine (proj1 (proj2 (unindexable_envelope_is_limited_access
            (Sample.world (Sample.active_with (PyDict [("data", PyNone)])))
            (UserKey.set_key (Some Sample.DUMMY_KEY) UserKey.fresh) []
            (Sample.ok (PyDict [("data", PyNone)])) eq_refl))
            _ (PyDict [("data", PyNone)]) eq_refl _).
  - simpl; lia.
  - right. exists PyNone. split; [reflexivity |]. left. intros d H; discriminate H.
Defined.

(** [get_cloud_token] read backwards: a raise leaves the instance as it
    was; a return means the exchange was answered with a well-formed
    envelope, and the stored token is what its [streaming_credentials]
    decodes to, or the old one when it is [null]. *)
Lemma get_cloud_token_inv (ext : externals) (self self' : UserKey.obj) (t0 t' : trace)
    (o : outcome bool) :
  UserKey.get_cloud_token ext self t0 = (o, self', t') ->
  t' = t0 ++ [UserKey.cloud_token_request ext (UserKey.key self)] /\
  match o with
  | Raise _ => self' = self
  | Return _ =>
      exists r body sc,
        server ext t0 (UserKey.cloud_token_request ext (UserKey.key self)) = Return r /\
        status_code r <> 401%Z /\
        json r = Some body /\
        path body credentials_path = Return sc /\
        (sc = PyNone -> self' = self) /\
        (sc <> PyNone ->
         exists token, json_loads ext sc = Return token /\
                       self' = UserKey.set_cloud_token token self)
  end.
Proof.
  destruct (server ext t0 (UserKey.cloud_token_request ext (UserKey.key self)))
    as [r | e] eqn:Hsrv.
  2:{ run. rewrite Hsrv. intros [= <- <- <-]. split; reflexivity. }
  destruct (Z.eq_dec (status_code r) 401) as [Hst | Hst].
  { rewrite (get_cloud_token_unauthorized ext self t0 r Hsrv Hst).
    intros [= <- <- <-]. split; reflexivity. }
  destruct (json r) as [body |] eqn:Hjson.
  2:{ run. rewrite Hsrv, (eqb_status_neq _ _ Hst), Hjson.
      intros [= <- <- <-]. split; reflexivity. }
  rewrite (get_cloud_token_answered ext self t0 r body Hsrv Hst Hjson). cbv zeta.
  destruct (path body credentials_path) as [sc | e] eqn:Hpath.
  - destruct (json_loads ext sc) as [token | e] eqn:Hloads;
      destruct sc; intros [= <- <- <-]; (split; [reflexivity |]);
      try reflexivity;
      exists r, body; eexists; (repeat split; try eassumption);
      try (intros _; reflexivity); try (intros H; now destruct H);
      try discriminate;
      intros _; eexists; split; (eassumption || reflexivity).
  - destruct e; intros [= <- <- <-]; split; reflexivity.
Qed.

(** [__init__] on an argument that resolves to a 32-character secret. *)
Lemma init_resolved (ext : externals) (a : UserKey.arg) (s : string)
    (self : UserKey.obj) (t0 : trace) :
  resolves ext a s ->
  String.length s = 32 ->
  UserKey.__init__ ext a self t0
  = let keyed := UserKey.set_key (Some s) self in
    let t1 := t0 ++ [UserKey.taxonomy_request ext (Some s)] in
    match server ext t0 (UserKey.taxonomy_request ext (Some s)) with
    | Raise e => (Raise e, keyed, t1)
    | Return r =>
        if (status_code r =? 200)%Z then
          match UserKey.get_cloud_token ext keyed t1 with
          | (Return _, self', t') => (Return tt, self', t')
          | (Raise e, self', t') => (Raise e, self', t')
          end
        else (Raise (ValueError UserKey.inactive_message), keyed, t1)
    end.
Proof.
  intros Hres Hlen.
  destruct Hres as [-> | [-> Henv]];
    unfold UserKey.__init__, UserKey.is_active, try_except, bind, ret, raise, lift,
      get_self, modify, api_send_request;
    try rewrite Henv; cbn [UserKey.len UserKey.key UserKey.set_key any_Exception];
    rewrite Hlen; cbn [Nat.eqb negb]; cbv zeta;
    destruct (server ext t0 _) as [r | e]; try reflexivity;
    destruct (status_code r =? 200)%Z; try reflexivity;
    destruct (UserKey.get_cloud_token ext _ _) as [[[] ?] ?]; reflexivity.
Qed.

(** [__init__] on any other argument raises before it touches the
    instance or the network. *)
Lemma init_unresolved (ext : externals) (a : UserKey.arg) (self : UserKey.obj)
    (t0 : trace) :
  (exists s, resolves ext a s /\ String.length s = 32) \/
  (exists e, UserKey.__init__ ext a self t0 = (Raise e, self, t0)).
Proof.
  destruct a as [| s | u].
  - destruct (load_environment_value ext "FACTIVA_USERKEY") as [s | e] eqn:Henv.
    + destruct (Nat.eq_dec (String.length s) 32) as [Hlen | Hlen].
      * left. exists s. split; [right; split; [reflexivity | exact Henv] | exact Hlen].
      * right. eexists.
        apply (init_wrong_length ext UserKey.ArgNone s self t0);
          [right; split; [reflexivity | exact Henv] | exact Hlen].
    + right. eexists. run. rewrite Henv. reflexivity.
  - destruct (Nat.eq_dec (String.length s) 32) as [Hlen | Hlen].
    + left. exists s. split; [left; reflexivity | exact Hlen].
    + right. eexists.
      apply (init_wrong_length ext (UserKey.ArgStr s) s self t0);
        [left; reflexivity | exact Hlen].
  - right. eexists. run. reflexivity.
Qed.

(** C6, as the spec states it, fails: the key is active and the token
    exchange answers with a well-formed envelope whose
    [streaming_credentials] is [null]; the construction succeeds and the
    instance has no cloud token. *)
Lemma constructed_credential_without_token :
  let ext := Sample.world (Sample.active_with (Sample.envelope PyNone)) in
  exists u,
    UserKey.new ext (UserKey.ArgStr Sample.DUMMY_KEY) tt []
    = (Return u, tt,
       [UserKey.taxonomy_request ext (Some Sample.DUMMY_KEY);
        UserKey.cloud_token_request ext (Some Sample.DUMMY_KEY)]) /\
    UserKey.cloud_token u = PyNone.
Proof.
  cbv zeta. eexists. split; reflexivity.
Qed.

(** C6, amended. A [UserKey] that exists after its construction passed
    both remote steps: [is_active] was answered 200 and the token
    exchange was answered with a well-formed envelope.  Its cloud token
    is what the envelope's [streaming_credentials] decodes to when that
    field is not [null], and is absent when it is [null].  A construction
    that fails leaves no cloud token on the abandoned instance. *)
Theorem constructed_credential_token :
  forall (ext : externals) (a : UserKey.arg) (t0 : trace),
    (forall (S : Type) (st st' : S) (u : UserKey.obj) (t' : trace),
        UserKey.new ext a st t0 = (Return u, st', t') ->
        validated ext a t0 u t') /\
    (forall (e : exn) (self' : UserKey.obj) (t' : trace),
        UserKey.__init__ ext a UserKey.fresh t0 = (Raise e, self', t') ->
        UserKey.cloud_token self' = PyNone).
Proof.
  intros ext a t0. split.
  - intros S st st' u t' Hnew.
    unfold UserKey.new, construct in Hnew.
    destruct (init_unresolved ext a UserKey.fresh t0) as [(s & Hres & Hlen) | (e & He)].
    2:{ rewrite He in Hnew. discriminate Hnew. }
    rewrite (init_resolved ext a s UserKey.fresh t0 Hres Hlen) in Hnew. cbv zeta in Hnew.
    destruct (server ext t0 _) as [r1 | e] eqn:Hsrv1; [| discriminate Hnew].
    destruct (Z.eqb_spec (status_code r1) 200) as [Hst1 | Hst1]; [| discriminate Hnew].
    destruct (UserKey.get_cloud_token ext _ _) as [[o self'] t''] eqn:Hget.
    destruct o as [b | e]; [| discriminate Hnew].
    injection Hnew as <- <- <-.
    apply get_cloud_token_inv in Hget.
    destruct Hget as (-> & r2 & body & sc & Hsrv2 & Hst2 & Hjson & Hpath & Hnull & Hsome).
    cbn [UserKey.key UserKey.set_key] in *.
    assert (Hcases : sc = PyNone \/ sc <> PyNone)
      by (destruct sc; ((left; reflexivity) || (right; discriminate))).
    assert (Hkey : UserKey.key self' = Some s).
    { destruct Hcases as [Hsc | Hsc].
      - now rewrite (Hnull Hsc).
      - destruct (Hsome Hsc) as (token & _ & ->). reflexivity. }
    exists s, r1, r2, body, sc. cbv zeta.
    repeat split; try assumption.
    + intros Hsc. now rewrite (Hnull Hsc).
    + intros Hsc. destruct (Hsome Hsc) as (token & Hloads & ->). exact Hloads.
  - intros e self' t' Hinit.
    destruct (init_unresolved ext a UserKey.fresh t0) as [(s & Hres & Hlen) | (e' & He)].
    2:{ rewrite He in Hinit. now injection Hinit as _ <- _. }
    rewrite (init_resolved ext a s UserKey.fresh t0 Hres Hlen) in Hinit. cbv zeta in Hinit.
    destruct (server ext t0 _) as [r1 | e1]; [| now injection Hinit as _ <- _].
    destruct (status_code r1 =? 200)%Z; [| now injection Hinit as _ <- _].
    destruct (UserKey.get_cloud_token ext _ _) as [[o self''] t''] eqn:Hget.
    destruct o as [b | e2]; [discriminate Hinit |].
    injection Hinit as _ <- _.
    apply get_cloud_token_inv in Hget. destruct Hget as (_ & ->). reflexivity.
Qed.

Lemma constructed_credential_token_witness :
  let ext := Sample.world (Sample.active_with (Sample.envelope (PyStr Sample.token_text))) in
  validated ext (UserKey.ArgStr Sample.DUMMY_KEY) []
    {| UserKey.key := Some Sample.DUMMY_KEY; UserKey.cloud_token := Sample.token |}
    [UserKey.taxonomy_request ext (Some Sample.DUMMY_KEY);
     UserKey.cloud_token_request ext (Some Sample.DUMMY_KEY)].
Proof.
  cbv zeta.
  apply (proj1 (constructed_credential_token
                  (Sample.world (Sample.active_with
                                   (Sample.envelope (PyStr Sample.token_text))))
                  (UserKey.ArgStr Sample.DUMMY_KEY) []) unit tt tt).
  reflexivity.
Defined.

(** ** The account view *)

Ltac run_account :=
  unfold AccountInfo.new, AccountInfo.__init__, AccountInfo.get_streams,
    AccountInfo.get_extractions, AccountInfo.user_key_key, UserKey.new, construct,
    try_except, bind, ret, raise, lift, get_self, modify, api_send_request,
    response_json in *;
  cbn [fst snd any_Exception] in *.

(** C1. Passing an existing [UserKey] to [AccountInfo] does not succeed:
    [UserKey(user_key)] asks for the [len] of the instance, which raises
    [TypeError] before any request is sent, whatever the instance and
    however valid it is. *)
Theorem existing_credential_is_rejected :
  forall (ext : externals) (u : UserKey.obj) (t0 : trace) (S : Type) (st : S),
    AccountInfo.new ext (UserKey.ArgUserKey u) st t0 = (Raise TypeError, st, t0).
Proof.
  intros. reflexivity.
Qed.

(** C2, as the spec states it, fails twice: with a limit of 5 and no
    used counter the read raises [TypeError] instead of giving [None],
    and with a limit of 0 and 0 used it gives [None] instead of 0. *)
Lemma remaining_law_fails :
  let unused := AccountInfo.set_max_allowed_extractions (PyInt 5) AccountInfo.fresh in
  let zero := AccountInfo.set_max_allowed_extractions (PyInt 0)
                (AccountInfo.set_total_extractions (PyInt 0) AccountInfo.fresh) in
  AccountInfo.remaining_extractions unused = Raise TypeError /\
  ~ remaining_law (AccountInfo.max_allowed_extractions unused)
      (AccountInfo.total_extractions unused) (AccountInfo.remaining_extractions unused) /\
  AccountInfo.remaining_extractions zero = Return PyNone /\
  ~ remaining_law (AccountInfo.max_allowed_extractions zero)
      (AccountInfo.total_extractions zero) (AccountInfo.remaining_extractions zero).
Proof.
  cbv zeta. repeat split; try reflexivity; intro H; discriminate H.
Qed.

(** C2, amended. [remaining_extractions] is
    [max_allowed_extractions - total_extractions] whenever both counters
    are loaded and the limit is not zero, and is [None] whenever the limit
    is not loaded; the same holds for [remaining_documents] with
    [max_allowed_extracted_documents] and [total_extracted_documents]. *)
Theorem remaining_quota_law :
  forall (self : AccountInfo.obj),
    (forall m t : Z,
        AccountInfo.max_allowed_extractions self = PyInt m -> m <> 0%Z ->
        AccountInfo.total_extractions self = PyInt t ->
        AccountInfo.remaining_extractions self = Return (PyInt (m - t))) /\
    (AccountInfo.max_allowed_extractions self = PyNone ->
     AccountInfo.remaining_extractions self = Return PyNone) /\
    (forall m t : Z,
        AccountInfo.max_allowed_extracted_documents self = PyInt m -> m <> 0%Z ->
        AccountInfo.total_extracted_documents self = PyInt t ->
        AccountInfo.remaining_documents self = Return (PyInt (m - t))) /\
    (AccountInfo.max_allowed_extracted_documents self = PyNone ->
     AccountInfo.remaining_documents self = Return PyNone).
Proof.
  intro self.
  unfold AccountInfo.remaining_extractions, AccountInfo.remaining_documents.
  split; [| split; [| split]].
  - intros m t -> Hm ->. cbn. now rewrite (eqb_status_neq _ _ Hm).
  - intros ->. reflexivity.
  - intros m t -> Hm ->. cbn. now rewrite (eqb_status_neq _ _ Hm).
  - intros ->. reflexivity.
Qed.

Lemma remaining_quota_law_witness :
  let self :=
    AccountInfo.set_max_allowed_extractions (PyInt 5)
      (AccountInfo.set_total_extractions (PyInt 4)
         (AccountInfo.set_max_allowed_extracted_documents (PyInt 2500000)
            (AccountInfo.set_total_extracted_documents (PyInt 1595383)
               AccountInfo.fresh))) in
  AccountInfo.remaining_extractions self = Return (PyInt 1) /\
  AccountInfo.remaining_documents self = Return (PyInt 904617) /\
  AccountInfo.remaining_extractions AccountInfo.fresh = Return PyNone /\
  AccountInfo.remaining_documents AccountInfo.fresh = Return PyNone.
Proof.
  cbv zeta. split; [| split; [| split]].
  - apply (proj1 (remaining_quota_law _) 5%Z 4%Z); [reflexivity | lia | reflexivity].
  - apply (proj1 (proj2 (proj2 (remaining_quota_law _))) 2500000%Z 1595383%Z);
      [reflexivity | lia | reflexivity].
  - apply (proj1 (proj2 (remaining_quota_law AccountInfo.fresh))). reflexivity.
  - apply (proj2 (proj2 (proj2 (remaining_quota_law AccountInfo.fresh)))). reflexivity.
Defined.

(** C3. An extraction list answered 200 with an empty [data] gives the
    empty frame, and a stream list answered 404 gives the empty frame;
    but a stream list answered 200 with an empty [data] raises
    [AttributeError]: the frame built from no record has no [stream_id]
    column to split, and [get_streams] has no test for the empty list as
    [get_extractions] has. *)
Theorem empty_lists :
  forall (ext : externals) (self : AccountInfo.obj) (k : option string) (t0 : trace)
         (r : response) (body : value),
    holds_key self k ->
    (forall updates,
        server ext t0 (AccountInfo.extractions_request ext k) = Return r ->
        status_code r = 200%Z -> json r = Some body ->
        getitem body "data" = Return (PyList []) ->
        AccountInfo.get_extractions ext updates self t0
        = (Return {| extraction_items := pd.empty |},
           AccountInfo.set_extractions (Some {| extraction_items := pd.empty |}) self,
           t0 ++ [AccountInfo.extractions_request ext k])) /\
    (forall running,
        server ext t0 (AccountInfo.streams_request ext k) = Return r ->
        status_code r = 404%Z ->
        AccountInfo.get_streams ext running self t0
        = (Return pd.empty,
           AccountInfo.set_streams (Some {| stream_items := pd.empty |}) self,
           t0 ++ [AccountInfo.streams_request ext k])) /\
    (forall running,
        server ext t0 (AccountInfo.streams_request ext k) = Return r ->
        status_code r = 200%Z -> json r = Some body ->
        getitem body "data" = Return (PyList []) ->
        AccountInfo.get_streams ext running self t0
        = (Raise (AttributeError "Unexpected Get Streams API Response."), self,
           t0 ++ [AccountInfo.streams_request ext k])).
Proof.
  intros ext self k t0 r body (u & Hu & Hk). split; [| split].
  - intros updates Hsrv Hst Hjson Hdata. run_account.
    rewrite Hu, Hk, Hsrv, Hst, Hjson, Hdata. reflexivity.
  - intros running Hsrv Hst. run_account.
    rewrite Hu, Hk, Hsrv, Hst. reflexivity.
  - intros running Hsrv Hst Hjson Hdata. run_account.
    rewrite Hu, Hk, Hsrv, Hst. cbn [Z.eqb Pos.eqb].
    unfold AccountInfo.stream_frame, response_json. rewrite Hjson, Hdata.
    reflexivity.
Qed.

Lemma empty_lists_witness :
  let ext := Sample.world Sample.no_streams in
  AccountInfo.get_extractions ext false Sample.account_view []
  = (Return {| extraction_items := pd.empty |},
     AccountInfo.set_extractions (Some {| extraction_items := pd.empty |})
       Sample.account_view,
     [AccountInfo.extractions_request ext (Some Sample.DUMMY_KEY)]) /\
  AccountInfo.get_streams ext false Sample.account_view []
  = (Raise (AttributeError "Unexpected Get Streams API Response."), Sample.account_view,
     [AccountInfo.streams_request ext (Some Sample.DUMMY_KEY)]).
Proof.
  cbv zeta.
  assert (Hkey : holds_key Sample.account_view (Some Sample.DUMMY_KEY))
    by (eexists; split; reflexivity).
  split.
  - exact (proj1 (empty_lists (Sample.world Sample.no_streams) Sample.account_view
                    (Some Sample.DUMMY_KEY) []
                    (Sample.ok (PyDict [("data", PyList [])]))
                    (PyDict [("data", PyList [])]) Hkey)
             false eq_refl eq_refl eq_refl eq_refl).
  - exact (proj2 (proj2 (empty_lists (Sample.world Sample.no_streams) Sample.account_view
                    (Some Sample.DUMMY_KEY) []
                    (Sample.ok (PyDict [("data", PyList [])]))
                    (PyDict [("data", PyList [])]) Hkey))
             false eq_refl eq_refl eq_refl eq_refl).
Defined.

(** ** Frames, row by row *)

Lemma lookup_replace (c c' : string) (v : value) (r : pd.row) :
  lookup c (map (fun cv => if String.eqb (fst cv) c' then (c', v) else cv) r)
  = if String.eqb c c'
    then (if pd.mem c' (map fst r) then Some v else None)
    else lookup c r.
Proof.
  induction r as [| [k x] r IH]; cbn [map lookup fst pd.mem existsb].
  - now destruct (String.eqb c c').
  - unfold pd.mem in IH. destruct (String.eqb_spec k c') as [-> | Hk].
    + cbn [lookup]. rewrite String.eqb_refl.
      destruct (String.eqb_spec c c'); [reflexivity | exact IH].
    + rewrite (proj2 (String.eqb_neq c' k)) by congruence.
      cbn [lookup orb]. destruct (String.eqb_spec c k) as [-> | Hc].
      * now rewrite (proj2 (String.eqb_neq k c')) by congruence.
      * exact IH.
Qed.

Lemma lookup_app (c c' : string) (v : value) (r : pd.row) :
  lookup c (r ++ [(c', v)])
  = match lookup c r with
    | Some x => Some x
    | None => if String.eqb c c' then Some v else None
    end.
Proof.
  induction r as [| [k x] r IH]; cbn [app lookup]; [reflexivity |].
  destruct (String.eqb c k); [reflexivity | exact IH].
Qed.

Lemma lookup_not_mem (c : string) (r : pd.row) :
  pd.mem c (map fst r) = false -> lookup c r = None.
Proof.
  unfold pd.mem.
  induction r as [| [k x] r IH]; cbn [map existsb lookup fst]; [reflexivity |].
  intro H. apply orb_false_iff in H. destruct H as [-> H]. now apply IH.
Qed.

Lemma cell_row_set (c c' : string) (v : value) (r : pd.row) :
  pd.cell c (pd.row_set c' v r) = if String.eqb c c' then v else pd.cell c r.
Proof.
  unfold pd.cell, pd.row_set.
  destruct (pd.mem c' (map fst r)) eqn:Hmem.
  - rewrite lookup_replace, Hmem. now destruct (String.eqb c c').
  - rewrite lookup_app. destruct (String.eqb_spec c c') as [-> | Hc].
    + now rewrite (lookup_not_mem _ _ Hmem).
    + now destruct (lookup c r).
Qed.

Lemma cell_drop (c : string) (labels : list string) (r : pd.row) :
  pd.mem c labels = false ->
  pd.cell c (filter (fun cv => negb (pd.mem (fst cv) labels)) r) = pd.cell c r.
Proof.
  intro Hc. unfold pd.cell.
  assert (H : lookup c (filter (fun cv => negb (pd.mem (fst cv) labels)) r) = lookup c r).
  { induction r as [| [k x] r IH]; cbn [filter lookup fst]; [reflexivity |].
    destruct (pd.mem k labels) eqn:Hk; cbn [negb lookup].
    - destruct (String.eqb_spec c k) as [-> | _]; [congruence | exact IH].
    - now rewrite IH. }
  now rewrite H.
Qed.

Lemma combine_map {A R B C} (f : A -> R) (g : A -> B) (h : B -> R -> C) (l : list A) :
  map (fun rv => h (snd rv) (fst rv)) (combine (map f l) (map g l))
  = map (fun a => h (g a) (f a)) l.
Proof.
  induction l as [| a l IH]; cbn; [reflexivity | now rewrite IH].
Qed.

Lemma loc_filter {A} (p : A -> bool) (l : list A) :
  map fst (filter snd (combine l (map p l))) = filter p l.
Proof.
  induction l as [| a l IH]; cbn; [reflexivity |].
  destruct (p a); cbn; now rewrite IH.
Qed.

Lemma shape1_ge (c : option (list string)) (cells : list (option (list string))) :
  In c cells -> pd.width_of c <= pd.shape1 cells.
Proof.
  induction cells as [| c' cells IH]; cbn [In pd.shape1 fold_right]; [tauto |].
  intros [-> | Hin]; [lia |].
  specialize (IH Hin). unfold pd.shape1 in IH. lia.
Qed.

Lemma str_accessor_inv (vals vals' : list value) :
  pd.str_accessor vals = Return vals' -> vals' = vals.
Proof.
  unfold pd.str_accessor.
  destruct (filter _ vals); [now intros [= <-] |].
  destruct (_ || _); [discriminate | now intros [= <-]].
Qed.

Lemma series_inv (df : pd.DataFrame) (c : string) (vals : list value) :
  pd.series df c = Return vals ->
  pd.occurrences c df = 1 /\ vals = map (pd.cell c) (pd.rows df).
Proof.
  unfold pd.series. destruct (pd.occurrences c df) as [| [| n]]; try discriminate.
  now intros [= <-].
Qed.

Lemma attr_inv (df : pd.DataFrame) (c : string) (vals : list value) :
  pd.attr df c = Return vals -> vals = map (pd.cell c) (pd.rows df).
Proof.
  unfold pd.attr. destruct (pd.occurrences c df) eqn:Hocc; [discriminate |].
  intro H. now apply series_inv in H.
Qed.

Lemma drop_inv (labels : list string) (df df' : pd.DataFrame) :
  pd.drop labels df = Return df' ->
  pd.rows df' = map (filter (fun cv => negb (pd.mem (fst cv) labels))) (pd.rows df).
Proof.
  unfold pd.drop. destruct (find _ labels); [discriminate |]. now intros [= <-].
Qed.

Lemma apply_Forall2 (f : value -> outcome value) (vals ys : list value) :
  pd.apply f vals = Return ys -> Forall2 (fun v y => f v = Return y) vals ys.
Proof.
  revert ys. induction vals as [| v vals IH]; cbn [pd.apply]; intros ys.
  - intros [= <-]. constructor.
  - destruct (f v) as [y |] eqn:Hf; [| discriminate].
    destruct (pd.apply f vals) as [ys' |]; [| discriminate].
    intros [= <-]. constructor; [exact Hf | now apply IH].
Qed.

Lemma apply_map (f : value -> outcome value) (vals ys : list value) :
  pd.apply f vals = Return ys ->
  ys = map (fun v => match f v with Return y => y | Raise _ => PyNone end) vals.
Proof.
  intro H. apply apply_Forall2 in H.
  induction H as [| v y vals ys Hf _ IH]; cbn [map]; [reflexivity |].
  now rewrite Hf, IH.
Qed.

Lemma flatten_all_In (ext : externals) (items : list value) (records : list dict)
    (d : dict) :
  AccountInfo.flatten_all ext items = Return records ->
  In d records -> exists x, In x items /\ flatten_dict ext x = Return d.
Proof.
  revert records. induction items as [| x items IH]; cbn [AccountInfo.flatten_all];
    intros records.
  - intros [= <-] [].
  - destruct (flatten_dict ext x) as [d0 |] eqn:Hx; [| discriminate].
    destruct (AccountInfo.flatten_all ext items) as [ds |]; [| discriminate].
    intros [= <-] [<- | Hin].
    + exists x. split; [now left | exact Hx].
    + destruct (IH ds eq_refl Hin) as (y & Hy & Hfy). exists y. split; [now right | exact Hfy].
Qed.

(** The rows of the frame [get_extractions] builds from a non-empty
    [data]. *)
Lemma extraction_frame_rows (ext : externals) (updates : bool) (data : value)
    (df : pd.DataFrame) :
  AccountInfo.extraction_frame ext updates data = Return df ->
  exists items records,
    py_iter data = Return items /\
    AccountInfo.flatten_all ext items = Return records /\
    let df0 := pd.rename "id" "object_id" (pd.of_records records) in
    let w := pd.shape1 (map pd.split_cell (map (pd.cell "object_id") (pd.rows df0))) in
    pd.occurrences "object_id" df0 = 1 /\
    pd.rows df
    = (if updates then fun rows => rows
       else filter (fun r => pd.isnull (pd.cell "update_id" r)))
        (map (extraction_row w) (pd.rows df0)).
Proof.
  unfold AccountInfo.extraction_frame.
  destruct (py_iter data) as [items |] eqn:Hiter; [| discriminate].
  destruct (AccountInfo.flatten_all ext items) as [records |] eqn:Hflat; [| discriminate].
  set (df0 := pd.rename "id" "object_id" (pd.of_records records)).
  destruct (pd.series df0 "object_id") as [object_ids |] eqn:Hseries; [| discriminate].
  apply series_inv in Hseries. destruct Hseries as [Hocc ->].
  destruct (pd.str_accessor _) as [object_ids |] eqn:Hstr; [| discriminate].
  apply str_accessor_inv in Hstr. subst object_ids.
  unfold pd.expanded.
  set (rows0 := pd.rows df0) in *.
  set (w := pd.shape1 (map pd.split_cell (map (pd.cell "object_id") rows0))).
  change (Nat.ltb 4 w) with (Nat.leb 5 w).
  change (Nat.ltb 6 w) with (Nat.leb 7 w).
  intro H. exists items, records. split; [reflexivity |]. split; [exact Hflat |].
  cbv zeta. fold df0. fold rows0. fold w. split; [exact Hocc |].
  set (short := fun r : pd.row =>
         if Nat.leb 5 w then pd.expand_cell 4 (pd.split_cell (pd.cell "object_id" r))
         else PyNone).
  set (upd := fun r : pd.row =>
         if Nat.leb 7 w then pd.expand_cell 6 (pd.split_cell (pd.cell "object_id" r))
         else PyNone).
  assert (Hshort :
            (if Nat.leb 5 w
             then (if Nat.leb 5 w
                   then Return (map (pd.expand_cell 4)
                                  (map pd.split_cell (map (pd.cell "object_id") rows0)))
                   else Raise (KeyError (pd.nat_label 4)))
             else Return (map (fun _ => PyNone) (map (pd.cell "object_id") rows0)))
            = Return (map short rows0)).
  { unfold short. destruct (Nat.leb 5 w); now rewrite !map_map. }
  assert (Hupd :
            (if Nat.leb 7 w
             then (if Nat.leb 7 w
                   then Return (map (pd.expand_cell 6)
                                  (map pd.split_cell (map (pd.cell "object_id") rows0)))
                   else Raise (KeyError (pd.nat_label 6)))
             else Return (map (fun _ => PyNone) (map (pd.cell "object_id") rows0)))
            = Return (map upd rows0)).
  { unfold upd. destruct (Nat.leb 7 w); now rewrite !map_map. }
  rewrite Hshort, Hupd in H.
  destruct (pd.drop _ _) as [df1 |] eqn:Hdrop; [| discriminate].
  apply drop_inv in Hdrop.
  assert (Hrows : pd.rows df1 = map (extraction_row w) rows0).
  { rewrite Hdrop. unfold pd.setitem. cbn [pd.rows]. fold rows0.
    rewrite <- (map_id rows0) at 1.
    rewrite (combine_map (fun r => r) short (pd.row_set "short_id") rows0).
    rewrite (combine_map (fun r => pd.row_set "short_id" (short r) r) upd
               (pd.row_set "update_id") rows0).
    rewrite map_map. reflexivity. }
  destruct updates; cbn [negb] in H.
  - injection H as <-. exact Hrows.
  - destruct (pd.attr df1 "update_id") as [update_ids |] eqn:Hattr; [| discriminate].
    apply attr_inv in Hattr. subst update_ids. injection H as <-.
    unfold pd.loc. cbn [pd.rows]. rewrite <- Hrows.
    rewrite map_map.
    apply (loc_filter (fun r => pd.isnull (pd.cell "update_id" r))).
Qed.

Lemma mem_In (c : string) (cs : list string) : pd.mem c cs = true <-> In c cs.
Proof.
  unfold pd.mem. rewrite existsb_exists. split.
  - intros (x & Hin & Heq). apply String.eqb_eq in Heq. now subst.
  - intro Hin. exists c. split; [exact Hin | apply String.eqb_refl].
Qed.

Lemma add_keys_seen (k : string) (ks seen : list string) :
  In k seen -> In k (pd.add_keys seen ks).
Proof.
  revert seen. induction ks as [| k0 ks IH]; cbn [pd.add_keys]; intros seen Hin;
    [exact Hin |].
  apply IH. destruct (pd.mem k0 seen); [exact Hin | apply in_or_app; now left].
Qed.

Lemma add_keys_new (k : string) (ks seen : list string) :
  In k ks -> In k (pd.add_keys seen ks).
Proof.
  revert seen. induction ks as [| k0 ks IH]; cbn [pd.add_keys In]; intros seen; [tauto |].
  intros [-> | Hin]; [| now apply IH].
  apply add_keys_seen. destruct (pd.mem k seen) eqn:Hmem.
  - now apply mem_In.
  - apply in_or_app. right. now left.
Qed.

Lemma union_keys_In (k : string) (d : dict) (records : list dict) :
  In d records -> In k (map fst d) -> In k (pd.union_keys records).
Proof.
  unfold pd.union_keys. generalize (@nil string) as seen.
  induction records as [| d0 records IH]; cbn [In fold_left]; intros seen; [tauto |].
  intros [-> | Hin] Hk; [| now apply IH].
  assert (Hseen : In k (pd.add_keys seen (map fst d))) by now apply add_keys_new.
  revert Hseen. generalize (pd.add_keys seen (map fst d)) as seen'. clear.
  induction records as [| d1 records IH]; cbn [fold_left]; intros seen' Hin; [exact Hin |].
  apply IH. now apply add_keys_seen.
Qed.

Lemma lookup_Some_In (k : string) (d : dict) (v : value) :
  lookup k d = Some v -> In k (map fst d).
Proof.
  induction d as [| [k0 x] d IH]; cbn [lookup map In fst]; [discriminate |].
  destruct (String.eqb_spec k k0) as [-> | _]; [now left | right; now apply IH].
Qed.

Lemma rename_rows (old new : string) (records : list dict) :
  pd.rows (pd.rename old new (pd.of_records records))
  = map (renamed_row old new (pd.union_keys records)) records.
Proof.
  unfold pd.rename, pd.of_records. cbn [pd.rows pd.columns]. now rewrite map_map.
Qed.

(** A label other than the new one keeps its cell through the renaming. *)
Lemma renamed_row_other (old new c : string) (cols : list string) (d : dict) (v : value) :
  c <> new ->
  lookup c (renamed_row old new cols d) = Some v -> v = pd.cell c d.
Proof.
  intro Hc. unfold renamed_row.
  induction cols as [| c0 cols IH]; cbn [map lookup fst snd]; [discriminate |].
  unfold pd.relabel at 1. destruct (String.eqb_spec c0 old) as [-> | H0].
  - rewrite (proj2 (String.eqb_neq c new) Hc). exact IH.
  - destruct (String.eqb_spec c c0) as [-> | _]; [now intros [= <-] | exact IH].
Qed.

(** The new label holds the cell of the old one, when the old one is a
    column and the new label is not repeated. *)
Lemma renamed_row_new (old new : string) (cols : list string) (d : dict) :
  In old cols ->
  length (filter (String.eqb new) (map (pd.relabel old new) cols)) = 1 ->
  lookup new (renamed_row old new cols d) = Some (pd.cell old d).
Proof.
  unfold renamed_row.
  induction cols as [| c0 cols IH]; cbn [In map filter lookup fst snd]; [tauto |].
  intros Hin Hocc. unfold pd.relabel at 1. unfold pd.relabel at 1 in Hocc.
  destruct (String.eqb_spec c0 old) as [-> | H0].
  - now rewrite String.eqb_refl.
  - destruct Hin as [-> | Hin]; [congruence |].
    destruct (String.eqb_spec new c0) as [-> | _].
    + exfalso. cbn [length] in Hocc.
      assert (Hpos : 1 <= length (filter (String.eqb c0)
                                    (map (pd.relabel old c0) cols))).
      { clear - Hin. induction cols as [| c1 cols IH]; [destruct Hin |].
        cbn [map filter]. unfold pd.relabel at 1.
        destruct Hin as [-> | Hin].
        - rewrite !String.eqb_refl. cbn [length]. lia.
        - specialize (IH Hin). destruct (String.eqb c0 _); cbn [length]; lia. }
      lia.
    + now apply IH.
Qed.

Lemma extraction_row_cells (w : nat) (r : pd.row) :
  let ids := pd.split_cell (pd.cell "object_id" r) in
  pd.cell "object_id" (extraction_row w r) = pd.cell "object_id" r /\
  pd.cell "short_id" (extraction_row w r)
  = (if Nat.leb 5 w then pd.expand_cell 4 ids else PyNone) /\
  pd.cell "update_id" (extraction_row w r)
  = (if Nat.leb 7 w then pd.expand_cell 6 ids else PyNone).
Proof.
  unfold extraction_row. cbv zeta.
  repeat split; rewrite cell_drop by reflexivity; rewrite !cell_row_set; reflexivity.
Qed.

Lemma get_extractions_inv (ext : externals) (updates : bool) (self self' : AccountInfo.obj)
    (t0 t' : trace) (l : SnapshotExtractionList) :
  AccountInfo.get_extractions ext updates self t0 = (Return l, self', t') ->
  exists k r body data,
    holds_key self k /\
    server ext t0 (AccountInfo.extractions_request ext k) = Return r /\
    status_code r = 200%Z /\
    json r = Some body /\
    getitem body "data" = Return data /\
    (if AccountInfo.is_empty_list data then extraction_items l = pd.empty
     else AccountInfo.extraction_frame ext updates data = Return (extraction_items l)).
Proof.
  run_account.
  destruct (AccountInfo.user_key self) as [u |] eqn:Hu; [| discriminate].
  destruct (server ext t0 _) as [r |] eqn:Hsrv; [| discriminate].
  destruct (Z.eqb_spec (status_code r) 200) as [Hst | Hst]; cbn [negb].
  2:{ destruct (status_code r =? 403)%Z; discriminate. }
  destruct (json r) as [body |] eqn:Hjson; [| discriminate].
  destruct (getitem body "data") as [data |] eqn:Hdata; [| discriminate].
  intro H. exists (UserKey.key u), r, body, data.
  split; [exists u; now split |].
  repeat (split; [assumption |]).
  destruct (AccountInfo.is_empty_list data).
  - now injection H as <- _ _.
  - destruct (AccountInfo.extraction_frame ext updates data); [| discriminate].
    now injection H as <- _ _.
Qed.

Lemma holds_key_unique (self : AccountInfo.obj) (k k' : option string) :
  holds_key self k -> holds_key self k' -> k = k'.
Proof.
  intros (u & Hu & <-) (u' & Hu' & <-). congruence.
Qed.

Lemma segment_Some (id : string) (n : nat) :
  n < length (split hyphen id) -> exists seg, segment id n = Some seg.
Proof.
  intro H. unfold segment.
  destruct (nth_error (split hyphen id) n) eqn:E; [eauto |].
  apply nth_error_None in E. lia.
Qed.

(** C8. In the list [get_extractions] returns, an entry whose
    [object_id] has exactly 7 segments has the segment at index 4 as
    [short_id] and the segment at index 6 as [update_id].  A record of
    the response whose id has only 5 segments is, without [updates], an
    entry of the list with that [short_id] and with [update_id] [None];
    with [updates] every record whose id is a string is an entry. *)
Theorem extraction_ids :
  forall (ext : externals) (updates : bool) (self self' : AccountInfo.obj)
         (t0 t' : trace) (l : SnapshotExtractionList),
    AccountInfo.get_extractions ext updates self t0 = (Return l, self', t') ->
    (forall row id,
        In row (pd.rows (extraction_items l)) ->
        pd.cell "object_id" row = PyStr id ->
        length (split hyphen id) = 7 ->
        exists short upd,
          segment id 4 = Some short /\ segment id 6 = Some upd /\
          pd.cell "short_id" row = PyStr short /\
          pd.cell "update_id" row = PyStr upd) /\
    (forall k r body records d id,
        holds_key self k ->
        server ext t0 (AccountInfo.extractions_request ext k) = Return r ->
        json r = Some body ->
        flattened_records ext body records ->
        In d records ->
        lookup "id" d = Some (PyStr id) ->
        (length (split hyphen id) = 5 -> updates = false ->
         exists row short,
           In row (pd.rows (extraction_items l)) /\
           pd.cell "object_id" row = PyStr id /\
           segment id 4 = Some short /\
           pd.cell "short_id" row = PyStr short /\
           pd.cell "update_id" row = PyNone) /\
        (updates = true ->
         exists row,
           In row (pd.rows (extraction_items l)) /\
           pd.cell "object_id" row = PyStr id)).
Proof.
  intros ext updates self self' t0 t' l Hget.
  apply get_extractions_inv in Hget.
  destruct Hget as (k0 & r0 & body0 & data0 & Hk0 & Hsrv0 & Hst0 & Hjson0 & Hdata0 & Hframe).
  split.
  - intros row id Hin Hid Hlen.
    destruct (AccountInfo.is_empty_list data0).
    { rewrite Hframe in Hin. destruct Hin. }
    apply extraction_frame_rows in Hframe.
    destruct Hframe as (items & records & _ & _ & Hrows). cbv zeta in Hrows.
    destruct Hrows as [_ Hrows].
    set (rows0 := pd.rows (pd.rename "id" "object_id" (pd.of_records records))) in *.
    set (w := pd.shape1 (map pd.split_cell (map (pd.cell "object_id") rows0))) in *.
    assert (Hrow : exists r0', In r0' rows0 /\ row = extraction_row w r0').
    { rewrite Hrows in Hin. destruct updates.
      - apply in_map_iff in Hin. destruct Hin as (x & <- & Hx). eauto.
      - apply filter_In in Hin. destruct Hin as [Hin _].
        apply in_map_iff in Hin. destruct Hin as (x & <- & Hx). eauto. }
    destruct Hrow as (r0' & Hr0 & ->).
    destruct (extraction_row_cells w r0') as (Hoid & Hshort & Hupd). cbv zeta in *.
    rewrite Hoid in Hid. rewrite Hid in Hshort, Hupd. cbn [pd.split_cell] in *.
    assert (Hw : 7 <= w).
    { rewrite <- Hlen.
      apply (shape1_ge (Some (split hyphen id))).
      apply in_map_iff. exists (PyStr id). split; [reflexivity |].
      apply in_map_iff. exists r0'. now split. }
    destruct (segment_Some id 4) as (short & Hs4); [lia |].
    destruct (segment_Some id 6) as (upd & Hs6); [lia |].
    exists short, upd. unfold segment in *. unfold pd.expand_cell in *.
    rewrite Hs4 in Hshort. rewrite Hs6 in Hupd.
    rewrite (proj2 (Nat.leb_le 5 w)) in Hshort by lia.
    rewrite (proj2 (Nat.leb_le 7 w)) in Hupd by lia.
    repeat split; assumption.
  - intros k r body records d id Hk Hsrv Hjson (data & items & Hdata & Hiter & Hflat) Hd Hid.
    rewrite (holds_key_unique self k k0 Hk Hk0) in Hsrv.
    assert (r = r0) by congruence. subst r0.
    assert (body = body0) by congruence. subst body0.
    assert (data = data0) by congruence. subst data0.
    destruct (AccountInfo.is_empty_list data) eqn:Hempty.
    { destruct data as [| | | | | [| ? ?] |]; try discriminate Hempty.
      cbn in Hiter. injection Hiter as <-. cbn in Hflat. injection Hflat as <-.
      destruct Hd. }
    apply extraction_frame_rows in Hframe.
    destruct Hframe as (items' & records' & Hiter' & Hflat' & Hrows). cbv zeta in Hrows.
    assert (items' = items) by congruence. subst items'.
    assert (records' = records) by congruence. subst records'.
    destruct Hrows as [Hocc Hrows].
    rewrite rename_rows in Hrows.
    set (cols := pd.union_keys records) in *.
    set (rows0 := map (renamed_row "id" "object_id" cols) records) in *.
    set (w := pd.shape1 (map pd.split_cell (map (pd.cell "object_id") rows0))) in *.
    set (r0' := renamed_row "id" "object_id" cols d).
    assert (Hr0 : In r0' rows0) by (apply in_map_iff; exists d; now split).
    assert (Hcell : pd.cell "object_id" r0' = PyStr id).
    { unfold pd.cell, r0'. rewrite renamed_row_new.
      - unfold pd.cell. now rewrite Hid.
      - apply (union_keys_In "id" d records Hd). now apply lookup_Some_In with (v := PyStr id).
      - exact Hocc. }
    destruct (extraction_row_cells w r0') as (Hoid & Hshort & Hupd). cbv zeta in *.
    rewrite Hcell in Hoid, Hshort, Hupd. cbn [pd.split_cell] in *.
    assert (Hw : length (split hyphen id) <= w).
    { apply (shape1_ge (Some (split hyphen id))).
      apply in_map_iff. exists (PyStr id). split; [reflexivity |].
      apply in_map_iff. exists r0'. now split. }
    split.
    + intros Hlen ->.
      destruct (segment_Some id 4) as (short & Hs4); [lia |].
      exists (extraction_row w r0'), short.
      unfold segment in *. unfold pd.expand_cell in *.
      rewrite Hs4 in Hshort.
      rewrite (proj2 (Nat.leb_le 5 w)) in Hshort by lia.
      assert (Hs6 : nth_error (split hyphen id) 6 = None) by (apply nth_error_None; lia).
      rewrite Hs6 in Hupd.
      assert (Hnone : pd.cell "update_id" (extraction_row w r0') = PyNone)
        by (rewrite Hupd; now destruct (Nat.leb 7 w)).
      repeat split; try assumption.
      rewrite Hrows. apply filter_In. split.
      * apply in_map_iff. exists r0'. now split.
      * now rewrite Hnone.
    + intros ->. exists (extraction_row w r0'). split; [| exact Hoid].
      rewrite Hrows. apply in_map_iff. exists r0'. now split.
Qed.

Lemma extraction_ids_witness :
  (exists short upd,
      segment Sample.update_id 4 = Some short /\ segment Sample.update_id 6 = Some upd /\
      pd.cell "short_id" Sample.update_entry = PyStr short /\
      pd.cell "update_id" Sample.update_entry = PyStr upd) /\
  (exists row short,
      In row (pd.rows (extraction_items (Sample.listed_extractions false))) /\
      pd.cell "object_id" row = PyStr Sample.original_id /\
      segment Sample.original_id 4 = Some short /\
      pd.cell "short_id" row = PyStr short /\
      pd.cell "update_id" row = PyNone).
Proof.
  split.
  - apply (proj1 (extraction_ids (Sample.world Sample.listing) true Sample.account_view
                    (AccountInfo.set_extractions (Some (Sample.listed_extractions true))
                       Sample.account_view)
                    [] [AccountInfo.extractions_request (Sample.world Sample.listing)
                          (Some Sample.DUMMY_KEY)]
                    (Sample.listed_extractions true) eq_refl)
             Sample.update_entry Sample.update_id).
    + left. reflexivity.
    + reflexivity.
    + reflexivity.
  - refine (proj1 (proj2 (extraction_ids (Sample.world Sample.listing) false
                    Sample.account_view
                    (AccountInfo.set_extractions (Some (Sample.listed_extractions false))
                       Sample.account_view)
                    [] [AccountInfo.extractions_request (Sample.world Sample.listing)
                          (Some Sample.DUMMY_KEY)]
                    (Sample.listed_extractions false) eq_refl)
             (Some Sample.DUMMY_KEY)
             (Sample.extraction_list Sample.listing)
             (PyDict [("data", PyList [Sample.extraction Sample.update_id;
                                       Sample.extraction Sample.original_id])])
             [Sample.flatten (Sample.extraction Sample.update_id);
              Sample.flatten (Sample.extraction Sample.original_id)]
             (Sample.flatten (Sample.extraction Sample.original_id))
             Sample.original_id _ eq_refl eq_refl _ _ eq_refl) eq_refl eq_refl).
    + eexists. split; reflexivity.
    + eexists. eexists. repeat split.
    + right. left. reflexivity.
Defined.

(** ** Stream subscriptions *)

Lemma last_three_segments (l : list string) :
  3 <= length l ->
  exists a b c,
    skipn (length l - 3) l = [a; b; c] /\
    nth_error l (length l - 3) = Some a /\
    nth_error l (length l - 2) = Some b /\
    nth_error l (length l - 1) = Some c.
Proof.
  intro Hlen.
  pose proof (firstn_skipn (length l - 3) l) as Hsplit.
  pose proof (length_skipn (length l - 3) l) as Hsuf.
  pose proof (length_firstn (length l - 3) l) as Hpre.
  destruct (skipn (length l - 3) l) as [| a [| b [| c [| x suf]]]] eqn:E;
    cbn [length] in Hsuf; try lia.
  exists a, b, c. split; [reflexivity |].
  rewrite <- Hsplit at 1 3 5.
  replace (length l - 2) with (length (firstn (length l - 3) l) + 1) by lia.
  replace (length l - 1) with (length (firstn (length l - 3) l) + 2) by lia.
  replace (length l - 3) with (length (firstn (length l - 3) l) + 0) at 2 by lia.
  rewrite !nth_error_app2 by lia.
  replace (length (firstn (length l - 3) l) + 0 - length (firstn (length l - 3) l))
    with 0 by lia.
  replace (length (firstn (length l - 3) l) + 1 - length (firstn (length l - 3) l))
    with 1 by lia.
  replace (length (firstn (length l - 3) l) + 2 - length (firstn (length l - 3) l))
    with 2 by lia.
  repeat split.
Qed.

Lemma subscription_id_inv (item id : value) :
  AccountInfo.subscription_id item = Return id -> short_subscription item id.
Proof.
  unfold AccountInfo.subscription_id, short_subscription.
  destruct (getitem item "id") as [v |]; [| discriminate].
  destruct v as [| | | | sid | |]; try discriminate.
  unfold neg_index.
  destruct (Nat.ltb_spec (length (split hyphen sid)) 3) as [Hlt | Hge]; [discriminate |].
  destruct (last_three_segments _ Hge) as (a & b & c & Hskip & Ha & Hb & Hc).
  rewrite Ha, Hb, Hc.
  destruct (Nat.ltb_spec (length (split hyphen sid)) 2); [lia |].
  destruct (Nat.ltb_spec (length (split hyphen sid)) 1); [lia |].
  intros [= <-]. exists sid. split; [reflexivity |]. split; [exact Hge |].
  unfold last_three. rewrite Hskip. reflexivity.
Qed.

Lemma extract_subscriptions_inv (data y : value) :
  AccountInfo.extract_subscriptions data = Return y ->
  exists items ids,
    py_iter data = Return items /\
    y = PyList ids /\
    Forall2 short_subscription items ids.
Proof.
  unfold AccountInfo.extract_subscriptions.
  destruct (py_iter data) as [items |]; [| discriminate].
  destruct (pd.apply AccountInfo.subscription_id items) as [ids |] eqn:Happ; [| discriminate].
  intros [= <-]. exists items, ids. repeat split.
  apply apply_Forall2 in Happ.
  induction Happ; constructor; [now apply subscription_id_inv | assumption].
Qed.

Lemma apply_In (f : value -> outcome value) (vals ys : list value) (v : value) :
  pd.apply f vals = Return ys -> In v vals -> exists y, f v = Return y.
Proof.
  intro H. apply apply_Forall2 in H.
  induction H as [| v0 y0 vals ys Hf _ IH]; cbn [In]; [tauto |].
  intros [<- | Hin]; [eauto | now apply IH].
Qed.

Lemma stream_row_cells (r : pd.row) :
  pd.cell "subscriptions" (stream_row r) = subscriptions_of (pd.cell "data" r) /\
  pd.cell "n_subscriptions" (stream_row r)
  = pd.str_len (subscriptions_of (pd.cell "data" r)).
Proof.
  unfold stream_row. cbv zeta.
  split; rewrite cell_drop by reflexivity; rewrite !cell_row_set; reflexivity.
Qed.

(** The rows of the frame [get_streams] builds. *)
Lemma stream_frame_rows (ext : externals) (running : bool) (r : response)
    (df : pd.DataFrame) :
  AccountInfo.stream_frame ext running r = Return df ->
  exists body records,
    json r = Some body /\
    flattened_records ext body records /\
    let rows0 := pd.rows (pd.rename "id" "stream_id" (pd.of_records records)) in
    (forall r0, In r0 rows0 ->
                exists y, AccountInfo.extract_subscriptions (pd.cell "data" r0) = Return y) /\
    pd.rows df
    = (if running
       then filter (fun r0 => AccountInfo.is_str (API_JOB_RUNNING_STATE ext)
                                (pd.cell "job_status" r0))
       else fun rows => rows)
        (map stream_row rows0).
Proof.
  unfold AccountInfo.stream_frame, response_json.
  destruct (json r) as [body |] eqn:Hjson; [| discriminate].
  destruct (getitem body "data") as [data |] eqn:Hdata; [| discriminate].
  destruct (py_iter data) as [items |] eqn:Hiter; [| discriminate].
  destruct (AccountInfo.flatten_all ext items) as [records |] eqn:Hflat; [| discriminate].
  set (df0 := pd.rename "id" "stream_id" (pd.of_records records)).
  destruct (pd.series df0 "stream_id") as [stream_ids |] eqn:Hseries; [| discriminate].
  apply series_inv in Hseries. destruct Hseries as [_ ->].
  destruct (pd.str_accessor _) as [stream_ids |] eqn:Hstr; [| discriminate].
  apply str_accessor_inv in Hstr. subst stream_ids.
  unfold pd.expanded.
  set (rows0 := pd.rows df0) in *.
  destruct (Nat.ltb 4 _); [| discriminate].
  destruct (Nat.ltb 2 _); [| discriminate].
  rewrite !map_map.
  set (e4 := fun r0 : pd.row => pd.expand_cell 4 (pd.split_cell (pd.cell "stream_id" r0))).
  set (e2 := fun r0 : pd.row => pd.expand_cell 2 (pd.split_cell (pd.cell "stream_id" r0))).
  set (R2 := fun r0 : pd.row => pd.row_set "stream_type" (e2 r0)
                                  (pd.row_set "short_id" (e4 r0) r0)).
  set (df2 := pd.setitem "stream_type" _ _).
  assert (Hrows2 : pd.rows df2 = map R2 rows0).
  { unfold df2, pd.setitem. cbn [pd.rows]. fold rows0.
    rewrite <- (map_id rows0) at 1.
    rewrite (combine_map (fun r0 => r0) e4 (pd.row_set "short_id") rows0).
    now rewrite (combine_map (fun r0 => pd.row_set "short_id" (e4 r0) r0) e2
                   (pd.row_set "stream_type") rows0). }
  destruct (pd.series df2 "data") as [data_column |] eqn:Hcol; [| discriminate].
  apply series_inv in Hcol. destruct Hcol as [_ ->].
  rewrite Hrows2, map_map.
  destruct (pd.apply _ _) as [subscriptions |] eqn:Happ; [| discriminate].
  assert (Hall : forall r0, In r0 rows0 ->
                   exists y, AccountInfo.extract_subscriptions (pd.cell "data" r0) = Return y).
  { intros r0 Hr0.
    destruct (apply_In _ _ _ (pd.cell "data" (R2 r0)) Happ) as (y & Hy).
    - apply in_map_iff. exists r0. now split.
    - exists y. unfold R2 in Hy. now rewrite !cell_row_set in Hy. }
  apply apply_map in Happ. rewrite map_map in Happ. subst subscriptions.
  set (R3 := fun r0 : pd.row =>
               pd.row_set "subscriptions" (subscriptions_of (pd.cell "data" (R2 r0))) (R2 r0)).
  set (df3 := pd.setitem "subscriptions" _ _).
  assert (Hrows3 : pd.rows df3 = map R3 rows0).
  { unfold df3, pd.setitem. cbn [pd.rows]. rewrite Hrows2.
    apply (combine_map R2 (fun r0 => subscriptions_of (pd.cell "data" (R2 r0)))
             (pd.row_set "subscriptions") rows0). }
  destruct (pd.series df3 "subscriptions") as [subs |] eqn:Hsubs; [| discriminate].
  apply series_inv in Hsubs. destruct Hsubs as [_ ->].
  destruct (pd.str_accessor _) as [subs |] eqn:Hstr; [| discriminate].
  apply str_accessor_inv in Hstr. subst subs.
  rewrite Hrows3, !map_map.
  destruct (pd.drop _ _) as [df5 |] eqn:Hdrop; [| discriminate].
  apply drop_inv in Hdrop.
  assert (Hrows5 : pd.rows df5 = map stream_row rows0).
  { rewrite Hdrop. unfold pd.setitem. cbn [pd.rows]. rewrite Hrows3.
    rewrite (combine_map R3 (fun r0 => pd.str_len (pd.cell "subscriptions" (R3 r0)))
               (pd.row_set "n_subscriptions") rows0).
    rewrite map_map. reflexivity. }
  intro H. exists body, records. split; [reflexivity |].
  split; [exists data, items; repeat split; assumption |].
  cbv zeta. fold df0. fold rows0. split; [exact Hall |].
  destruct running.
  - destruct (pd.attr df5 "job_status") as [job_status |] eqn:Hattr; [| discriminate].
    apply attr_inv in Hattr. subst job_status. injection H as <-.
    unfold pd.loc. cbn [pd.rows]. rewrite <- Hrows5, map_map.
    apply (loc_filter (fun r0 => AccountInfo.is_str (API_JOB_RUNNING_STATE ext)
                                   (pd.cell "job_status" r0))).
  - injection H as <-. exact Hrows5.
Qed.

Lemma get_streams_inv (ext : externals) (running : bool) (self self' : AccountInfo.obj)
    (t0 t' : trace) (df : pd.DataFrame) :
  AccountInfo.get_streams ext running self t0 = (Return df, self', t') ->
  exists k r,
    holds_key self k /\
    server ext t0 (AccountInfo.streams_request ext k) = Return r /\
    ((status_code r = 200%Z /\ AccountInfo.stream_frame ext running r = Return df) \/
     (status_code r = 404%Z /\ df = pd.empty)).
Proof.
  run_account.
  destruct (AccountInfo.user_key self) as [u |] eqn:Hu; [| discriminate].
  destruct (server ext t0 _) as [r |] eqn:Hsrv; [| discriminate].
  intro H. exists (UserKey.key u), r.
  split; [exists u; now split |]. split; [exact Hsrv |].
  destruct (Z.eqb_spec (status_code r) 200) as [Hst | _].
  - left. split; [exact Hst |].
    destruct (AccountInfo.stream_frame ext running r); [| discriminate].
    now injection H as <- _ _.
  - destruct (Z.eqb_spec (status_code r) 404) as [Hst | _].
    + right. split; [exact Hst |]. now injection H as <- _ _.
    + destruct (status_code r =? 403)%Z; discriminate.
Qed.

(** C9. In the frame [get_streams] returns, the [subscriptions] of an
    entry are, one for one, the ids of the subscription records attached
    to the stream, each reduced to its last three segments joined by
    hyphens, and [n_subscriptions] is the number of these records. *)
Theorem stream_subscriptions :
  forall (ext : externals) (running : bool) (self self' : AccountInfo.obj)
         (t0 t' : trace) (df : pd.DataFrame) (row : pd.row),
    AccountInfo.get_streams ext running self t0 = (Return df, self', t') ->
    In row (pd.rows df) ->
    subscriptions_derived ext self t0 row.
Proof.
  intros ext running self self' t0 t' df row Hget Hin.
  apply get_streams_inv in Hget.
  destruct Hget as (k & r & Hk & Hsrv & [[Hst Hframe] | [Hst ->]]); [| destruct Hin].
  apply stream_frame_rows in Hframe.
  destruct Hframe as (body & records & Hjson & Hrecords & Hall & Hrows).
  rewrite rename_rows in Hall, Hrows.
  assert (Hrow : exists d, In d records /\
                   row = stream_row (renamed_row "id" "stream_id"
                                       (pd.union_keys records) d)).
  { rewrite Hrows in Hin.
    assert (Hin' : In row (map stream_row
                             (map (renamed_row "id" "stream_id" (pd.union_keys records))
                                records)))
      by (destruct running; [now apply filter_In in Hin | exact Hin]).
    apply in_map_iff in Hin'. destruct Hin' as (r0 & <- & Hr0).
    apply in_map_iff in Hr0. destruct Hr0 as (d & <- & Hd). eauto. }
  destruct Hrow as (d & Hd & ->).
  set (r0 := renamed_row "id" "stream_id" (pd.union_keys records) d) in *.
  destruct (Hall r0) as (y & Hy); [apply in_map_iff; exists d; now split |].
  assert (Hdata : pd.cell "data" r0 = pd.cell "data" d).
  { unfold pd.cell at 1. destruct (lookup "data" r0) as [v |] eqn:Hlook.
    - apply renamed_row_other in Hlook; [exact Hlook | discriminate].
    - unfold pd.cell in Hy. rewrite Hlook in Hy. discriminate Hy. }
  destruct (stream_row_cells r0) as (Hsubs & Hn).
  unfold subscriptions_of in Hsubs, Hn. rewrite Hy in Hsubs, Hn.
  apply extract_subscriptions_inv in Hy.
  destruct Hy as (items & ids & Hiter & -> & Hshort).
  exists k, r, body, records, d, items, ids.
  rewrite <- Hdata.
  repeat (split; [assumption |]).
  rewrite Hn. cbn [pd.str_len]. now rewrite (Forall2_length Hshort).
Qed.

Lemma stream_subscriptions_witness :
  subscriptions_derived (Sample.world Sample.listing) Sample.account_view []
    Sample.stream_entry /\
  last_three "x-y-p1-p2-p3" = "p1-p2-p3".
Proof.
  split; [| reflexivity].
  apply (stream_subscriptions (Sample.world Sample.listing) true Sample.account_view
           (AccountInfo.set_streams (Some {| stream_items := Sample.listed_streams |})
              Sample.account_view)
           [] [AccountInfo.streams_request (Sample.world Sample.listing)
                 (Some Sample.DUMMY_KEY)]
           Sample.listed_streams Sample.stream_entry).
  - reflexivity.
  - left. reflexivity.
Defined.

(** ** More on the credential *)

(** Without a [key] argument and without the environment variable,
    [UserKey] raises the not-provided [ValueError], whatever made the
    lookup fail, and sends nothing. *)
Theorem key_not_provided :
  forall (ext : externals) (e : exn) (self : UserKey.obj) (t0 : trace),
    load_environment_value ext "FACTIVA_USERKEY" = Raise e ->
    UserKey.__init__ ext UserKey.ArgNone self t0
    = (Raise (ValueError UserKey.not_provided_message), self, t0) /\
    (forall (S : Type) (st : S),
        UserKey.new ext UserKey.ArgNone st t0
        = (Raise (ValueError UserKey.not_provided_message), st, t0)).
Proof.
  intros ext e self t0 Henv.
  assert (Hinit : forall self0,
             UserKey.__init__ ext UserKey.ArgNone self0 t0
             = (Raise (ValueError UserKey.not_provided_message), self0, t0)).
  { intro self0. run. now rewrite Henv. }
  split; [apply Hinit |].
  intros S st. unfold UserKey.new, construct. now rewrite Hinit.
Qed.

Lemma key_not_provided_witness :
  UserKey.new (Sample.world Sample.inactive) UserKey.ArgNone tt []
  = (Raise (ValueError UserKey.not_provided_message), tt, []).
Proof.
  apply (key_not_provided (Sample.world Sample.inactive) (KeyError "FACTIVA_USERKEY")
           UserKey.fresh []).
  reflexivity.
Defined.

(** [is_active] sends the taxonomy request with the key in the header,
    answers whether the status is 200 and leaves the instance alone; on an
    account view it does the same with the key of the owned [UserKey], so
    both give the same answer for the same service. *)
Theorem is_active_is_a_pure_status_test :
  forall (ext : externals) (a : AccountInfo.obj) (u : UserKey.obj) (t0 : trace)
         (r : response),
    AccountInfo.user_key a = Some u ->
    server ext t0 (UserKey.taxonomy_request ext (UserKey.key u)) = Return r ->
    UserKey.is_active ext u t0
    = (Return (status_code r =? 200)%Z, u,
       t0 ++ [UserKey.taxonomy_request ext (UserKey.key u)]) /\
    AccountInfo.is_active ext a t0
    = (Return (status_code r =? 200)%Z, a,
       t0 ++ [UserKey.taxonomy_request ext (UserKey.key u)]).
Proof.
  intros ext a u t0 r Hu Hsrv. split.
  - run. rewrite Hsrv. now destruct (status_code r =? 200)%Z.
  - unfold AccountInfo.is_active. run_account. rewrite Hu, Hsrv.
    now destruct (status_code r =? 200)%Z.
Qed.

Lemma is_active_is_a_pure_status_test_witness :
  AccountInfo.is_active (Sample.world Sample.inactive) Sample.account_view []
  = (Return false, Sample.account_view,
     [UserKey.taxonomy_request (Sample.world Sample.inactive) (Some Sample.DUMMY_KEY)]).
Proof.
  apply (is_active_is_a_pure_status_test (Sample.world Sample.inactive)
           Sample.account_view (UserKey.set_key (Some Sample.DUMMY_KEY) UserKey.fresh)
           [] (Sample.status 403)); reflexivity.
Defined.

(** A [streaming_credentials] that is a JSON text makes [get_cloud_token]
    store what the text decodes to, in place of any token stored before,
    and return [True]; the key is kept. *)
Theorem cloud_token_is_decoded_and_stored :
  forall (ext : externals) (self : UserKey.obj) (t0 : trace) (r : response)
         (body : value) (s : string) (token : value),
    server ext t0 (UserKey.cloud_token_request ext (UserKey.key self)) = Return r ->
    status_code r <> 401%Z ->
    json r = Some body ->
    path body credentials_path = Return (PyStr s) ->
    json_decode ext s = Some token ->
    exists self',
      UserKey.get_cloud_token ext self t0
      = (Return true, self',
         t0 ++ [UserKey.cloud_token_request ext (UserKey.key self)]) /\
      UserKey.cloud_token self' = token /\
      UserKey.key self' = UserKey.key self.
Proof.
  intros ext self t0 r body s token Hsrv Hst Hjson Hpath Hdec.
  exists (UserKey.set_cloud_token token self).
  rewrite (get_cloud_token_answered ext self t0 r body Hsrv Hst Hjson), Hpath.
  cbn. rewrite Hdec. repeat split.
Qed.

Lemma cloud_token_is_decoded_and_stored_witness :
  exists self',
    UserKey.get_cloud_token
      (Sample.world (Sample.active_with (Sample.envelope (PyStr Sample.token_text))))
      (UserKey.set_key (Some Sample.DUMMY_KEY) UserKey.fresh) []
    = (Return true, self',
       [UserKey.cloud_token_request
          (Sample.world (Sample.active_with (Sample.envelope (PyStr Sample.token_text))))
          (Some Sample.DUMMY_KEY)]) /\
    UserKey.cloud_token self' = Sample.token /\
    UserKey.key self' = Some Sample.DUMMY_KEY.
Proof.
  apply (cloud_token_is_decoded_and_stored
           (Sample.world (Sample.active_with (Sample.envelope (PyStr Sample.token_text))))
           (UserKey.set_key (Some Sample.DUMMY_KEY) UserKey.fresh) []
           (Sample.ok (Sample.envelope (PyStr Sample.token_text)))
           (Sample.envelope (PyStr Sample.token_text)) Sample.token_text Sample.token).
  - reflexivity.
  - simpl; lia.
  - reflexivity.
  - reflexivity.
  - reflexivity.
Defined.

(** A [streaming_credentials] that is neither [null] nor a decodable
    text is not turned into the limited-access error: a value that is not
    a string raises the [TypeError] of [json.loads], a text that is not
    JSON its [JSONDecodeError]; in both cases the instance keeps the token
    it had. *)
Theorem undecodable_credentials_propagate :
  forall (ext : externals) (self : UserKey.obj) (t0 : trace) (r : response)
         (body sc : value),
    server ext t0 (UserKey.cloud_token_request ext (UserKey.key self)) = Return r ->
    status_code r <> 401%Z ->
    json r = Some body ->
    path body credentials_path = Return sc ->
    sc <> PyNone ->
    let t1 := t0 ++ [UserKey.cloud_token_request ext (UserKey.key self)] in
    ((forall s, sc <> PyStr s) ->
     UserKey.get_cloud_token ext self t0 = (Raise TypeError, self, t1)) /\
    (forall s, sc = PyStr s -> json_decode ext s = None ->
               UserKey.get_cloud_token ext self t0 = (Raise JSONDecodeError, self, t1)).
Proof.
  intros ext self t0 r body sc Hsrv Hst Hjson Hpath Hsc t1.
  rewrite (get_cloud_token_answered ext self t0 r body Hsrv Hst Hjson), Hpath.
  cbv zeta. split.
  - intro Hstr. destruct sc; try reflexivity; [now destruct Hsc | now destruct (Hstr s)].
  - intros s -> Hdec. cbn. now rewrite Hdec.
Qed.

Lemma undecodable_credentials_propagate_witness :
  let ext := Sample.world (Sample.active_with (Sample.envelope Sample.token)) in
  let self := UserKey.set_key (Some Sample.DUMMY_KEY) UserKey.fresh in
  UserKey.get_cloud_token ext self []
  = (Raise TypeError, self, [UserKey.cloud_token_request ext (Some Sample.DUMMY_KEY)]).
Proof.
  cbv zeta.
  refine (proj1 (undecodable_credentials_propagate
            (Sample.world (Sample.active_with (Sample.envelope Sample.token)))
            (UserKey.set_key (Some Sample.DUMMY_KEY) UserKey.fresh) []
            (Sample.ok (Sample.envelope Sample.token)) (Sample.envelope Sample.token)
            Sample.token eq_refl _ eq_refl eq_refl _) _).
  - simpl; lia.
  - discriminate.
  - intros s H. discriminate H.
Defined.

(** ** Account statistics *)

Ltac next_path :=
  match goal with
  | |- context [match path ?o ?ks with _ => _ end] =>
      let E := fresh "Hpath" in
      destruct (path o ks) eqn:E; cbv beta iota zeta
  end.

(** [get_stats] read backwards, for an account view that holds a key and
    a service that answered. *)
Lemma get_stats_inv (ext : externals) (self self' : AccountInfo.obj) (u : UserKey.obj)
    (t0 t' : trace) (r : response) (o : outcome bool) :
  AccountInfo.user_key self = Some u ->
  server ext t0 (AccountInfo.stats_request ext (UserKey.key u)) = Return r ->
  AccountInfo.get_stats ext self t0 = (o, self', t') ->
  t' = t0 ++ [AccountInfo.stats_request ext (UserKey.key u)] /\
  same_holdings self self' /\
  (if (status_code r =? 200)%Z then
     o = Raise (AttributeError stats_response_message) \/
     (o = Return true /\
      exists resp_obj,
        json_loads ext (PyStr (text r)) = Return resp_obj /\ stats_of resp_obj self')
   else if (status_code r =? 403)%Z then
     o = Raise (ValueError stats_inactive_message) /\ self' = self
   else o = Raise (RuntimeError stats_error_message) /\ self' = self).
Proof.
  intros Hu Hsrv.
  unfold AccountInfo.get_stats, AccountInfo.assign. run_account.
  rewrite Hu, Hsrv.
  destruct (status_code r =? 200)%Z.
  - destruct (json_loads ext _) as [resp_obj |] eqn:Hloads.
    2:{ intros [= <- <- <-]. repeat split. now left. }
    unfold same_holdings, stats_of. destruct self. cbn [AccountInfo.user_key] in Hu.
    repeat next_path;
      intros [= <- <- <-];
      (split; [reflexivity |]); (split; [repeat split |]);
      try (left; reflexivity).
    right. split; [reflexivity |]. exists resp_obj. split; [reflexivity |].
    cbv zeta. cbn. repeat split; assumption.
  - destruct (status_code r =? 403)%Z; intros [= <- <- <-]; repeat split.
Qed.

(** [get_stats] sends one request, whatever comes of it, and never writes
    the key or the two lists. *)
Lemma get_stats_frame (ext : externals) (self self' : AccountInfo.obj) (u : UserKey.obj)
    (t0 t' : trace) (o : outcome bool) :
  AccountInfo.user_key self = Some u ->
  AccountInfo.get_stats ext self t0 = (o, self', t') ->
  t' = t0 ++ [AccountInfo.stats_request ext (UserKey.key u)] /\
  same_holdings self self'.
Proof.
  intros Hu Hget.
  destruct (server ext t0 (AccountInfo.stats_request ext (UserKey.key u)))
    as [r | e] eqn:Hsrv.
  - destruct (get_stats_inv ext self self' u t0 t' r o Hu Hsrv Hget) as (Ht & Hsame & _).
    now split.
  - unfold AccountInfo.get_stats in Hget. run_account. rewrite Hu, Hsrv in Hget.
    injection Hget as <- <- <-. repeat split.
Qed.

(** On a 200 answer whose text decodes to a document that has every
    attribute [get_stats] reads, the call returns [True] after its single
    request, every statistic holds the value the document gives at its
    place, and the key and the two lists are untouched. *)
Theorem get_stats_loads_the_document :
  forall (ext : externals) (self : AccountInfo.obj) (u : UserKey.obj) (t0 : trace)
         (r : response) (resp_obj : value),
    AccountInfo.user_key self = Some u ->
    server ext t0 (AccountInfo.stats_request ext (UserKey.key u)) = Return r ->
    status_code r = 200%Z ->
    json_loads ext (PyStr (text r)) = Return resp_obj ->
    (exists complete, stats_of resp_obj complete) ->
    exists self',
      AccountInfo.get_stats ext self t0
      = (Return true, self', t0 ++ [AccountInfo.stats_request ext (UserKey.key u)]) /\
      stats_of resp_obj self' /\
      same_holdings self self'.
Proof.
  intros ext self u t0 r resp_obj Hu Hsrv Hst Hloads (complete & Hdoc).
  unfold stats_of in Hdoc. cbv zeta in Hdoc.
  destruct Hdoc as (H1 & H2 & H3 & H4 & H5 & H6 & H7 & H8 & H9 & H10 & H11 & H12 & H13).
  destruct (AccountInfo.get_stats ext self t0) as [[o self'] t'] eqn:Hget.
  destruct (get_stats_inv ext self self' u t0 t' r o Hu Hsrv Hget) as (-> & Hsame & Hout).
  rewrite Hst in Hout. cbn [Z.eqb Pos.eqb] in Hout.
  assert (Ho : o = Return true).
  { clear Hout Hsame.
    unfold AccountInfo.get_stats, AccountInfo.assign in Hget. run_account.
    rewrite Hu, Hsrv, Hst, Hloads in Hget. cbn [Z.eqb Pos.eqb] in Hget.
    rewrite H1, H2, H3, H4, H5, H6, H7, H8, H9, H10, H11, H12, H13 in Hget.
    now inversion Hget. }
  subst o. exists self'. split; [reflexivity |].
  destruct Hout as [Hbad | (_ & resp_obj' & Hloads' & Hstats)]; [discriminate Hbad |].
  rewrite Hloads in Hloads'. injection Hloads' as <-. now split.
Qed.

Lemma get_stats_loads_the_document_witness :
  exists self',
    AccountInfo.get_stats (Demo.world Demo.account_response) Demo.keyed []
    = (Return true, self',
       [AccountInfo.stats_request (Demo.world Demo.account_response)
          (Some Sample.DUMMY_KEY)]) /\
    stats_of Demo.account_document self' /\
    same_holdings Demo.keyed self'.
Proof.
  apply (get_stats_loads_the_document (Demo.world Demo.account_response) Demo.keyed
           Demo.credential [] Demo.account_response Demo.account_document).
  - reflexivity.
  - reflexivity.
  - reflexivity.
  - reflexivity.
  - exists Demo.loaded. repeat split.
Defined.

(** The answers of the account endpoint and what [get_stats] makes of
    them: 403 is the inactive-key [ValueError], any other status than 200
    the [RuntimeError], and in both cases the account view is exactly as
    before; a 200 gives [True] or the unexpected-response
    [AttributeError], nothing else.  Always one request, and never a
    write to the key or the lists. *)
Theorem get_stats_outcomes :
  forall (ext : externals) (self : AccountInfo.obj) (u : UserKey.obj) (t0 : trace)
         (r : response),
    AccountInfo.user_key self = Some u ->
    server ext t0 (AccountInfo.stats_request ext (UserKey.key u)) = Return r ->
    let t1 := t0 ++ [AccountInfo.stats_request ext (UserKey.key u)] in
    (status_code r = 403%Z ->
     AccountInfo.get_stats ext self t0
     = (Raise (ValueError stats_inactive_message), self, t1)) /\
    (status_code r <> 200%Z -> status_code r <> 403%Z ->
     AccountInfo.get_stats ext self t0
     = (Raise (RuntimeError stats_error_message), self, t1)) /\
    (status_code r = 200%Z ->
     exists o self',
       AccountInfo.get_stats ext self t0 = (o, self', t1) /\
       same_holdings self self' /\
       (o = Return true \/ o = Raise (AttributeError stats_response_message))).
Proof.
  intros ext self u t0 r Hu Hsrv t1.
  destruct (AccountInfo.get_stats ext self t0) as [[o self'] t'] eqn:Hget.
  destruct (get_stats_inv ext self self' u t0 t' r o Hu Hsrv Hget) as (-> & Hsame & Hout).
  fold t1. split; [| split].
  - intro Hst. rewrite Hst in Hout. cbn in Hout. now destruct Hout as [-> ->].
  - intros H200 H403.
    rewrite (eqb_status_neq _ _ H200), (eqb_status_neq _ _ H403) in Hout.
    now destruct Hout as [-> ->].
  - intro Hst. rewrite Hst in Hout. cbn in Hout.
    exists o, self'. split; [reflexivity |]. split; [exact Hsame |].
    destruct Hout as [-> | [-> _]]; [now right | now left].
Qed.

Lemma get_stats_outcomes_witness :
  AccountInfo.get_stats (Demo.world (Sample.status 403)) Demo.keyed []
  = (Raise (ValueError stats_inactive_message), Demo.keyed,
     [AccountInfo.stats_request (Demo.world (Sample.status 403)) (Some Sample.DUMMY_KEY)]).
Proof.
  apply (proj1 (get_stats_outcomes (Demo.world (Sample.status 403)) Demo.keyed
                  Demo.credential [] (Sample.status 403) eq_refl eq_refl)).
  reflexivity.
Defined.

(** [get_stats] assigns while it reads and does not roll back: when the
    document gives the account name but has no [type] under [data], the
    call raises the unexpected-response [AttributeError] and the account
    view is left with the new name and nothing else changed. *)
Theorem get_stats_keeps_partial_assignments :
  forall (ext : externals) (self : AccountInfo.obj) (u : UserKey.obj) (t0 : trace)
         (r : response) (resp_obj name : value) (e : exn),
    AccountInfo.user_key self = Some u ->
    server ext t0 (AccountInfo.stats_request ext (UserKey.key u)) = Return r ->
    status_code r = 200%Z ->
    json_loads ext (PyStr (text r)) = Return resp_obj ->
    path resp_obj ["data"; "attributes"; "name"] = Return name ->
    path resp_obj ["data"; "type"] = Raise e ->
    AccountInfo.get_stats ext self t0
    = (Raise (AttributeError stats_response_message),
       AccountInfo.set_account_name name self,
       t0 ++ [AccountInfo.stats_request ext (UserKey.key u)]).
Proof.
  intros ext self u t0 r resp_obj name e Hu Hsrv Hst Hloads Hname Htype.
  unfold AccountInfo.get_stats, AccountInfo.assign. run_account.
  rewrite Hu, Hsrv, Hst, Hloads. cbn [Z.eqb Pos.eqb].
  rewrite Hname, Htype. reflexivity.
Qed.

Lemma get_stats_keeps_partial_assignments_witness :
  AccountInfo.get_stats (Demo.world Demo.partial_response) Demo.keyed []
  = (Raise (AttributeError stats_response_message),
     AccountInfo.set_account_name (PyStr "Company Corp") Demo.keyed,
     [AccountInfo.stats_request (Demo.world Demo.partial_response)
        (Some Sample.DUMMY_KEY)]).
Proof.
  apply (get_stats_keeps_partial_assignments (Demo.world Demo.partial_response)
           Demo.keyed Demo.credential [] Demo.partial_response Demo.partial_document
           (PyStr "Company Corp") (KeyError "type"));
    reflexivity.
Defined.

(** ** The two lists: answers and errors *)

Lemma get_extractions_frame (ext : externals) (updates : bool)
    (self self' : AccountInfo.obj) (u : UserKey.obj) (t0 t' : trace)
    (o : outcome SnapshotExtractionList) :
  AccountInfo.user_key self = Some u ->
  AccountInfo.get_extractions ext updates self t0 = (o, self', t') ->
  t' = t0 ++ [AccountInfo.extractions_request ext (UserKey.key u)] /\
  stored_or_untouched (fun l => AccountInfo.set_extractions (Some l)) o self self'.
Proof.
  intro Hu. run_account. rewrite Hu.
  destruct (server ext t0 _) as [r |]; [| now intros [= <- <- <-]].
  destruct (status_code r =? 200)%Z; cbn [negb].
  2:{ destruct (status_code r =? 403)%Z; now intros [= <- <- <-]. }
  destruct (json r); [| now intros [= <- <- <-]].
  destruct (getitem _ "data") as [data |]; [| now intros [= <- <- <-]].
  destruct (AccountInfo.is_empty_list data); [now intros [= <- <- <-] |].
  destruct (AccountInfo.extraction_frame ext updates data); now intros [= <- <- <-].
Qed.

(** The answers of the extraction endpoint and what [get_extractions]
    makes of them: 403 is the inactive-key [ValueError] and any other
    status than 200 a [RuntimeError] whose message ends with the body of
    the answer.  The call sends one request; the list it returns is the
    one it stores, and when it raises the list stored before stays. *)
Theorem get_extractions_outcomes :
  forall (ext : externals) (updates : bool) (self : AccountInfo.obj) (u : UserKey.obj)
         (t0 : trace) (r : response),
    AccountInfo.user_key self = Some u ->
    server ext t0 (AccountInfo.extractions_request ext (UserKey.key u)) = Return r ->
    let t1 := t0 ++ [AccountInfo.extractions_request ext (UserKey.key u)] in
    (status_code r = 403%Z ->
     AccountInfo.get_extractions ext updates self t0
     = (Raise (ValueError list_inactive_message), self, t1)) /\
    (status_code r <> 200%Z -> status_code r <> 403%Z ->
     AccountInfo.get_extractions ext updates self t0
     = (Raise (RuntimeError ("Unexpected API Error with message: " ++ text r)), self, t1)) /\
    (forall o self' t',
        AccountInfo.get_extractions ext updates self t0 = (o, self', t') ->
        t' = t1 /\
        stored_or_untouched (fun l => AccountInfo.set_extractions (Some l)) o self self').
Proof.
  intros ext updates self u t0 r Hu Hsrv t1. split; [| split].
  - intro Hst. run_account. rewrite Hu, Hsrv, Hst. reflexivity.
  - intros H200 H403. run_account.
    rewrite Hu, Hsrv, (eqb_status_neq _ _ H200), (eqb_status_neq _ _ H403). reflexivity.
  - intros o self' t' Hget. now apply get_extractions_frame with (updates := updates).
Qed.

Lemma get_extractions_outcomes_witness :
  AccountInfo.get_extractions (Sample.world Sample.inactive) false Sample.account_view []
  = (Raise (ValueError list_inactive_message), Sample.account_view,
     [AccountInfo.extractions_request (Sample.world Sample.inactive)
        (Some Sample.DUMMY_KEY)]).
Proof.
  apply (proj1 (get_extractions_outcomes (Sample.world Sample.inactive) false
                  Sample.account_view
                  (UserKey.set_key (Some Sample.DUMMY_KEY) UserKey.fresh) []
                  (Sample.status 403) eq_refl eq_refl)).
  reflexivity.
Defined.

Lemma get_streams_frame (ext : externals) (running : bool)
    (self self' : AccountInfo.obj) (u : UserKey.obj) (t0 t' : trace)
    (o : outcome pd.DataFrame) :
  AccountInfo.user_key self = Some u ->
  AccountInfo.get_streams ext running self t0 = (o, self', t') ->
  t' = t0 ++ [AccountInfo.streams_request ext (UserKey.key u)] /\
  stored_or_untouched
    (fun df => AccountInfo.set_streams (Some {| stream_items := df |})) o self self'.
Proof.
  intro Hu. run_account. rewrite Hu.
  destruct (server ext t0 _) as [r |]; [| now intros [= <- <- <-]].
  destruct (status_code r =? 200)%Z.
  - destruct (AccountInfo.stream_frame ext running r); now intros [= <- <- <-].
  - destruct (status_code r =? 404)%Z; [now intros [= <- <- <-] |].
    destruct (status_code r =? 403)%Z; now intros [= <- <- <-].
Qed.

(** The answers of the streams endpoint and what [get_streams] makes of
    them: 403 is the inactive-key [ValueError]; any status other than 200,
    404 and 403 is the [RuntimeError]; a 200 gives a frame or the
    unexpected-response [AttributeError], whatever went wrong while the
    frame was built.  The call sends one request; the frame it returns is
    the one it stores, and when it raises the list stored before stays. *)
Theorem get_streams_outcomes :
  forall (ext : externals) (running : bool) (self : AccountInfo.obj) (u : UserKey.obj)
         (t0 : trace) (r : response),
    AccountInfo.user_key self = Some u ->
    server ext t0 (AccountInfo.streams_request ext (UserKey.key u)) = Return r ->
    let t1 := t0 ++ [AccountInfo.streams_request ext (UserKey.key u)] in
    (status_code r = 403%Z ->
     AccountInfo.get_streams ext running self t0
     = (Raise (ValueError list_inactive_message), self, t1)) /\
    (status_code r <> 200%Z -> status_code r <> 404%Z -> status_code r <> 403%Z ->
     AccountInfo.get_streams ext running self t0
     = (Raise (RuntimeError streams_error_message), self, t1)) /\
    (forall o self' t',
        AccountInfo.get_streams ext running self t0 = (o, self', t') ->
        t' = t1 /\
        stored_or_untouched
          (fun df => AccountInfo.set_streams (Some {| stream_items := df |})) o self self' /\
        (status_code r = 200%Z ->
         (exists df, o = Return df) \/ o = Raise (AttributeError streams_response_message))).
Proof.
  intros ext running self u t0 r Hu Hsrv t1. split; [| split].
  - intro Hst. run_account. rewrite Hu, Hsrv, Hst. reflexivity.
  - intros H200 H404 H403. run_account.
    rewrite Hu, Hsrv, (eqb_status_neq _ _ H200), (eqb_status_neq _ _ H404),
      (eqb_status_neq _ _ H403). reflexivity.
  - intros o self' t' Hget.
    destruct (get_streams_frame ext running self self' u t0 t' o Hu Hget) as [Ht Hs].
    split; [exact Ht |]. split; [exact Hs |].
    intro Hst. run_account. rewrite Hu, Hsrv, Hst in Hget. cbn [Z.eqb Pos.eqb] in Hget.
    destruct (AccountInfo.stream_frame ext running r) as [df |];
      injection Hget as <- _ _; [left; now exists df | now right].
Qed.

Lemma get_streams_outcomes_witness :
  AccountInfo.get_streams (Sample.world Sample.inactive) true Sample.account_view []
  = (Raise (ValueError list_inactive_message), Sample.account_view,
     [AccountInfo.streams_request (Sample.world Sample.inactive) (Some Sample.DUMMY_KEY)]).
Proof.
  apply (proj1 (get_streams_outcomes (Sample.world Sample.inactive) true
                  Sample.account_view
                  (UserKey.set_key (Some Sample.DUMMY_KEY) UserKey.fresh) []
                  (Sample.status 403) eq_refl eq_refl)).
  reflexivity.
Defined.

(** ** The two lists: entries *)

Lemma lookup_dropped (c : string) (labels : list string) (r : pd.row) :
  pd.mem c labels = true ->
  lookup c (filter (fun cv => negb (pd.mem (fst cv) labels)) r) = None.
Proof.
  intro Hc.
  induction r as [| [k x] r IH]; cbn [filter fst]; [reflexivity |].
  destruct (pd.mem k labels) eqn:Hk; cbn [negb lookup]; [exact IH |].
  destruct (String.eqb_spec c k) as [-> | _]; [congruence | exact IH].
Qed.

Lemma is_str_true (s : string) (v : value) :
  AccountInfo.is_str s v = true <-> v = PyStr s.
Proof.
  destruct v; cbn; try (split; [discriminate | discriminate]).
  rewrite String.eqb_eq. split; [now intros -> | now intros [= ->]].
Qed.

Lemma flattened_records_unique (ext : externals) (body : value)
    (records records' : list dict) :
  flattened_records ext body records -> flattened_records ext body records' ->
  records = records'.
Proof.
  intros (data & items & Hd & Hi & Hf) (data' & items' & Hd' & Hi' & Hf').
  congruence.
Qed.

(** Where an entry of the extraction list comes from: a row of the
    renamed frame, in a frame of split ids at least as wide as the id of
    that row. *)
Lemma extraction_entry_origin (ext : externals) (updates : bool)
    (self self' : AccountInfo.obj) (t0 t' : trace) (l : SnapshotExtractionList)
    (row : pd.row) :
  AccountInfo.get_extractions ext updates self t0 = (Return l, self', t') ->
  In row (pd.rows (extraction_items l)) ->
  exists w r0,
    row = extraction_row w r0 /\
    (forall id, pd.cell "object_id" r0 = PyStr id -> length (split hyphen id) <= w).
Proof.
  intros Hget Hin.
  apply get_extractions_inv in Hget.
  destruct Hget as (k & r & body & data & _ & _ & _ & _ & _ & Hframe).
  destruct (AccountInfo.is_empty_list data).
  { rewrite Hframe in Hin. destruct Hin. }
  apply extraction_frame_rows in Hframe.
  destruct Hframe as (items & records & _ & _ & Hrows). cbv zeta in Hrows.
  destruct Hrows as [_ Hrows].
  set (rows0 := pd.rows (pd.rename "id" "object_id" (pd.of_records records))) in *.
  set (w := pd.shape1 (map pd.split_cell (map (pd.cell "object_id") rows0))) in *.
  assert (Hrow : exists r0, In r0 rows0 /\ row = extraction_row w r0).
  { rewrite Hrows in Hin. destruct updates.
    - apply in_map_iff in Hin. destruct Hin as (x & <- & Hx). eauto.
    - apply filter_In in Hin. destruct Hin as [Hin _].
      apply in_map_iff in Hin. destruct Hin as (x & <- & Hx). eauto. }
  destruct Hrow as (r0 & Hr0 & ->).
  exists w, r0. split; [reflexivity |].
  intros id Hid.
  apply (shape1_ge (Some (split hyphen id))).
  apply in_map_iff. exists (PyStr id). split; [reflexivity |].
  apply in_map_iff. exists r0. now split.
Qed.

(** Every entry of the list [get_extractions] returns, whatever the
    number of segments of its [object_id]: [short_id] is the segment at
    index 4 and [update_id] the segment at index 6, each [None] when the
    id is too short to have it; and the entry has no [self] and no [type]
    field. *)
Theorem extraction_entry_rule :
  forall (ext : externals) (updates : bool) (self self' : AccountInfo.obj)
         (t0 t' : trace) (l : SnapshotExtractionList) (row : pd.row) (id : string),
    AccountInfo.get_extractions ext updates self t0 = (Return l, self', t') ->
    In row (pd.rows (extraction_items l)) ->
    pd.cell "object_id" row = PyStr id ->
    pd.cell "short_id" row = segment_cell id 4 /\
    pd.cell "update_id" row = segment_cell id 6 /\
    lookup "self" row = None /\
    lookup "type" row = None.
Proof.
  intros ext updates self self' t0 t' l row id Hget Hin Hid.
  destruct (extraction_entry_origin _ _ _ _ _ _ _ _ Hget Hin) as (w & r0 & -> & Hw).
  destruct (extraction_row_cells w r0) as (Hoid & Hshort & Hupd). cbv zeta in *.
  rewrite Hoid in Hid. specialize (Hw id Hid).
  rewrite Hid in Hshort, Hupd. cbn [pd.split_cell pd.expand_cell] in Hshort, Hupd.
  unfold segment_cell, segment.
  split; [| split; [| split]].
  - rewrite Hshort. destruct (Nat.leb_spec 5 w); [reflexivity |].
    now rewrite (proj2 (nth_error_None (split hyphen id) 4)) by lia.
  - rewrite Hupd. destruct (Nat.leb_spec 7 w); [reflexivity |].
    now rewrite (proj2 (nth_error_None (split hyphen id) 6)) by lia.
  - unfold extraction_row. now apply lookup_dropped.
  - unfold extraction_row. now apply lookup_dropped.
Qed.

Lemma extraction_entry_rule_witness :
  pd.cell "short_id" Sample.original_entry = segment_cell Sample.original_id 4 /\
  pd.cell "update_id" Sample.original_entry = segment_cell Sample.original_id 6 /\
  lookup "self" Sample.original_entry = None /\
  lookup "type" Sample.original_entry = None.
Proof.
  apply (extraction_entry_rule (Sample.world Sample.listing) false Sample.account_view
           (AccountInfo.set_extractions (Some (Sample.listed_extractions false))
              Sample.account_view)
           [] [AccountInfo.extractions_request (Sample.world Sample.listing)
                 (Some Sample.DUMMY_KEY)]
           (Sample.listed_extractions false) Sample.original_entry Sample.original_id).
  - reflexivity.
  - left. reflexivity.
  - reflexivity.
Defined.

(** Without [updates] the list is the list with [updates] restricted to
    the entries whose [update_id] is null, in the same order; so no entry
    of it carries an [update_id]. *)
Theorem updates_are_filtered_out :
  forall (ext : externals) (self s0 s1 : AccountInfo.obj) (t0 t0' t1' : trace)
         (originals everything : SnapshotExtractionList),
    AccountInfo.get_extractions ext false self t0 = (Return originals, s0, t0') ->
    AccountInfo.get_extractions ext true self t0 = (Return everything, s1, t1') ->
    pd.rows (extraction_items originals)
    = filter (fun row => pd.isnull (pd.cell "update_id" row))
        (pd.rows (extraction_items everything)) /\
    (forall row, In row (pd.rows (extraction_items originals)) ->
                 pd.isnull (pd.cell "update_id" row) = true).
Proof.
  intros ext self s0 s1 t0 t0' t1' originals everything H0 H1.
  assert (Hrows : pd.rows (extraction_items originals)
                  = filter (fun row => pd.isnull (pd.cell "update_id" row))
                      (pd.rows (extraction_items everything))).
  { apply get_extractions_inv in H0. apply get_extractions_inv in H1.
    destruct H0 as (k & r & body & data & Hk & Hsrv & _ & Hjson & Hdata & Hframe0).
    destruct H1 as (k' & r' & body' & data' & Hk' & Hsrv' & _ & Hjson' & Hdata' & Hframe1).
    rewrite (holds_key_unique self k' k Hk' Hk) in Hsrv'.
    assert (r' = r) by congruence. subst r'.
    assert (body' = body) by congruence. subst body'.
    assert (data' = data) by congruence. subst data'.
    destruct (AccountInfo.is_empty_list data).
    { rewrite Hframe0, Hframe1. reflexivity. }
    apply extraction_frame_rows in Hframe0. apply extraction_frame_rows in Hframe1.
    destruct Hframe0 as (items & records & Hi & Hf & _ & Hrows0).
    destruct Hframe1 as (items' & records' & Hi' & Hf' & _ & Hrows1).
    assert (items' = items) by congruence. subst items'.
    assert (records' = records) by congruence. subst records'.
    now rewrite Hrows0, Hrows1. }
  split; [exact Hrows |].
  intros row Hin. rewrite Hrows in Hin. now apply filter_In in Hin.
Qed.

Lemma updates_are_filtered_out_witness :
  pd.rows (extraction_items (Sample.listed_extractions false))
  = filter (fun row => pd.isnull (pd.cell "update_id" row))
      (pd.rows (extraction_items (Sample.listed_extractions true))).
Proof.
  apply (updates_are_filtered_out (Sample.world Sample.listing) Sample.account_view
           (AccountInfo.set_extractions (Some (Sample.listed_extractions false))
              Sample.account_view)
           (AccountInfo.set_extractions (Some (Sample.listed_extractions true))
              Sample.account_view)
           [] [AccountInfo.extractions_request (Sample.world Sample.listing)
                 (Some Sample.DUMMY_KEY)]
           [AccountInfo.extractions_request (Sample.world Sample.listing)
              (Some Sample.DUMMY_KEY)]
           (Sample.listed_extractions false) (Sample.listed_extractions true));
    reflexivity.
Defined.

Lemma stream_row_id_cells (r : pd.row) :
  let ids := pd.split_cell (pd.cell "stream_id" r) in
  pd.cell "stream_id" (stream_row r) = pd.cell "stream_id" r /\
  pd.cell "job_status" (stream_row r) = pd.cell "job_status" r /\
  pd.cell "short_id" (stream_row r) = pd.expand_cell 4 ids /\
  pd.cell "stream_type" (stream_row r) = pd.expand_cell 2 ids.
Proof.
  unfold stream_row. cbv zeta.
  repeat split; rewrite cell_drop by reflexivity; rewrite !cell_row_set; reflexivity.
Qed.

Lemma stream_entry_origin (ext : externals) (running : bool)
    (self self' : AccountInfo.obj) (t0 t' : trace) (df : pd.DataFrame) (row : pd.row) :
  AccountInfo.get_streams ext running self t0 = (Return df, self', t') ->
  In row (pd.rows df) ->
  exists r0, row = stream_row r0.
Proof.
  intros Hget Hin.
  apply get_streams_inv in Hget.
  destruct Hget as (k & r & _ & _ & [[_ Hframe] | [_ ->]]); [| destruct Hin].
  apply stream_frame_rows in Hframe.
  destruct Hframe as (body & records & _ & _ & _ & Hrows).
  rewrite Hrows in Hin.
  assert (Hin' : In row (map stream_row
                           (pd.rows (pd.rename "id" "stream_id" (pd.of_records records)))))
    by (destruct running; [now apply filter_In in Hin | exact Hin]).
  apply in_map_iff in Hin'. destruct Hin' as (r0 & <- & _). now exists r0.
Qed.

(** Every entry of the frame [get_streams] returns: [short_id] is the
    segment of [stream_id] at index 4 and [stream_type] the segment at
    index 2, each [None] when the id is too short to have it; and the
    entry has no [self], no [type] and no [data] field. *)
Theorem stream_entry_rule :
  forall (ext : externals) (running : bool) (self self' : AccountInfo.obj)
         (t0 t' : trace) (df : pd.DataFrame) (row : pd.row) (id : string),
    AccountInfo.get_streams ext running self t0 = (Return df, self', t') ->
    In row (pd.rows df) ->
    pd.cell "stream_id" row = PyStr id ->
    pd.cell "short_id" row = segment_cell id 4 /\
    pd.cell "stream_type" row = segment_cell id 2 /\
    lookup "self" row = None /\
    lookup "type" row = None /\
    lookup "data" row = None.
Proof.
  intros ext running self self' t0 t' df row id Hget Hin Hid.
  destruct (stream_entry_origin _ _ _ _ _ _ _ _ Hget Hin) as (r0 & ->).
  destruct (stream_row_id_cells r0) as (Hsid & _ & Hshort & Htype). cbv zeta in *.
  rewrite Hsid in Hid. rewrite Hid in Hshort, Htype.
  split; [exact Hshort |]. split; [exact Htype |].
  unfold stream_row. cbv zeta. repeat split; now apply lookup_dropped.
Qed.

Lemma stream_entry_rule_witness :
  pd.cell "short_id" Sample.stream_entry = segment_cell "dj-synhub-stream-abcd1234-s1" 4 /\
  pd.cell "stream_type" Sample.stream_entry
  = segment_cell "dj-synhub-stream-abcd1234-s1" 2 /\
  lookup "self" Sample.stream_entry = None /\
  lookup "type" Sample.stream_entry = None /\
  lookup "data" Sample.stream_entry = None.
Proof.
  apply (stream_entry_rule (Sample.world Sample.listing) false Sample.account_view
           (AccountInfo.set_streams (Some {| stream_items := Sample.listed_streams |})
              Sample.account_view)
           [] [AccountInfo.streams_request (Sample.world Sample.listing)
                 (Some Sample.DUMMY_KEY)]
           Sample.listed_streams Sample.stream_entry "dj-synhub-stream-abcd1234-s1").
  - reflexivity.
  - left. reflexivity.
  - reflexivity.
Defined.

(** With [running] the frame is the frame without it restricted to the
    entries whose [job_status] is the running state, in the same order;
    so every entry of it has that status. *)
Theorem only_running_streams :
  forall (ext : externals) (self s0 s1 : AccountInfo.obj) (t0 t0' t1' : trace)
         (active everything : pd.DataFrame),
    AccountInfo.get_streams ext true self t0 = (Return active, s0, t0') ->
    AccountInfo.get_streams ext false self t0 = (Return everything, s1, t1') ->
    pd.rows active
    = filter (fun row => AccountInfo.is_str (API_JOB_RUNNING_STATE ext)
                           (pd.cell "job_status" row))
        (pd.rows everything) /\
    (forall row, In row (pd.rows active) ->
                 pd.cell "job_status" row = PyStr (API_JOB_RUNNING_STATE ext)).
Proof.
  intros ext self s0 s1 t0 t0' t1' active everything H1 H0.
  assert (Hrows : pd.rows active
                  = filter (fun row => AccountInfo.is_str (API_JOB_RUNNING_STATE ext)
                                         (pd.cell "job_status" row))
                      (pd.rows everything)).
  { apply get_streams_inv in H0. apply get_streams_inv in H1.
    destruct H0 as (k & r & Hk & Hsrv & Hcase0).
    destruct H1 as (k' & r' & Hk' & Hsrv' & Hcase1).
    rewrite (holds_key_unique self k' k Hk' Hk) in Hsrv'.
    assert (r' = r) by congruence. subst r'.
    destruct Hcase0 as [[Hst Hframe0] | [Hst ->]];
      destruct Hcase1 as [[Hst' Hframe1] | [Hst' ->]]; try lia; [| reflexivity].
    apply stream_frame_rows in Hframe0. apply stream_frame_rows in Hframe1.
    destruct Hframe0 as (body & records & Hjson & Hrec & _ & Hrows0).
    destruct Hframe1 as (body' & records' & Hjson' & Hrec' & _ & Hrows1).
    assert (body' = body) by congruence. subst body'.
    rewrite (flattened_records_unique ext body records' records Hrec' Hrec) in Hrows1.
    now rewrite Hrows0, Hrows1. }
  split; [exact Hrows |].
  intros row Hin. rewrite Hrows in Hin. apply filter_In in Hin.
  now apply is_str_true.
Qed.

Lemma only_running_streams_witness :
  pd.rows Sample.listed_streams
  = filter (fun row => AccountInfo.is_str "JOB_STATE_RUNNING" (pd.cell "job_status" row))
      (pd.rows Sample.listed_streams).
Proof.
  apply (only_running_streams (Sample.world Sample.listing) Sample.account_view
           (AccountInfo.set_streams (Some {| stream_items := Sample.listed_streams |})
              Sample.account_view)
           (AccountInfo.set_streams (Some {| stream_items := Sample.listed_streams |})
              Sample.account_view)
           [] [AccountInfo.streams_request (Sample.world Sample.listing)
                 (Some Sample.DUMMY_KEY)]
           [AccountInfo.streams_request (Sample.world Sample.listing)
              (Some Sample.DUMMY_KEY)]
           Sample.listed_streams Sample.listed_streams);
    reflexivity.
Defined.

Lemma shape1_reached (n : nat) (cells : list (option (list string))) :
  2 <= n -> n <= pd.shape1 cells ->
  exists l, In (Some l) cells /\ n <= length l.
Proof.
  intro Hn. induction cells as [| c cells IH]; cbn [pd.shape1 fold_right]; [lia |].
  intro Hle. fold (pd.shape1 cells) in Hle.
  destruct (Nat.le_gt_cases n (pd.width_of c)) as [Hc | Hc].
  - destruct c as [l |]; cbn [pd.width_of] in Hc; [| lia].
    exists l. split; [now left | exact Hc].
  - destruct IH as (l & Hin & Hl); [lia |]. exists l. split; [now right | exact Hl].
Qed.

(** A frame of streams has split ids at least five columns wide. *)
Lemma stream_frame_wide (ext : externals) (running : bool) (r : response)
    (df : pd.DataFrame) :
  AccountInfo.stream_frame ext running r = Return df ->
  exists body records,
    json r = Some body /\
    flattened_records ext body records /\
    5 <= pd.shape1
           (map pd.split_cell
              (map (pd.cell "stream_id")
                 (pd.rows (pd.rename "id" "stream_id" (pd.of_records records))))).
Proof.
  unfold AccountInfo.stream_frame, response_json.
  destruct (json r) as [body |] eqn:Hjson; [| discriminate].
  destruct (getitem body "data") as [data |] eqn:Hdata; [| discriminate].
  destruct (py_iter data) as [items |] eqn:Hiter; [| discriminate].
  destruct (AccountInfo.flatten_all ext items) as [records |] eqn:Hflat; [| discriminate].
  destruct (pd.series _ "stream_id") as [stream_ids |] eqn:Hseries; [| discriminate].
  apply series_inv in Hseries. destruct Hseries as [_ ->].
  destruct (pd.str_accessor _) as [stream_ids |] eqn:Hstr; [| discriminate].
  apply str_accessor_inv in Hstr. subst stream_ids.
  unfold pd.expanded at 1.
  destruct (Nat.ltb_spec 4 (pd.shape1 (map pd.split_cell
              (map (pd.cell "stream_id")
                 (pd.rows (pd.rename "id" "stream_id" (pd.of_records records)))))))
    as [Hw | Hw]; [| discriminate].
  intros _. exists body, records. split; [reflexivity |].
  split; [exists data, items; repeat split; assumption | exact Hw].
Qed.

(** A 200 answer never gives an empty frame when all streams are asked
    for: the frame [get_streams] returns has an entry whose [stream_id]
    has at least five segments. *)
Theorem listed_streams_are_never_empty :
  forall (ext : externals) (self self' : AccountInfo.obj) (t0 t' : trace)
         (df : pd.DataFrame) (k : option string) (r : response),
    AccountInfo.get_streams ext false self t0 = (Return df, self', t') ->
    holds_key self k ->
    server ext t0 (AccountInfo.streams_request ext k) = Return r ->
    status_code r = 200%Z ->
    exists row id,
      In row (pd.rows df) /\
      pd.cell "stream_id" row = PyStr id /\
      5 <= length (split hyphen id).
Proof.
  intros ext self self' t0 t' df k r Hget Hk Hsrv Hst.
  apply get_streams_inv in Hget.
  destruct Hget as (k' & r' & Hk' & Hsrv' & Hcase).
  rewrite (holds_key_unique self k' k Hk' Hk) in Hsrv'.
  assert (r' = r) by congruence. subst r'.
  destruct Hcase as [[_ Hframe] | [Hst' _]]; [| lia].
  destruct (stream_frame_wide _ _ _ _ Hframe) as (body & records & Hjson & Hrec & Hw).
  apply stream_frame_rows in Hframe.
  destruct Hframe as (body' & records' & Hjson' & Hrec' & _ & Hrows).
  assert (body' = body) by congruence. subst body'.
  rewrite (flattened_records_unique ext body records' records Hrec' Hrec) in Hrows.
  cbv zeta in Hrows.
  set (rows0 := pd.rows (pd.rename "id" "stream_id" (pd.of_records records))) in *.
  destruct (shape1_reached 5 _ ltac:(lia) Hw) as (l & Hin & Hl).
  apply in_map_iff in Hin. destruct Hin as (v & Hv & Hin).
  apply in_map_iff in Hin. destruct Hin as (r0 & <- & Hr0).
  destruct (pd.cell "stream_id" r0) as [| | | | id | |] eqn:Hid; try discriminate Hv.
  cbn [pd.split_cell] in Hv. injection Hv as <-.
  exists (stream_row r0), id. split; [| split; [| exact Hl]].
  - rewrite Hrows. apply in_map_iff. exists r0. now split.
  - destruct (stream_row_id_cells r0) as (Hsid & _). cbv zeta in Hsid. now rewrite Hsid.
Qed.

Lemma listed_streams_are_never_empty_witness :
  exists row id,
    In row (pd.rows Sample.listed_streams) /\
    pd.cell "stream_id" row = PyStr id /\
    5 <= length (split hyphen id).
Proof.
  apply (listed_streams_are_never_empty (Sample.world Sample.listing)
           Sample.account_view
           (AccountInfo.set_streams (Some {| stream_items := Sample.listed_streams |})
              Sample.account_view)
           [] [AccountInfo.streams_request (Sample.world Sample.listing)
                 (Some Sample.DUMMY_KEY)]
           Sample.listed_streams (Some Sample.DUMMY_KEY)
           (Sample.stream_list Sample.listing)).
  - reflexivity.
  - eexists. split; reflexivity.
  - reflexivity.
  - reflexivity.
Defined.

(** ** Subscription ids *)

Lemma split_not_nil (sep : ascii) (s : string) : split sep s <> [].
Proof.
  destruct s as [| c s]; cbn [split]; [discriminate |].
  destruct (Ascii.eqb c sep); [discriminate |].
  destruct (split sep s); discriminate.
Qed.

(** Joining the segments with the separator gives the string back. *)
Lemma concat_split (s : string) : String.concat "-" (split hyphen s) = s.
Proof.
  induction s as [| c s IH]; cbn [split]; [reflexivity |].
  pose proof (split_not_nil hyphen s) as Hne.
  destruct (Ascii.eqb_spec c hyphen) as [-> | Hc].
  - destruct (split hyphen s) as [| w ws] eqn:E; [contradiction |].
    change (String.concat "-" ("" :: w :: ws))
      with ("" ++ "-" ++ String.concat "-" (w :: ws))%string.
    now rewrite IH.
  - destruct (split hyphen s) as [| w ws] eqn:E; [contradiction |].
    destruct ws as [| w' ws].
    + cbn in IH. cbn. now rewrite IH.
    + change (String.concat "-" (String c w :: w' :: ws))
        with (String c (w ++ "-" ++ String.concat "-" (w' :: ws))%string).
      change (String.concat "-" (w :: w' :: ws))
        with (w ++ "-" ++ String.concat "-" (w' :: ws))%string in IH.
      now rewrite IH.
Qed.

Lemma subscription_id_short (item : value) (id : string) :
  getitem item "id" = Return (PyStr id) ->
  3 <= length (split hyphen id) ->
  AccountInfo.subscription_id item = Return (PyStr (last_three id)).
Proof.
  intros Hid Hlen. unfold AccountInfo.subscription_id, neg_index, last_three.
  rewrite Hid.
  destruct (last_three_segments _ Hlen) as (a & b & c & Hskip & Ha & Hb & Hc).
  rewrite Ha, Hb, Hc, Hskip.
  destruct (Nat.ltb_spec (length (split hyphen id)) 3); [lia |].
  destruct (Nat.ltb_spec (length (split hyphen id)) 2); [lia |].
  destruct (Nat.ltb_spec (length (split hyphen id)) 1); [lia |].
  reflexivity.
Qed.

Lemma subscription_id_too_short (item : value) (id : string) :
  getitem item "id" = Return (PyStr id) ->
  length (split hyphen id) < 3 ->
  AccountInfo.subscription_id item = Raise IndexError.
Proof.
  intros Hid Hlen. unfold AccountInfo.subscription_id, neg_index. rewrite Hid.
  destruct (Nat.ltb_spec (length (split hyphen id)) 3); [| lia].
  reflexivity.
Qed.

(** [extract_subscriptions] on a list of subscription records whose ids
    all have at least three segments gives, in the same order, one short
    id per record: the last three segments joined by hyphens.  An id of
    exactly three segments is its own short id. *)
Theorem extract_subscriptions_short_ids :
  forall (items : list value) (ids : list string),
    Forall2 (fun item id => getitem item "id" = Return (PyStr id) /\
                            3 <= length (split hyphen id)) items ids ->
    AccountInfo.extract_subscriptions (PyList items)
    = Return (PyList (map (fun id => PyStr (last_three id)) ids)) /\
    (forall id, In id ids -> length (split hyphen id) = 3 -> last_three id = id).
Proof.
  intros items ids Hall. split.
  - unfold AccountInfo.extract_subscriptions. cbn [py_iter].
    assert (Happ : pd.apply AccountInfo.subscription_id items
                   = Return (map (fun id => PyStr (last_three id)) ids)).
    { induction Hall as [| item id items ids [Hid Hlen] _ IH]; [reflexivity |].
      cbn [pd.apply map]. now rewrite (subscription_id_short item id Hid Hlen), IH. }
    now rewrite Happ.
  - intros id _ Hlen. unfold last_three. rewrite Hlen. cbn [Nat.sub skipn].
    apply concat_split.
Qed.

Lemma extract_subscriptions_short_ids_witness :
  AccountInfo.extract_subscriptions
    (PyList [Sample.subscription "x-y-p1-p2-p3"; Sample.subscription "p1-p2-p3"])
  = Return (PyList [PyStr "p1-p2-p3"; PyStr "p1-p2-p3"]).
Proof.
  apply (proj1 (extract_subscriptions_short_ids
                  [Sample.subscription "x-y-p1-p2-p3"; Sample.subscription "p1-p2-p3"]
                  ["x-y-p1-p2-p3"; "p1-p2-p3"]
                  ltac:(repeat constructor; cbn; lia))).
Defined.

Lemma apply_raises (f : value -> outcome value) (vals : list value) (v : value) (e : exn) :
  In v vals -> f v = Raise e -> exists e', pd.apply f vals = Raise e'.
Proof.
  induction vals as [| v0 vals IH]; cbn [In pd.apply]; [tauto |].
  intros [-> | Hin] Hf.
  - rewrite Hf. eauto.
  - destruct (f v0); [| eauto].
    destruct (IH Hin Hf) as (e' & ->). eauto.
Qed.

(** A label other than the two of the renaming keeps its cell. *)
Lemma renamed_row_keeps (old new c : string) (cols : list string) (d : dict) :
  In c cols -> c <> old -> c <> new ->
  lookup c (renamed_row old new cols d) = Some (pd.cell c d).
Proof.
  intros Hin Hold Hnew. unfold renamed_row.
  induction cols as [| c0 cols IH]; cbn [In map lookup fst snd] in *; [tauto |].
  unfold pd.relabel at 1. destruct (String.eqb_spec c0 old) as [-> | H0].
  - rewrite (proj2 (String.eqb_neq c new) Hnew).
    destruct Hin as [<- | Hin]; [congruence | now apply IH].
  - destruct (String.eqb_spec c c0) as [-> | Hc]; [reflexivity |].
    destruct Hin as [<- | Hin]; [congruence | now apply IH].
Qed.

Lemma get_streams_200 (ext : externals) (running : bool) (self : AccountInfo.obj)
    (k : option string) (t0 : trace) (r : response) :
  holds_key self k ->
  server ext t0 (AccountInfo.streams_request ext k) = Return r ->
  status_code r = 200%Z ->
  AccountInfo.get_streams ext running self t0
  = match AccountInfo.stream_frame ext running r with
    | Return df =>
        (Return df, AccountInfo.set_streams (Some {| stream_items := df |}) self,
         t0 ++ [AccountInfo.streams_request ext k])
    | Raise _ =>
        (Raise (AttributeError streams_response_message), self,
         t0 ++ [AccountInfo.streams_request ext k])
    end.
Proof.
  intros (u & Hu & <-) Hsrv Hst. run_account. rewrite Hu, Hsrv, Hst.
  cbn [Z.eqb Pos.eqb]. now destruct (AccountInfo.stream_frame ext running r).
Qed.

(** One subscription whose id has fewer than three segments spoils the
    whole list of streams: on a 200 answer that holds such a record,
    [get_streams] raises the unexpected-response [AttributeError] and
    stores nothing. *)
Theorem short_subscription_id_spoils_the_list :
  forall (ext : externals) (running : bool) (self : AccountInfo.obj)
         (k : option string) (t0 : trace) (r : response) (body : value)
         (records : list dict) (d : dict) (data item : value) (items : list value)
         (id : string),
    holds_key self k ->
    server ext t0 (AccountInfo.streams_request ext k) = Return r ->
    status_code r = 200%Z ->
    json r = Some body ->
    flattened_records ext body records ->
    In d records ->
    lookup "data" d = Some data ->
    py_iter data = Return items ->
    In item items ->
    getitem item "id" = Return (PyStr id) ->
    length (split hyphen id) < 3 ->
    AccountInfo.get_streams ext running self t0
    = (Raise (AttributeError streams_response_message), self,
       t0 ++ [AccountInfo.streams_request ext k]).
Proof.
  intros ext running self k t0 r body records d data item items id
         Hk Hsrv Hst Hjson Hrec Hd Hdata Hiter Hitem Hid Hlen.
  rewrite (get_streams_200 ext running self k t0 r Hk Hsrv Hst).
  destruct (AccountInfo.stream_frame ext running r) as [df |] eqn:Hframe; [| reflexivity].
  exfalso.
  apply stream_frame_rows in Hframe.
  destruct Hframe as (body' & records' & Hjson' & Hrec' & Hall & _).
  assert (body' = body) by congruence. subst body'.
  rewrite (flattened_records_unique ext body records' records Hrec' Hrec) in Hall.
  rewrite rename_rows in Hall.
  destruct (Hall (renamed_row "id" "stream_id" (pd.union_keys records) d)) as (y & Hy).
  { apply in_map_iff. exists d. now split. }
  assert (Hcell : pd.cell "data" (renamed_row "id" "stream_id" (pd.union_keys records) d)
                  = data).
  { unfold pd.cell at 1. rewrite renamed_row_keeps; try discriminate.
    - unfold pd.cell. now rewrite Hdata.
    - apply (union_keys_In "data" d records Hd). now apply lookup_Some_In with (v := data). }
  rewrite Hcell in Hy.
  unfold AccountInfo.extract_subscriptions in Hy. rewrite Hiter in Hy.
  destruct (apply_raises AccountInfo.subscription_id items item IndexError Hitem
              (subscription_id_too_short item id Hid Hlen)) as (e' & He').
  rewrite He' in Hy. discriminate Hy.
Qed.

Lemma short_subscription_id_spoils_the_list_witness :
  AccountInfo.get_streams (Sample.world Demo.spoiled) false Sample.account_view []
  = (Raise (AttributeError streams_response_message), Sample.account_view,
     [AccountInfo.streams_request (Sample.world Demo.spoiled) (Some Sample.DUMMY_KEY)]).
Proof.
  apply (short_subscription_id_spoils_the_list (Sample.world Demo.spoiled) false
           Sample.account_view (Some Sample.DUMMY_KEY) []
           (Sample.stream_list Demo.spoiled)
           (PyDict [("data", PyList [Demo.spoiled_stream])])
           [Sample.flatten Demo.spoiled_stream]
           (Sample.flatten Demo.spoiled_stream)
           (PyList [Sample.subscription "x-y-p1-p2-p3"; Sample.subscription "p1-p2"])
           (Sample.subscription "p1-p2")
           [Sample.subscription "x-y-p1-p2-p3"; Sample.subscription "p1-p2"]
           "p1-p2").
  - eexists. split; reflexivity.
  - reflexivity.
  - reflexivity.
  - reflexivity.
  - eexists. eexists. repeat split.
  - left. reflexivity.
  - reflexivity.
  - reflexivity.
  - right. left. reflexivity.
  - reflexivity.
  - cbn. lia.
Defined.

(** ** Building the account view *)

(** [UserKey(key)] read backwards: it returns only for an argument that
    resolves to a 32-character secret, after the taxonomy request and the
    token request, and the instance holds that secret. *)
Lemma new_key_inv (ext : externals) (a : UserKey.arg) (S : Type) (st st' : S)
    (t0 t' : trace) (u : UserKey.obj) :
  UserKey.new ext a st t0 = (Return u, st', t') ->
  exists s,
    resolves ext a s /\ String.length s = 32 /\ UserKey.key u = Some s /\
    st' = st /\
    t' = t0 ++ [UserKey.taxonomy_request ext (Some s);
                UserKey.cloud_token_request ext (Some s)].
Proof.
  intro Hnew. unfold UserKey.new, construct in Hnew.
  destruct (init_unresolved ext a UserKey.fresh t0) as [(s & Hres & Hlen) | (e & He)].
  2:{ rewrite He in Hnew. discriminate Hnew. }
  rewrite (init_resolved ext a s UserKey.fresh t0 Hres Hlen) in Hnew. cbv zeta in Hnew.
  destruct (server ext t0 _) as [r1 | e]; [| discriminate Hnew].
  destruct (status_code r1 =? 200)%Z; [| discriminate Hnew].
  destruct (UserKey.get_cloud_token ext _ _) as [[o self'] t''] eqn:Hget.
  destruct o as [b | e]; [| discriminate Hnew].
  injection Hnew as <- <- <-.
  apply get_cloud_token_inv in Hget.
  destruct Hget as (-> & r2 & body & sc & _ & _ & _ & _ & Hnull & Hsome).
  cbn [UserKey.key UserKey.set_key] in *.
  exists s. repeat split; try assumption.
  - assert (Hcases : sc = PyNone \/ sc <> PyNone)
      by (destruct sc; ((left; reflexivity) || (right; discriminate))).
    destruct Hcases as [Hsc | Hsc].
    + now rewrite (Hnull Hsc).
    + destruct (Hsome Hsc) as (token & _ & ->). reflexivity.
  - now rewrite <- app_assoc.
Qed.

(** A constructed [AccountInfo] has sent exactly five requests, in this
    order and all with the same secret: taxonomy, cloud token, account,
    extractions, streams.  It owns a [UserKey] holding that secret and
    both of its lists are loaded. *)
Theorem account_construction_requests :
  forall (ext : externals) (a : UserKey.arg) (S : Type) (st st' : S) (t0 t' : trace)
         (account : AccountInfo.obj),
    AccountInfo.new ext a st t0 = (Return account, st', t') ->
    exists s u,
      resolves ext a s /\ String.length s = 32 /\
      AccountInfo.user_key account = Some u /\ UserKey.key u = Some s /\
      AccountInfo.extractions account <> None /\
      AccountInfo.streams account <> None /\
      st' = st /\
      t' = t0 ++ [UserKey.taxonomy_request ext (Some s);
                  UserKey.cloud_token_request ext (Some s);
                  AccountInfo.stats_request ext (Some s);
                  AccountInfo.extractions_request ext (Some s);
                  AccountInfo.streams_request ext (Some s)].
Proof.
  intros ext a S st st' t0 t' account Hnew.
  unfold AccountInfo.new, construct, AccountInfo.__init__ in Hnew.
  unfold bind at 1 in Hnew.
  destruct (UserKey.new ext a AccountInfo.fresh t0) as [[o1 a0] t1] eqn:Hkey.
  destruct o1 as [u |]; [| discriminate Hnew].
  apply new_key_inv in Hkey. destruct Hkey as (s & Hres & Hlen & Hs & -> & ->).
  unfold bind at 1, modify at 1 in Hnew.
  set (a1 := AccountInfo.set_user_key (Some u) AccountInfo.fresh) in *.
  assert (Hu1 : AccountInfo.user_key a1 = Some u) by reflexivity.
  unfold bind at 1 in Hnew.
  destruct (AccountInfo.get_stats ext a1 _) as [[o2 a2] t2] eqn:Hstats.
  destruct (get_stats_frame _ _ _ _ _ _ _ Hu1 Hstats) as (-> & Hu2 & _ & _).
  rewrite Hu1 in Hu2.
  destruct o2; [| discriminate Hnew].
  unfold bind at 1 in Hnew.
  destruct (AccountInfo.get_extractions ext false a2 _) as [[o3 a3] t3] eqn:Hext.
  destruct (get_extractions_frame _ _ _ _ _ _ _ _ Hu2 Hext) as (-> & Hstored3).
  destruct o3 as [l |]; [| discriminate Hnew]. cbn [stored_or_untouched] in Hstored3.
  assert (Hu3 : AccountInfo.user_key a3 = Some u)
    by (subst a3; destruct a2; exact Hu2).
  unfold bind at 1 in Hnew.
  destruct (AccountInfo.get_streams ext false a3 _) as [[o4 a4] t4] eqn:Hstr.
  destruct (get_streams_frame _ _ _ _ _ _ _ _ Hu3 Hstr) as (-> & Hstored4).
  destruct o4 as [df |]; [| discriminate Hnew]. cbn [stored_or_untouched] in Hstored4.
  unfold ret in Hnew. injection Hnew as <- <- <-.
  exists s, u. rewrite Hs.
  subst a4 a3. destruct a2. cbn in Hu2 |- *.
  repeat split; try assumption; try discriminate.
  now rewrite <- !app_assoc.
Qed.

Lemma account_construction_requests_witness :
  let ext := Demo.world Demo.account_response in
  exists s u,
    resolves ext UserKey.ArgNone s /\ String.length s = 32 /\
    AccountInfo.user_key Demo.loaded = Some u /\ UserKey.key u = Some s /\
    AccountInfo.extractions Demo.loaded <> None /\
    AccountInfo.streams Demo.loaded <> None /\
    tt = tt /\
    [UserKey.taxonomy_request ext (Some Sample.DUMMY_KEY);
     UserKey.cloud_token_request ext (Some Sample.DUMMY_KEY);
     AccountInfo.stats_request ext (Some Sample.DUMMY_KEY);
     AccountInfo.extractions_request ext (Some Sample.DUMMY_KEY);
     AccountInfo.streams_request ext (Some Sample.DUMMY_KEY)]
    = [] ++ [UserKey.taxonomy_request ext (Some s);
             UserKey.cloud_token_request ext (Some s);
             AccountInfo.stats_request ext (Some s);
             AccountInfo.extractions_request ext (Some s);
             AccountInfo.streams_request ext (Some s)].
Proof.
  cbv zeta.
  apply (account_construction_requests (Demo.world Demo.account_response)
           UserKey.ArgNone unit tt tt []).
  reflexivity.
Defined.

(** [AccountInfo] inherits the failures of [UserKey]: whatever
    [UserKey(user_key)] raises is raised unchanged and nothing more is
    sent.  So a secret of the wrong length gives the wrong-length
    [ValueError] without any request, and an inactive one the
    inactive-key [ValueError] after the taxonomy request alone; the
    account endpoint is not contacted. *)
Theorem account_inherits_key_errors :
  forall (ext : externals) (a : UserKey.arg) (S : Type) (st : S) (t0 : trace),
    (forall e u' t',
        UserKey.__init__ ext a UserKey.fresh t0 = (Raise e, u', t') ->
        AccountInfo.new ext a st t0 = (Raise e, st, t')) /\
    (forall s,
        resolves ext a s -> String.length s <> 32 ->
        AccountInfo.new ext a st t0
        = (Raise (ValueError UserKey.wrong_length_message), st, t0)) /\
    (forall s r,
        resolves ext a s -> String.length s = 32 ->
        server ext t0 (UserKey.taxonomy_request ext (Some s)) = Return r ->
        status_code r <> 200%Z ->
        AccountInfo.new ext a st t0
        = (Raise (ValueError UserKey.inactive_message), st,
           t0 ++ [UserKey.taxonomy_request ext (Some s)])).
Proof.
  intros ext a S st t0.
  assert (Hprop : forall e u' t',
             UserKey.__init__ ext a UserKey.fresh t0 = (Raise e, u', t') ->
             AccountInfo.new ext a st t0 = (Raise e, st, t')).
  { intros e u' t' Hinit.
    unfold AccountInfo.new, construct, AccountInfo.__init__, UserKey.new, construct.
    unfold bind at 1. now rewrite Hinit. }
  split; [exact Hprop |]. split.
  - intros s Hres Hlen.
    apply (Hprop _ UserKey.fresh). now apply init_wrong_length with (s := s).
  - intros s r Hres Hlen Hsrv Hst.
    apply (Hprop _ (UserKey.set_key (Some s) UserKey.fresh)).
    rewrite (init_resolved ext a s UserKey.fresh t0 Hres Hlen). cbv zeta.
    now rewrite Hsrv, (eqb_status_neq _ _ Hst).
Qed.

Lemma account_inherits_key_errors_witness :
  AccountInfo.new (Sample.world Sample.inactive) (UserKey.ArgStr "abc") tt []
  = (Raise (ValueError UserKey.wrong_length_message), tt, []) /\
  AccountInfo.new (Sample.world Sample.inactive) (UserKey.ArgStr Sample.DUMMY_KEY) tt []
  = (Raise (ValueError UserKey.inactive_message), tt,
     [UserKey.taxonomy_request (Sample.world Sample.inactive) (Some Sample.DUMMY_KEY)]).
Proof.
  split.
  - apply (proj1 (proj2 (account_inherits_key_errors (Sample.world Sample.inactive)
                           (UserKey.ArgStr "abc") unit tt [])) "abc").
    + left. reflexivity.
    + cbn. lia.
  - apply (proj2 (proj2 (account_inherits_key_errors (Sample.world Sample.inactive)
                           (UserKey.ArgStr Sample.DUMMY_KEY) unit tt []))
             Sample.DUMMY_KEY (Sample.status 403)).
    + left. reflexivity.
    + reflexivity.
    + reflexivity.
    + cbn. lia.
Defined.

(** The fetches run in order and the first failure ends the
    construction: with a valid key, an account endpoint that answers
    anything but 200 makes [AccountInfo] raise the error of [get_stats],
    and the extraction and stream endpoints are never contacted. *)
Theorem account_stops_at_failed_stats :
  forall (ext : externals) (a : UserKey.arg) (S : Type) (st : S) (t0 t1 : trace)
         (u : UserKey.obj) (r : response),
    UserKey.__init__ ext a UserKey.fresh t0 = (Return tt, u, t1) ->
    server ext t1 (AccountInfo.stats_request ext (UserKey.key u)) = Return r ->
    status_code r <> 200%Z ->
    AccountInfo.new ext a st t0
    = (Raise (if (status_code r =? 403)%Z
              then ValueError stats_inactive_message
              else RuntimeError stats_error_message),
       st, t1 ++ [AccountInfo.stats_request ext (UserKey.key u)]).
Proof.
  intros ext a S st t0 t1 u r Hinit Hsrv Hst.
  unfold AccountInfo.new, construct, AccountInfo.__init__, UserKey.new, construct.
  unfold bind at 1. rewrite Hinit.
  unfold bind at 1, modify at 1. unfold bind at 1.
  set (a1 := AccountInfo.set_user_key (Some u) AccountInfo.fresh).
  destruct (AccountInfo.get_stats ext a1 t1) as [[o a2] t2] eqn:Hstats.
  destruct (get_stats_inv ext a1 a2 u t1 t2 r o eq_refl Hsrv Hstats) as (-> & _ & Hout).
  rewrite (eqb_status_neq _ _ Hst) in Hout.
  destruct (status_code r =? 403)%Z; now destruct Hout as [-> _].
Qed.

Lemma account_stops_at_failed_stats_witness :
  let ext := Demo.world (Sample.status 500) in
  AccountInfo.new ext (UserKey.ArgStr Sample.DUMMY_KEY) tt []
  = (Raise (RuntimeError stats_error_message), tt,
     [UserKey.taxonomy_request ext (Some Sample.DUMMY_KEY);
      UserKey.cloud_token_request ext (Some Sample.DUMMY_KEY);
      AccountInfo.stats_request ext (Some Sample.DUMMY_KEY)]).
Proof.
  cbv zeta.
  apply (account_stops_at_failed_stats (Demo.world (Sample.status 500))
           (UserKey.ArgStr Sample.DUMMY_KEY) unit tt []
           [UserKey.taxonomy_request (Demo.world (Sample.status 500))
              (Some Sample.DUMMY_KEY);
            UserKey.cloud_token_request (Demo.world (Sample.status 500))
              (Some Sample.DUMMY_KEY)]
           Demo.credential (Sample.status 500)).
  - reflexivity.
  - reflexivity.
  - cbn. lia.
Defined.

(** ** Transport failures *)

(** No method catches what the transport raises: the exception comes out
    of the method as it is.  During construction it is not turned into
    the inactive-key error, and in [get_streams] it is not turned into the
    unexpected-response error, because the request is sent outside the
    [try] block.  The object is left as it was (the key being set already
    during construction). *)
Theorem transport_failures_propagate :
  forall (ext : externals) (e : exn) (t0 : trace),
    (forall a s self,
        resolves ext a s -> String.length s = 32 ->
        server ext t0 (UserKey.taxonomy_request ext (Some s)) = Raise e ->
        UserKey.__init__ ext a self t0
        = (Raise e, UserKey.set_key (Some s) self,
           t0 ++ [UserKey.taxonomy_request ext (Some s)])) /\
    (forall self,
        server ext t0 (UserKey.cloud_token_request ext (UserKey.key self)) = Raise e ->
        UserKey.get_cloud_token ext self t0
        = (Raise e, self, t0 ++ [UserKey.cloud_token_request ext (UserKey.key self)])) /\
    (forall self u,
        AccountInfo.user_key self = Some u ->
        (server ext t0 (AccountInfo.stats_request ext (UserKey.key u)) = Raise e ->
         AccountInfo.get_stats ext self t0
         = (Raise e, self, t0 ++ [AccountInfo.stats_request ext (UserKey.key u)])) /\
        (forall updates,
            server ext t0 (AccountInfo.extractions_request ext (UserKey.key u)) = Raise e ->
            AccountInfo.get_extractions ext updates self t0
            = (Raise e, self,
               t0 ++ [AccountInfo.extractions_request ext (UserKey.key u)])) /\
        (forall running,
            server ext t0 (AccountInfo.streams_request ext (UserKey.key u)) = Raise e ->
            AccountInfo.get_streams ext running self t0
            = (Raise e, self, t0 ++ [AccountInfo.streams_request ext (UserKey.key u)]))).
Proof.
  intros ext e t0. split; [| split].
  - intros a s self Hres Hlen Hsrv.
    rewrite (init_resolved ext a s self t0 Hres Hlen). cbv zeta. now rewrite Hsrv.
  - intros self Hsrv. run. now rewrite Hsrv.
  - intros self u Hu. split; [| split].
    + intro Hsrv. unfold AccountInfo.get_stats. run_account. now rewrite Hu, Hsrv.
    + intros updates Hsrv. run_account. now rewrite Hu, Hsrv.
    + intros running Hsrv. run_account. now rewrite Hu, Hsrv.
Qed.

Lemma transport_failures_propagate_witness :
  UserKey.__init__ Demo.unreachable (UserKey.ArgStr Sample.DUMMY_KEY) UserKey.fresh []
  = (Raise TransportError, UserKey.set_key (Some Sample.DUMMY_KEY) UserKey.fresh,
     [UserKey.taxonomy_request Demo.unreachable (Some Sample.DUMMY_KEY)]) /\
  AccountInfo.get_streams Demo.unreachable true Sample.account_view []
  = (Raise TransportError, Sample.account_view,
     [AccountInfo.streams_request Demo.unreachable (Some Sample.DUMMY_KEY)]).
Proof.
  split.
  - apply (proj1 (transport_failures_propagate Demo.unreachable TransportError [])
             (UserKey.ArgStr Sample.DUMMY_KEY) Sample.DUMMY_KEY UserKey.fresh).
    + left. reflexivity.
    + reflexivity.
    + reflexivity.
  - apply (proj2 (proj2 (proj2 (proj2 (transport_failures_propagate Demo.unreachable
                                          TransportError []))
                           Sample.account_view
                           (UserKey.set_key (Some Sample.DUMMY_KEY) UserKey.fresh)
                           eq_refl)) true).
    reflexivity.
Defined.

(** ** Fields a listing must have *)

Lemma add_keys_origin (k : string) (ks seen : list string) :
  In k (pd.add_keys seen ks) -> In k seen \/ In k ks.
Proof.
  revert seen. induction ks as [| k0 ks IH]; cbn [pd.add_keys In]; intros seen Hin;
    [now left |].
  destruct (IH _ Hin) as [Hseen | Hks]; [| right; now right].
  destruct (pd.mem k0 seen); [now left |].
  apply in_app_or in Hseen. destruct Hseen as [Hseen | [<- | []]];
    [now left | right; now left].
Qed.

Lemma union_keys_origin (k : string) (records : list dict) :
  In k (pd.union_keys records) -> exists d, In d records /\ In k (map fst d).
Proof.
  unfold pd.union_keys.
  assert (H : forall seen,
             In k (fold_left (fun seen d => pd.add_keys seen (map fst d)) records seen) ->
             In k seen \/ exists d, In d records /\ In k (map fst d)).
  { induction records as [| d0 records IH]; cbn [fold_left]; intros seen Hin;
      [now left |].
    destruct (IH _ Hin) as [Hseen | (d & Hd & Hk)].
    - destruct (add_keys_origin _ _ _ Hseen) as [Hs | Hk]; [now left |].
      right. exists d0. split; [now left | exact Hk].
    - right. exists d. split; [now right | exact Hk]. }
  intro Hin. destruct (H [] Hin) as [[] | Hd]. exact Hd.
Qed.

Lemma setitem_columns (c c' : string) (vals : list value) (df : pd.DataFrame) :
  In c (pd.columns (pd.setitem c' vals df)) -> c <> c' -> In c (pd.columns df).
Proof.
  unfold pd.setitem. cbn [pd.columns].
  destruct (pd.mem c' (pd.columns df)); [trivial |].
  intros Hin Hc. apply in_app_or in Hin. destruct Hin as [Hin | [<- | []]];
    [exact Hin | congruence].
Qed.

Lemma renamed_column_origin (old new c : string) (records : list dict) :
  In c (pd.columns (pd.rename old new (pd.of_records records))) -> c <> new ->
  exists d, In d records /\ In c (map fst d).
Proof.
  unfold pd.rename, pd.of_records. cbn [pd.columns]. intros Hin Hc.
  apply in_map_iff in Hin. destruct Hin as (c0 & Hrel & Hin).
  unfold pd.relabel in Hrel. destruct (String.eqb c0 old); [congruence |].
  subst c0. now apply union_keys_origin.
Qed.

Lemma drop_needs_labels (labels : list string) (df df' : pd.DataFrame) (c : string) :
  pd.drop labels df = Return df' -> In c labels -> In c (pd.columns df).
Proof.
  unfold pd.drop. destruct (find _ labels) eqn:Hfind; [discriminate |].
  intros _ Hin. apply mem_In.
  pose proof (find_none _ _ Hfind c Hin) as H. now apply negb_false_iff in H.
Qed.

(** The records a frame of extractions was built from carry the envelope
    fields the frame drops. *)
Lemma extraction_frame_fields (ext : externals) (updates : bool) (data : value)
    (df : pd.DataFrame) (records : list dict) (items : list value) (c : string) :
  AccountInfo.extraction_frame ext updates data = Return df ->
  py_iter data = Return items ->
  AccountInfo.flatten_all ext items = Return records ->
  In c ["self"; "type"] ->
  exists d, In d records /\ In c (map fst d).
Proof.
  unfold AccountInfo.extraction_frame. intros H Hiter Hflat Hc.
  rewrite Hiter, Hflat in H.
  destruct (pd.series _ "object_id") as [object_ids |]; [| discriminate].
  destruct (pd.str_accessor _) as [object_ids' |]; [| discriminate].
  destruct (if Nat.leb 5 _ then _ else _) as [short_id |]; [| discriminate].
  destruct (if Nat.leb 7 _ then _ else _) as [update_id |]; [| discriminate].
  destruct (pd.drop _ _) as [df1 |] eqn:Hdrop; [| discriminate].
  pose proof (drop_needs_labels _ _ _ c Hdrop Hc) as Hcol.
  assert (Hne : c <> "update_id" /\ c <> "short_id" /\ c <> "object_id")
    by (destruct Hc as [<- | [<- | []]]; repeat split; discriminate).
  destruct Hne as (H1 & H2 & H3).
  apply setitem_columns in Hcol; [| exact H1].
  apply setitem_columns in Hcol; [| exact H2].
  now apply renamed_column_origin in Hcol.
Qed.

(** [get_extractions] returns a list for a non-empty listing only if
    some record of it has a [self] field and some record a [type] field
    once flattened: the frame drops both columns, and dropping a column
    that is not there raises. *)
Theorem extraction_listing_has_envelope_fields :
  forall (ext : externals) (updates : bool) (self self' : AccountInfo.obj)
         (t0 t' : trace) (l : SnapshotExtractionList) (k : option string)
         (r : response) (body : value) (records : list dict),
    AccountInfo.get_extractions ext updates self t0 = (Return l, self', t') ->
    holds_key self k ->
    server ext t0 (AccountInfo.extractions_request ext k) = Return r ->
    json r = Some body ->
    flattened_records ext body records ->
    records <> [] ->
    (exists d, In d records /\ In "self" (map fst d)) /\
    (exists d, In d records /\ In "type" (map fst d)).
Proof.
  intros ext updates self self' t0 t' l k r body records Hget Hk Hsrv Hjson
         (data & items & Hdata & Hiter & Hflat) Hne.
  apply get_extractions_inv in Hget.
  destruct Hget as (k' & r' & body' & data' & Hk' & Hsrv' & _ & Hjson' & Hdata' & Hframe).
  rewrite (holds_key_unique self k' k Hk' Hk) in Hsrv'.
  assert (r' = r) by congruence. subst r'.
  assert (body' = body) by congruence. subst body'.
  assert (data' = data) by congruence. subst data'.
  destruct (AccountInfo.is_empty_list data) eqn:Hempty.
  { destruct data as [| | | | | [| ? ?] |]; try discriminate Hempty.
    cbn in Hiter. injection Hiter as <-. cbn in Hflat. injection Hflat as <-.
    now destruct Hne. }
  split.
  - apply (extraction_frame_fields ext updates data _ records items "self" Hframe Hiter Hflat).
    now left.
  - apply (extraction_frame_fields ext updates data _ records items "type" Hframe Hiter Hflat).
    right. now left.
Qed.

Lemma extraction_listing_has_envelope_fields_witness :
  let records := [Sample.flatten (Sample.extraction Sample.update_id);
                  Sample.flatten (Sample.extraction Sample.original_id)] in
  (exists d, In d records /\ In "self" (map fst d)) /\
  (exists d, In d records /\ In "type" (map fst d)).
Proof.
  cbv zeta.
  apply (extraction_listing_has_envelope_fields (Sample.world Sample.listing) true
           Sample.account_view
           (AccountInfo.set_extractions (Some (Sample.listed_extractions true))
              Sample.account_view)
           [] [AccountInfo.extractions_request (Sample.world Sample.listing)
                 (Some Sample.DUMMY_KEY)]
           (Sample.listed_extractions true) (Some Sample.DUMMY_KEY)
           (Sample.extraction_list Sample.listing)
           (PyDict [("data", PyList [Sample.extraction Sample.update_id;
                                     Sample.extraction Sample.original_id])])).
  - reflexivity.
  - eexists. split; reflexivity.
  - reflexivity.
  - reflexivity.
  - eexists. eexists. repeat split.
  - discriminate.
Defined.
